(** * Release gate: a shallow embedding of [jenkins/python/release_gate.py]

    The gate reads a policy and, per deployment mode, a bundle of artifacts
    produced by an upstream pipeline, and turns them into an exit code.

    Python values are embedded as the JSON fragment the gate can receive
    (null, booleans, integers, strings, lists, objects with string keys);
    floating-point numbers are not represented.  A [str] is represented by a
    Rocq string, ASCII text by itself and other characters through an
    ASCII-compatible encoding such as UTF-8.  The methods of [str] that look
    at characters ([upper], [lower], [strip], iteration, [repr]) and [int]
    on a [str] belong to Python's Unicode library: the code is embedded over
    any implementation of them (class [Text]), and the worked examples run
    on an ASCII one.  Exceptions are explicit ([Raise]); file-system accesses
    and [print] calls are recorded in a trace. *)

From Stdlib Require Import ZArith Ascii DecimalString.
From stdpp Require Import base strings list gmap sorting.

Local Open Scope Z_scope.

(** ** Python values, exceptions and the result type *)

#[local] Set Warnings "-register-all,-clear-no-such-hyp".

Inductive pyval : Type :=
  | PNone
  | PBool (b : bool)
  | PInt (n : Z)
  | PStr (s : string)
  | PList (xs : list pyval)
  | PDict (items : list (string * pyval)).

Inductive exn : Type :=
  | AttributeError
  | TypeError
  | ValueError
  | KeyError
  | FileNotFoundError
  | IsADirectoryError
  | UnicodeDecodeError
  | JSONDecodeError
  | OverflowError
  | RecursionError.

Inductive res (A : Type) : Type :=
  | Ok (a : A)
  | Raise (e : exn).
Arguments Ok {A} a.
Arguments Raise {A} e.

Definition res_bind {A B : Type} (m : res A) (k : A -> res B) : res B :=
  match m with
  | Ok a => k a
  | Raise e => Raise e
  end.

(** ** Strings

    [PyStr] holds what the embedding needs of strings whatever their
    characters (substring test, joining, padding) and the ASCII version of
    the character-level methods, which the worked examples run on and the
    laws of the text library refer to. *)

Module PyStr.

Definition code (c : ascii) : N := N_of_ascii c.

(** [str.isspace] on ASCII: TAB..CR, FS..US and SPACE. *)
Definition is_space (c : ascii) : bool :=
  let n := code c in
  ((9 <=? n) && (n <=? 13) || (28 <=? n) && (n <=? 32))%N.

Definition upper_char (c : ascii) : ascii :=
  let n := code c in
  if ((97 <=? n) && (n <=? 122))%N then ascii_of_N (n - 32) else c.

Definition lower_char (c : ascii) : ascii :=
  let n := code c in
  if ((65 <=? n) && (n <=? 90))%N then ascii_of_N (n + 32) else c.

Fixpoint map_chars (f : ascii -> ascii) (s : string) : string :=
  match s with
  | EmptyString => EmptyString
  | String c s' => String (f c) (map_chars f s')
  end.

Definition upper : string -> string := map_chars upper_char.
Definition lower : string -> string := map_chars lower_char.

Fixpoint lstrip (s : string) : string :=
  match s with
  | EmptyString => EmptyString
  | String c s' => if is_space c then lstrip s' else s
  end.

(** [rstrip] keeps a character when it is not white space or when
    something survives to its right. *)
Fixpoint rstrip (s : string) : string :=
  match s with
  | EmptyString => EmptyString
  | String c s' =>
      match rstrip s' with
      | EmptyString => if is_space c then EmptyString else String c EmptyString
      | r => String c r
      end
  end.

Definition strip (s : string) : string := rstrip (lstrip s).

Fixpoint all_space (s : string) : bool :=
  match s with
  | EmptyString => true
  | String c s' => is_space c && all_space s'
  end.

Fixpoint contains_char (c : ascii) (s : string) : bool :=
  match s with
  | EmptyString => false
  | String d s' => if Ascii.eqb c d then true else contains_char c s'
  end.

Fixpoint prefix (p s : string) : bool :=
  match p, s with
  | EmptyString, _ => true
  | String a p', String b s' => Ascii.eqb a b && prefix p' s'
  | String _ _, EmptyString => false
  end.

(** [needle in hay] for strings. *)
Fixpoint contains (needle hay : string) : bool :=
  prefix needle hay ||
  match hay with
  | EmptyString => false
  | String _ hay' => contains needle hay'
  end.

Fixpoint join (sep : string) (l : list string) : string :=
  match l with
  | [] => ""
  | [x] => x
  | x :: l' => x +:+ sep +:+ join sep l'
  end.

Fixpoint chars (s : string) : list string :=
  match s with
  | EmptyString => []
  | String c s' => String c EmptyString :: chars s'
  end.

Fixpoint spaces (n : nat) : string :=
  match n with
  | O => ""
  | S n' => String " " (spaces n')
  end.

(** The format specification [{s:11s}]: left-aligned, padded to a width. *)
Definition ljust (width : nat) (s : string) : string :=
  s +:+ spaces (width - String.length s).

(** [repr] of ASCII text. *)
Definition hex_digit (n : N) : ascii :=
  ascii_of_N (if (n <? 10)%N then 48 + n else 87 + n).

Definition repr_char (quote c : ascii) : string :=
  let n := code c in
  if Ascii.eqb c "\" then "\\"
  else if Ascii.eqb c quote then String "\" (String c "")
  else if (n =? 10)%N then "\n"
  else if (n =? 13)%N then "\r"
  else if (n =? 9)%N then "\t"
  else if ((n <? 32) || (127 <=? n) && (n <? 160) || (n =? 173))%N
    then String "\" (String "x" (String (hex_digit (n / 16))
                                  (String (hex_digit (n mod 16)) "")))
  else String c "".

Fixpoint repr_body (quote : ascii) (s : string) : string :=
  match s with
  | EmptyString => ""
  | String c s' => repr_char quote c +:+ repr_body quote s'
  end.

Definition dquote : ascii := ascii_of_N 34.

Definition repr_str (s : string) : string :=
  let q := if contains_char "'" s && negb (contains_char dquote s)
           then dquote else "'"%char in
  String q (repr_body q s) +:+ String q "".

(** [int] on ASCII text: an optional sign and decimal digits, single
    underscores between digits, blanks around; the blanks are TAB..CR and
    SPACE (FS..US are white space for [strip] but not for [int]), and more
    than 4300 digits are refused. *)
Definition is_digit (c : ascii) : bool :=
  let n := code c in ((48 <=? n) && (n <=? 57))%N.

Definition int_space (c : ascii) : bool :=
  let n := code c in ((9 <=? n) && (n <=? 13) || (n =? 32))%N.

Fixpoint int_lstrip (s : string) : string :=
  match s with
  | EmptyString => EmptyString
  | String c s' => if int_space c then int_lstrip s' else s
  end.

Fixpoint int_rstrip (s : string) : string :=
  match s with
  | EmptyString => EmptyString
  | String c s' =>
      match int_rstrip s' with
      | EmptyString => if int_space c then EmptyString else String c EmptyString
      | r => String c r
      end
  end.

Fixpoint parse_digits (acc : Z) (count : nat) (after_digit : bool) (s : string)
  : option Z :=
  match s with
  | EmptyString => if after_digit && (count <=? 4300)%nat then Some acc else None
  | String c s' =>
      if is_digit c
      then parse_digits (10 * acc + Z.of_N (code c - 48)) (S count) true s'
      else if Ascii.eqb c "_" && after_digit then parse_digits acc count false s'
      else None
  end.

Definition int_of_str (s : string) : option Z :=
  match int_rstrip (int_lstrip s) with
  | String "+" d => parse_digits 0 0 false d
  | String "-" d => Z.opp <$> parse_digits 0 0 false d
  | d => parse_digits 0 0 false d
  end.

End PyStr.

(** ** The text library

    What the gate calls on a [str]: [upper], [lower], [strip], iteration
    over its characters, [repr], and [int].  [None] from [str_to_int] stands
    for the ValueError of [int]. *)

Class Text : Type := {
  str_upper : string -> string;
  str_lower : string -> string;
  str_strip : string -> string;
  str_chars : string -> list string;
  str_repr : string -> string;
  str_to_int : string -> option Z
}.

(** White space only: what [strip] leaves nothing of. *)
Definition blank {T : Text} (s : string) : Prop := str_strip s = "".

(** What the statements on letter case and padding use of the library; each
    law holds of CPython's [str].  White space around a text does not change
    what [strip] leaves of it, also after [upper] (which maps character by
    character and leaves white space alone); [lower] and [strip] commute;
    an ASCII character other than white space at the head of a text is
    still there, upper-cased, after [upper] and [strip]. *)
Class TextLaws (T : Text) : Prop := {
  str_strip_pad : forall l c r : string,
    blank l -> blank r -> str_strip (l +:+ c +:+ r) = str_strip c;
  str_upper_pad : forall l c r : string,
    blank l -> blank r ->
    str_strip (str_upper (l +:+ c +:+ r)) = str_strip (str_upper c);
  str_lower_strip : forall s : string,
    str_lower (str_strip s) = str_strip (str_lower s);
  str_ascii_head : forall (c : ascii) (s : string),
    (PyStr.code c < 128)%N -> PyStr.is_space c = false ->
    exists r, str_strip (str_upper (String c s)) = String (PyStr.upper_char c) r
}.

(** ** Builtins on values *)

Module Py.

Definition truthy (v : pyval) : bool :=
  match v with
  | PNone => false
  | PBool b => b
  | PInt n => negb (n =? 0)
  | PStr s => negb (String.eqb s "")
  | PList xs => match xs with [] => false | _ => true end
  | PDict items => match items with [] => false | _ => true end
  end.

(** [a or b] *)
Definition or_else (a b : pyval) : pyval := if truthy a then a else b.

Fixpoint assoc (k : string) (items : list (string * pyval)) : option pyval :=
  match items with
  | [] => None
  | (k', v) :: rest => if String.eqb k k' then Some v else assoc k rest
  end.

(** [d.get(k, dflt)]; only objects have a [get] attribute. *)
Definition get (d : pyval) (k : string) (dflt : pyval) : res pyval :=
  match d with
  | PDict items => Ok (default dflt (assoc k items))
  | _ => Raise AttributeError
  end.

Definition is_list (v : pyval) : bool :=
  match v with PList _ => true | _ => false end.

Definition is_dict (v : pyval) : bool :=
  match v with PDict _ => true | _ => false end.

(** What a [for] loop sees. *)
Definition iter {T : Text} (v : pyval) : res (list pyval) :=
  match v with
  | PList xs => Ok xs
  | PStr s => Ok (PStr <$> str_chars s)
  | PDict items => Ok ((fun kv => PStr (fst kv)) <$> items)
  | PNone | PBool _ | PInt _ => Raise TypeError
  end.

Definition str_of_Z (n : Z) : string := NilZero.string_of_int (Z.to_int n).

Fixpoint repr {T : Text} (v : pyval) : string :=
  match v with
  | PNone => "None"
  | PBool true => "True"
  | PBool false => "False"
  | PInt n => str_of_Z n
  | PStr s => str_repr s
  | PList xs => "[" +:+ PyStr.join ", " (map repr xs) +:+ "]"
  | PDict items =>
      "{" +:+ PyStr.join ", "
               (map (fun kv => str_repr (fst kv) +:+ ": " +:+ repr (snd kv)) items)
          +:+ "}"
  end.

(** [str(v)] *)
Definition str {T : Text} (v : pyval) : string :=
  match v with
  | PStr s => s
  | _ => repr v
  end.

(** [int(v)] *)
Definition int {T : Text} (v : pyval) : res Z :=
  match v with
  | PInt n => Ok n
  | PBool b => Ok (if b then 1 else 0)
  | PStr s => match str_to_int s with Some n => Ok n | None => Raise ValueError end
  | PNone | PList _ | PDict _ => Raise TypeError
  end.

(** [v != "PASS"]-style comparison against a string literal. *)
Definition ne_str (v : pyval) (lit : string) : bool :=
  match v with
  | PStr s => negb (String.eqb s lit)
  | _ => true
  end.

End Py.

(** ** Exit codes and the severity aggregator *)

Definition PASS : Z := 0.
Definition E_POLICY_FAIL : Z := 10.
Definition E_CRITICAL_PRESENT : Z := 11.
Definition E_HIGH_THRESHOLD : Z := 12.
Definition E_MANIFEST_SIGN : Z := 13.
Definition E_REQUIRED_OUTPUTS : Z := 14.
Definition E_REPORT_SECTIONS : Z := 15.
Definition E_SECRETS_IN_OUTPUTS : Z := 16.

Definition SEV_ORDER : list string :=
  ["CRITICAL"; "HIGH"; "MEDIUM"; "LOW"; "INFO"; "UNSPECIFIED"].

(** [{s: 0 for s in SEV_ORDER}] *)
Definition zero_counts : gmap string Z :=
  list_to_map ((fun s => (s, 0)) <$> SEV_ORDER).

(** The body of the loop of [count_severities]. *)
Definition count_one {T : Text} (counts : gmap string Z) (f : pyval)
  : res (gmap string Z) :=
  res_bind (Py.get f "severity" (PStr "UNSPECIFIED")) (fun sev =>
  let s := str_strip (str_upper (Py.str sev)) in
  let s := if bool_decide (is_Some (counts !! s)) then s else "UNSPECIFIED" in
  match counts !! s with
  | Some c => Ok (<[s := c + 1]> counts)
  | None => Raise KeyError
  end).

Fixpoint count_loop {T : Text} (counts : gmap string Z) (findings : list pyval)
  : res (gmap string Z) :=
  match findings with
  | [] => Ok counts
  | f :: rest => res_bind (count_one counts f) (fun counts' => count_loop counts' rest)
  end.

Definition count_severities {T : Text} (findings : list pyval) : res (gmap string Z) :=
  count_loop zero_counts findings.

(** [counts.get(s, 0)] *)
Definition counts_get (counts : gmap string Z) (s : string) : Z :=
  default 0 (counts !! s).

(** ** [scan_patterns]

    [re.search] belongs to the [re] library; the function is embedded over
    any engine.  An engine answers with a match, with no match, with
    [re.error] for a pattern it cannot compile, or with another exception
    (OverflowError for a repeat count beyond its limits, RecursionError). *)

Inductive re_outcome : Type :=
  | ReMatch
  | ReNoMatch
  | ReError
  | ReRaise (e : exn).

Section ScanPatterns.
Context {T : Text}.
Variable re_search : string -> string -> re_outcome.

(** One iteration of the loop: what it appends to [hits].  A regex that is
    not a string makes [re.search] raise TypeError; the [except re.error]
    clause catches neither that nor another exception of the engine. *)
Definition scan_one (text : string) (item : pyval) : res (list pyval) :=
  res_bind (Py.get item "name" (PStr "unnamed")) (fun name =>
  res_bind (Py.get item "regex" (PStr "")) (fun rgx =>
  match rgx with
  | PStr r =>
      match re_search r text with
      | ReMatch => Ok [name]
      | ReNoMatch => Ok []
      | ReError => Ok [PStr (Py.str name +:+ "(invalid-regex)")]
      | ReRaise e => Raise e
      end
  | _ => Raise TypeError
  end)).

Fixpoint scan_loop (text : string) (hits : list pyval) (patterns : list pyval)
  : res (list pyval) :=
  match patterns with
  | [] => Ok hits
  | item :: rest =>
      res_bind (scan_one text item) (fun new => scan_loop text (hits ++ new) rest)
  end.

Definition scan_patterns (patterns : list pyval) (text : string) : res (list pyval) :=
  scan_loop text [] patterns.

End ScanPatterns.

(** ** [report_missing_sections] and the lower-cased allow-list *)

Section TextCode.
Context {T : Text}.

(** [[s.lower() for s in xs]] *)
Fixpoint lower_all (xs : list pyval) : res (list string) :=
  match xs with
  | [] => Ok []
  | PStr s :: rest => res_bind (lower_all rest) (fun l => Ok (str_lower s :: l))
  | _ :: _ => Raise AttributeError
  end.

Fixpoint missing_sections_loop (low : string) (required : list pyval) : res (list pyval) :=
  match required with
  | [] => Ok []
  | PStr sec :: rest =>
      res_bind (missing_sections_loop low rest) (fun missing =>
      Ok (if PyStr.contains (str_lower sec) low then missing else PStr sec :: missing))
  | _ :: _ => Raise AttributeError
  end.

Definition report_missing_sections (required : pyval) (md_text : string)
  : res (list pyval) :=
  let low := str_lower md_text in
  res_bind (Py.iter required) (missing_sections_loop low).

End TextCode.

(** ** The platform: text, paths, the file system and the two parsers

    [pathlib], [json] and [yaml] are libraries, not code of the gate; the
    gate is embedded over any implementation of them and of the text
    library.  [None] from a parser stands for its exception (for
    [yaml_safe_load] also for a failing [import yaml]). *)

Class Platform : Type := {
  platform_text :: Text;
  Path : Type;
  mkpath : string -> Path;
  joinpath : Path -> string -> Path;
  json_loads : string -> option pyval;
  yaml_safe_load : string -> option pyval
}.

(** What a path holds.  The content of a [File] is its text as
    [read_text(encoding="utf-8")] returns it: decoded, with the line ends
    translated.  [Undecodable] is a file that is not valid UTF-8, with the
    text that decoding with [errors="ignore"] makes of it. *)
Inductive node : Type :=
  | File (content : string)
  | Undecodable (lenient : string)
  | Dir.

(** What a run does to the outside world, over some type of paths. *)
Inductive event (path : Type) : Type :=
  | EvExists (p : path)
  | EvRead (p : path)
  | EvPrint (text : string).
Arguments EvExists {path} p.
Arguments EvRead {path} p.
Arguments EvPrint {path} text.

(** The trace of a run: its events in the order they happen. *)
Abbreviation trace := (list (event Path)).

Section Gate.
Context {P : Platform}.

Definition filesystem : Type := Path -> option node.

(** A computation yields its trace and either a value or an exception. *)
Definition IO (A : Type) : Type := (trace * res A)%type.

Definition ret {A : Type} (a : A) : IO A := ([], Ok a).

Definition lift {A : Type} (r : res A) : IO A := ([], r).

Definition bind {A B : Type} (m : IO A) (k : A -> IO B) : IO B :=
  match m with
  | (t, Ok a) => let '(t', r) := k a in (t ++ t', r)
  | (t, Raise e) => (t, Raise e)
  end.

Definition print (text : string) : IO unit := ([EvPrint text], Ok tt).

Definition print_all (lines : list string) : IO unit := (EvPrint <$> lines, Ok tt).

Definition path_exists (fs : filesystem) (p : Path) : IO bool :=
  ([EvExists p], Ok (bool_decide (is_Some (fs p)))).

(** [p.read_text(encoding="utf-8")] *)
Definition read_text (fs : filesystem) (p : Path) : IO string :=
  ([EvRead p],
   match fs p with
   | Some (File content) => Ok content
   | Some (Undecodable _) => Raise UnicodeDecodeError
   | Some Dir => Raise IsADirectoryError
   | None => Raise FileNotFoundError
   end).

(** [p.read_text(encoding="utf-8", errors="ignore")] *)
Definition read_text_ignore (fs : filesystem) (p : Path) : IO string :=
  ([EvRead p],
   match fs p with
   | Some (File content) => Ok content
   | Some (Undecodable lenient) => Ok lenient
   | Some Dir => Raise IsADirectoryError
   | None => Raise FileNotFoundError
   end).

End Gate.

Notation "'let!' x ':=' m 'in' k" := (bind m (fun x => k))
  (at level 10, x name, m at level 100, k at level 200, only parsing).
Notation "m '>>' k" := (bind m (fun _ => k))
  (at level 90, right associativity, only parsing).

Section GateCode.
Context {P : Platform}.

Definition load_policy (fs : filesystem) (policy_path : Path) : IO pyval :=
  let! txt := read_text fs policy_path in
  match yaml_safe_load txt with
  | Some v => ret v
  | None =>
      match json_loads txt with
      | Some v => ret v
      | None => lift (Raise JSONDecodeError)
      end
  end.

Definition read_json (fs : filesystem) (path : Path) : IO pyval :=
  let! txt := read_text fs path in
  match json_loads txt with
  | Some v => ret v
  | None => lift (Raise JSONDecodeError)
  end.

(** [out_dir / rel] needs a string. *)
Definition file_exists (fs : filesystem) (out_dir : Path) (rel : pyval) : IO bool :=
  match rel with
  | PStr s => path_exists fs (joinpath out_dir s)
  | _ => lift (Raise TypeError)
  end.

(** [[f for f in required_files if not file_exists(out_dir, f)]] *)
Fixpoint missing_of (fs : filesystem) (out_dir : Path) (required_files : list pyval)
  : IO (list pyval) :=
  match required_files with
  | [] => ret []
  | f :: rest =>
      let! present := file_exists fs out_dir f in
      let! missing := missing_of fs out_dir rest in
      ret (if present then missing else f :: missing)
  end.

Definition newline : string := String (ascii_of_N 10) "".

Definition severity_row (counts : gmap string Z) (s : string) : string :=
  "  " +:+ PyStr.ljust 11 s +:+ " : " +:+ Py.str_of_Z (counts_get counts s).

Definition bullet (item : string) : string := "  - " +:+ item.

(** The texts [summarize] hands to [print], one per call. *)
Definition summary_lines (mode : string) (counts : gmap string Z)
    (warnings fails : list string) : list string :=
  [newline +:+ "=== RELEASE GATE SUMMARY (" +:+ mode +:+ ") ===";
   "Severity counts (as-reported):"]
  ++ (severity_row counts <$> SEV_ORDER)
  ++ (match warnings with
      | [] => []
      | _ => (newline +:+ "Warnings:") :: (bullet <$> warnings)
      end)
  ++ (match fails with
      | [] => []
      | _ => (newline +:+ "Failures:") :: (bullet <$> fails)
      end)
  ++ ["====================================" +:+ newline].

Definition summarize (mode : string) (counts : gmap string Z)
    (warnings fails : list string) : IO unit :=
  print_all (summary_lines mode counts warnings fails).

End GateCode.

Section GateOneMode.
Context {P : Platform}.

(** [policy.get("release_gate", {}) or {}] *)
Definition policy_section (policy : pyval) : res pyval :=
  res_bind (Py.get policy "release_gate" (PDict [])) (fun rg =>
  Ok (Py.or_else rg (PDict []))).

(** [fails.append(msg); summarize(mode, counts, warns, fails); return code] *)
Definition fail_with (mode : string) (counts : gmap string Z)
    (warns : list string) (msg : string) (code : Z) : IO Z :=
  summarize mode counts warns [msg] >> ret code.

(** Stage 3, entered with the signer already read and stripped.  [Some code]
    is an early [return code]; [None] falls through to stage 4. *)
Definition check_manifest (fs : filesystem) (rg : pyval) (mode : string)
    (out_dir : Path) (signer : string) : IO (option Z) :=
  let! required := lift (Py.get rg "require_signed_manifest" (PBool true)) in
  if Py.truthy required then
    let! configured := lift (Py.get rg "allowed_signers"
                               (PList [PStr "minisign"; PStr "openssl"])) in
    let! items := lift (Py.iter (Py.or_else configured (PList []))) in
    let! lowered := lift (lower_all items) in
    let allowed : gset string := list_to_set lowered in
    if negb (bool_decide (str_lower signer ∈ allowed)) then
      let! code := fail_with mode zero_counts []
        ("Manifest signer not allowed or missing: signer='" +:+ signer
           +:+ "' allowed="
           +:+ Py.repr (PList (PStr <$> merge_sort String.le (elements allowed))))
        E_MANIFEST_SIGN in
      ret (Some code)
    else
      let! present := path_exists fs (joinpath out_dir "manifest.sig") in
      if negb present then
        let! code := fail_with mode zero_counts [] "manifest.sig missing"
                       E_MANIFEST_SIGN in
        ret (Some code)
      else ret None
  else ret None.

(** Stage 5: the report sections, entered with the counts and warnings of
    stage 4. *)
Definition gate_from_report (fs : filesystem) (rg : pyval) (mode : string)
    (out_dir : Path) (counts : gmap string Z) (warns : list string) : IO Z :=
  let! md := read_text_ignore fs (joinpath out_dir "consolidated_security_report.md") in
  let! rs := lift (Py.get rg "required_report_sections" (PList [])) in
  let required_sections := Py.or_else rs (PList []) in
  let! missing_sections := lift (report_missing_sections required_sections md) in
  match missing_sections with
  | _ :: _ =>
      fail_with mode counts warns
        ("Report missing sections: " +:+ Py.repr (PList missing_sections))
        E_REPORT_SECTIONS
  | [] => summarize mode counts warns [] >> ret PASS
  end.

(** [warns] after the MEDIUM threshold: the check appends a warning and
    goes on. *)
Definition medium_warnings (counts : gmap string Z) (max_med : Z) : list string :=
  if counts_get counts "MEDIUM" >? max_med then
    ["MEDIUM findings exceed recommended threshold: "
       +:+ Py.str_of_Z (counts_get counts "MEDIUM") +:+ " > "
       +:+ Py.str_of_Z max_med +:+ " (warning only)"]
  else [].

(** Stage 4 onwards: the findings shape and the severity gates. *)
Definition gate_from_findings (fs : filesystem) (rg : pyval) (mode : string)
    (out_dir : Path) : IO Z :=
  let! findings := read_json fs (joinpath out_dir "extracted_findings.json") in
  match findings with
  | PList records =>
      let! counts := lift (count_severities records) in
      let! fail_on_critical := lift (Py.get rg "fail_on_critical" (PBool true)) in
      if Py.truthy fail_on_critical && (counts_get counts "CRITICAL" >? 0) then
        fail_with mode counts []
          "CRITICAL findings present (as-reported). Release blocked."
          E_CRITICAL_PRESENT
      else
        let! mh := lift (Py.get rg "max_high_findings" (PInt 999999)) in
        let! max_high := lift (Py.int mh) in
        if counts_get counts "HIGH" >? max_high then
          fail_with mode counts []
            ("HIGH findings exceed threshold: "
               +:+ Py.str_of_Z (counts_get counts "HIGH") +:+ " > "
               +:+ Py.str_of_Z max_high)
            E_HIGH_THRESHOLD
        else
          let! mm := lift (Py.get rg "max_medium_findings" (PInt 999999)) in
          let! max_med := lift (Py.int mm) in
          let warns := medium_warnings counts max_med in
          gate_from_report fs rg mode out_dir counts warns
  | _ =>
      fail_with mode zero_counts [] "extracted_findings.json is not a list"
        E_REQUIRED_OUTPUTS
  end.

(** Stage 3 onwards: the signer file is read before the policy is asked
    whether signing is required. *)
Definition gate_from_manifest (fs : filesystem) (rg : pyval) (mode : string)
    (out_dir : Path) : IO Z :=
  let! raw := read_text fs (joinpath out_dir "manifest_signer.txt") in
  let signer := str_strip raw in
  let! early := check_manifest fs rg mode out_dir signer in
  match early with
  | Some code => ret code
  | None => gate_from_findings fs rg mode out_dir
  end.

(** Stage 2 onwards: both policy reports are read, then their statuses are
    checked, the pre report first. *)
Definition gate_from_policy_reports (fs : filesystem) (rg : pyval) (mode : string)
    (out_dir : Path) : IO Z :=
  let! pre := read_json fs (joinpath out_dir "policy_report.json") in
  let! post := read_json fs (joinpath out_dir "policy_report_post.json") in
  let! pre_status := lift (Py.get pre "status" PNone) in
  if Py.ne_str pre_status "PASS" then
    let! hits := lift (Py.get pre "hard_fail_hits" PNone) in
    fail_with mode zero_counts []
      ("policy_report.json status=" +:+ Py.str pre_status
         +:+ " hard_fail_hits=" +:+ Py.str hits)
      E_POLICY_FAIL
  else
    let! post_status := lift (Py.get post "status" PNone) in
    if Py.ne_str post_status "PASS" then
      let! hits := lift (Py.get post "hard_fail_hits" PNone) in
      fail_with mode zero_counts []
        ("policy_report_post.json status=" +:+ Py.str post_status
           +:+ " hard_fail_hits=" +:+ Py.str hits)
        E_SECRETS_IN_OUTPUTS
    else gate_from_manifest fs rg mode out_dir.

(** The body of [gate_one_mode] is cut at its numbered stages; each
    [gate_from_...] is the rest of the function from that stage on. *)
Definition gate_one_mode (fs : filesystem) (policy : pyval) (mode : string)
    (outputs_base : Path) : IO Z :=
  let! rg := lift (policy_section policy) in
  let! enabled := lift (Py.get rg "enabled" (PBool true)) in
  if negb (Py.truthy enabled) then
    print ("[" +:+ mode +:+ "] release_gate.disabled => PASS") >> ret PASS
  else
    let out_dir := joinpath outputs_base mode in
    (* 1) required files exist *)
    let! rf := lift (Py.get rg "required_files" (PList [])) in
    let! required_files := lift (Py.iter (Py.or_else rf (PList []))) in
    let! missing_files := missing_of fs out_dir required_files in
    match missing_files with
    | _ :: _ =>
        fail_with mode zero_counts []
          ("Missing required outputs: " +:+ Py.repr (PList missing_files))
          E_REQUIRED_OUTPUTS
    | [] => gate_from_policy_reports fs rg mode out_dir
    end.

(** How the process ends: [raise SystemExit(code)], or an exception that
    nothing catches. *)
Inductive outcome : Type :=
  | Exit (code : Z)
  | Uncaught (e : exn).

(** The loop of [main]. *)
Fixpoint run_modes (fs : filesystem) (policy : pyval) (outputs_base : Path)
    (modes : list string) : IO Z :=
  match modes with
  | [] => print "RELEASE GATE => PASS" >> ret PASS
  | m :: rest =>
      let! code := gate_one_mode fs policy m outputs_base in
      if negb (code =? PASS) then
        print ("[" +:+ m +:+ "] RELEASE GATE => FAIL (exit "
                 +:+ Py.str_of_Z code +:+ ")") >> ret code
      else run_modes fs policy outputs_base rest
  end.

(** [["tokyo","ny"] if args.mode == "both" else [args.mode]] *)
Definition modes_of (mode : string) : list string :=
  if String.eqb mode "both" then ["tokyo"; "ny"] else [mode].

Record args : Type := {
  arg_mode : string;
  arg_policy : string;
  arg_outputs_dir : string
}.

(** [main], entered with the parsed command line ([arg_mode] is one of
    tokyo, ny, both). *)
Definition main (fs : filesystem) (a : args) : trace * outcome :=
  let run :=
    let! policy := load_policy fs (mkpath (arg_policy a)) in
    let outputs_base := mkpath (arg_outputs_dir a) in
    run_modes fs policy outputs_base (modes_of (arg_mode a)) in
  match run with
  | (t, Ok code) => (t, Exit code)
  | (t, Raise e) => (t, Uncaught e)
  end.

End GateOneMode.

(** ** A concrete platform for worked examples

    Text is ASCII, paths are strings joined with a slash, PyYAML is not
    installed (so [load_policy] falls back to JSON), and [json.loads] is a
    reader for the JSON fragment of [pyval]: literals, integers, strings
    with the simple escapes, arrays and objects. *)

Module Demo.

Definition json_space (c : ascii) : bool :=
  let n := PyStr.code c in ((n =? 32) || (n =? 9) || (n =? 10) || (n =? 13))%N.

Fixpoint skip_ws (s : string) : string :=
  match s with
  | String c s' => if json_space c then skip_ws s' else s
  | EmptyString => EmptyString
  end.

Fixpoint drop (n : nat) (s : string) : string :=
  match n, s with
  | S n', String _ s' => drop n' s'
  | _, _ => s
  end.

(** After the opening quote: the decoded text and what follows the closing
    quote. *)
Fixpoint read_string (s : string) : option (string * string) :=
  match s with
  | EmptyString => None
  | String c s' =>
      if Ascii.eqb c PyStr.dquote then Some ("", s')
      else if Ascii.eqb c "\" then
        match s' with
        | String e s'' =>
            let decoded :=
              if Ascii.eqb e PyStr.dquote then Some PyStr.dquote
              else if Ascii.eqb e "\" then Some "\"%char
              else if Ascii.eqb e "/" then Some "/"%char
              else if Ascii.eqb e "n" then Some (ascii_of_N 10)
              else if Ascii.eqb e "t" then Some (ascii_of_N 9)
              else if Ascii.eqb e "r" then Some (ascii_of_N 13)
              else if Ascii.eqb e "b" then Some (ascii_of_N 8)
              else if Ascii.eqb e "f" then Some (ascii_of_N 12)
              else None in
            match decoded, read_string s'' with
            | Some d, Some (txt, rest) => Some (String d txt, rest)
            | _, _ => None
            end
        | EmptyString => None
        end
      else if (PyStr.code c <? 32)%N then None
      else
        match read_string s' with
        | Some (txt, rest) => Some (String c txt, rest)
        | None => None
        end
  end.

Fixpoint read_digits (acc : Z) (s : string) : Z * string :=
  match s with
  | String c s' =>
      if PyStr.is_digit c
      then read_digits (10 * acc + Z.of_N (PyStr.code c - 48)) s'
      else (acc, s)
  | EmptyString => (acc, s)
  end.

Definition starts_fraction (s : string) : bool :=
  match s with
  | String c _ => Ascii.eqb c "." || Ascii.eqb c "e" || Ascii.eqb c "E"
  | EmptyString => false
  end.

(** An integer without sign; a fraction or exponent is outside [pyval]. *)
Definition read_nat (s : string) : option (Z * string) :=
  match s with
  | String c s' =>
      if Ascii.eqb c "0" then
        match s' with
        | String d _ => if PyStr.is_digit d || starts_fraction s' then None
                        else Some (0, s')
        | EmptyString => Some (0, s')
        end
      else if PyStr.is_digit c then
        let '(n, rest) := read_digits 0 s in
        if starts_fraction rest then None else Some (n, rest)
      else None
  | EmptyString => None
  end.

(** A later duplicate of a key replaces the earlier one. *)
Definition dict_set (k : string) (v : pyval) (items : list (string * pyval))
  : list (string * pyval) :=
  filter (fun kv => fst kv ≠ k) items ++ [(k, v)].

(** Elements after the opening bracket; [value] reads one element. *)
Fixpoint read_elements (value : string -> option (pyval * string)) (fuel : nat)
    (acc : list pyval) (s : string) : option (list pyval * string) :=
  match fuel with
  | O => None
  | S fuel' =>
      match value s with
      | Some (v, rest) =>
          match skip_ws rest with
          | String "," rest' => read_elements value fuel' (acc ++ [v]) rest'
          | String "]" rest' => Some (acc ++ [v], rest')
          | _ => None
          end
      | None => None
      end
  end.

Fixpoint read_members (value : string -> option (pyval * string)) (fuel : nat)
    (acc : list (string * pyval)) (s : string)
  : option (list (string * pyval) * string) :=
  match fuel with
  | O => None
  | S fuel' =>
      match skip_ws s with
      | String q s1 =>
          if Ascii.eqb q PyStr.dquote then
            match read_string s1 with
            | Some (k, s2) =>
                match skip_ws s2 with
                | String ":" s3 =>
                    match value s3 with
                    | Some (v, rest) =>
                        match skip_ws rest with
                        | String "," rest' =>
                            read_members value fuel' (dict_set k v acc) rest'
                        | String "}" rest' => Some (dict_set k v acc, rest')
                        | _ => None
                        end
                    | None => None
                    end
                | _ => None
                end
            | None => None
            end
          else None
      | EmptyString => None
      end
  end.

Fixpoint read_value (fuel : nat) (s : string) : option (pyval * string) :=
  match fuel with
  | O => None
  | S fuel' =>
      let s := skip_ws s in
      if PyStr.prefix "null" s then Some (PNone, drop 4 s)
      else if PyStr.prefix "true" s then Some (PBool true, drop 4 s)
      else if PyStr.prefix "false" s then Some (PBool false, drop 5 s)
      else
        match s with
        | String "[" s' =>
            match skip_ws s' with
            | String "]" rest => Some (PList [], rest)
            | _ =>
                match read_elements (read_value fuel') (String.length s') [] s' with
                | Some (xs, rest) => Some (PList xs, rest)
                | None => None
                end
            end
        | String "{" s' =>
            match skip_ws s' with
            | String "}" rest => Some (PDict [], rest)
            | _ =>
                match read_members (read_value fuel') (String.length s') [] s' with
                | Some (items, rest) => Some (PDict items, rest)
                | None => None
                end
            end
        | String "-" s' =>
            match read_nat s' with
            | Some (n, rest) => Some (PInt (- n), rest)
            | None => None
            end
        | String c s' =>
            if Ascii.eqb c PyStr.dquote then
              match read_string s' with
              | Some (txt, rest) => Some (PStr txt, rest)
              | None => None
              end
            else
              match read_nat s with
              | Some (n, rest) => Some (PInt n, rest)
              | None => None
              end
        | EmptyString => None
        end
  end.

Definition loads (txt : string) : option pyval :=
  match read_value (S (String.length txt)) txt with
  | Some (v, rest) =>
      match skip_ws rest with
      | EmptyString => Some v
      | _ => None
      end
  | None => None
  end.

Definition join (p : string) (rel : string) : string :=
  if PyStr.prefix "/" rel then rel else p +:+ "/" +:+ rel.

(** The text library on ASCII. *)
Definition text : Text := {|
  str_upper := PyStr.upper;
  str_lower := PyStr.lower;
  str_strip := PyStr.strip;
  str_chars := PyStr.chars;
  str_repr := PyStr.repr_str;
  str_to_int := PyStr.int_of_str
|}.

#[export] Instance platform : Platform := {|
  platform_text := text;
  Path := string;
  mkpath := fun s => s;
  joinpath := join;
  json_loads := loads;
  yaml_safe_load := fun _ => None
|}.

(** A file system given by its entries. *)
Fixpoint disk (entries : list (string * node)) : @filesystem platform :=
  fun p =>
    match entries with
    | [] => None
    | (q, n) :: rest => if String.eqb p q then Some n else disk rest p
    end.

(** JSON source text is written with ['] for the double quote. *)
Definition js : string -> string :=
  PyStr.map_chars (fun c => if Ascii.eqb c "'" then PyStr.dquote else c).

End Demo.

(** Policies and output trees used in the worked examples. *)
Module Cases.

Definition section (items : list (string * pyval)) : pyval :=
  PDict [("release_gate", PDict items)].

(** [{"release_gate": {"enabled": false, "required_files": ["a.json"]}}] *)
Definition policy_disabled : pyval :=
  section [("enabled", PBool false); ("required_files", PList [PStr "a.json"])].

(** [{"release_gate": {"required_files": ["a.json"]}}] *)
Definition policy_requires_a : pyval :=
  section [("required_files", PList [PStr "a.json"])].

(** An outputs directory without any artifact. *)
Definition empty_disk : @filesystem Demo.platform := Demo.disk [].

(** [{"release_gate": {}}]: every setting at its default. *)
Definition policy_defaults : pyval := section [].

(** [{"release_gate": {"max_medium_findings": 0}}] *)
Definition policy_medium0 : pyval := section [("max_medium_findings", PInt 0)].

(** [{"release_gate": {"require_signed_manifest": false}}] *)
Definition policy_unsigned : pyval := section [("require_signed_manifest", PBool false)].

Definition report_pass : string := Demo.js "{'status': 'PASS'}".

Definition report_fail : string :=
  Demo.js "{'status': 'FAIL', 'hard_fail_hits': ['aws-key']}".

Definition five_medium : string :=
  Demo.js ("[{'severity': 'MEDIUM'}, {'severity': 'medium'}, {'severity': ' Medium '}, "
             +:+ "{'severity': 'MEDIUM'}, {'severity': 'MEDIUM'}]").

(** The artifacts of tokyo other than the two manifest files: both policy
    reports PASS, the given findings text, a report with a summary. *)
Definition unsigned_bundle (findings : string) : list (string * node) :=
  [("outputs/tokyo/policy_report.json", File report_pass);
   ("outputs/tokyo/policy_report_post.json", File report_pass);
   ("outputs/tokyo/extracted_findings.json", File findings);
   ("outputs/tokyo/consolidated_security_report.md", File "# Summary")].

Definition signature_files : list (string * node) :=
  [("outputs/tokyo/manifest_signer.txt", File "minisign");
   ("outputs/tokyo/manifest.sig", File "")].

(** A clean bundle with five MEDIUM findings. *)
Definition medium_disk : @filesystem Demo.platform :=
  Demo.disk (signature_files ++ unsigned_bundle five_medium).

(** The same bundle without [manifest_signer.txt] and [manifest.sig]. *)
Definition unsigned_disk : @filesystem Demo.platform :=
  Demo.disk (unsigned_bundle five_medium).

(** The unsigned bundle plus a signer file naming a tool that is not on the
    allow-list; there is still no [manifest.sig]. *)
Definition signer_only_disk : @filesystem Demo.platform :=
  Demo.disk (("outputs/tokyo/manifest_signer.txt", File "gpg") :: unsigned_bundle five_medium).

(** A clean bundle whose findings artifact is a JSON object. *)
Definition findings_object_disk : @filesystem Demo.platform :=
  Demo.disk (signature_files ++ unsigned_bundle "{}").

(** Only a failing pre report exists. *)
Definition pre_fail_disk : @filesystem Demo.platform :=
  Demo.disk [("outputs/tokyo/policy_report.json", File report_fail)].

(** A toy engine: an opening parenthesis alone does not compile, the
    repeat count of [a{4294967296}] is beyond the engine's limits, anything
    else is searched for as a literal. *)
Definition literal_search (rgx text : string) : re_outcome :=
  if String.eqb rgx "(" then ReError
  else if String.eqb rgx "a{4294967296}" then ReRaise OverflowError
  else if PyStr.contains rgx text then ReMatch else ReNoMatch.

(** The command line [--mode both --policy policy.yml --outputs-dir outputs]. *)
Definition both_args : @args :=
  {| arg_mode := "both"; arg_policy := "policy.yml"; arg_outputs_dir := "outputs" |}.

(** Only the policy file exists; it lists [a.json] as required. *)
Definition policy_only_disk : @filesystem Demo.platform :=
  Demo.disk
    [("policy.yml", File (Demo.js "{'release_gate': {'required_files': ['a.json']}}"))].

End Cases.

(** ** Vocabulary of the statements *)

(** The label the aggregator derives from a record, and the category it is
    counted under. *)
Definition severity_label {T : Text} (f : pyval) : string :=
  match Py.get f "severity" (PStr "UNSPECIFIED") with
  | Ok sev => str_strip (str_upper (Py.str sev))
  | Raise _ => "UNSPECIFIED"
  end.

Definition category_of {T : Text} (f : pyval) : string :=
  if bool_decide (severity_label f ∈ SEV_ORDER) then severity_label f
  else "UNSPECIFIED".

(** How many findings fall into category [k]. *)
Definition tally {T : Text} (findings : list pyval) (k : string) : Z :=
  Z.of_nat (length (filter (fun f => category_of f = k) findings)).

(** The sum of all counts held by a mapping. *)
Definition total (counts : gmap string Z) : Z :=
  map_fold (fun _ c acc => c + acc) 0 counts.

Definition six_categories : gset string := list_to_set SEV_ORDER.

Definition is_record (f : pyval) : Prop := Py.is_dict f = true.

(** Two texts that differ only in surrounding white space and in what
    [fold] forgets: white-space paddings around cores that [fold] maps to
    the same text. *)
Definition same_modulo_padding_and {T : Text} (fold : string -> string)
    (s1 s2 : string) : Prop :=
  exists l1 c1 r1 l2 c2 r2,
    s1 = l1 +:+ c1 +:+ r1 /\ s2 = l2 +:+ c2 +:+ r2 /\
    blank l1 /\ blank r1 /\ blank l2 /\ blank r2 /\
    fold c1 = fold c2.

(** Two severity strings that differ only in letter case and in surrounding
    white space: white-space paddings around cores with the same upper-case
    form.  With "high" this relates " High ", "HIGH" and the same padded
    with a no-break space, and with "info" also a spelling with a dotless
    i. *)
Definition same_severity_modulo_case_and_padding {T : Text} (s1 s2 : string) : Prop :=
  same_modulo_padding_and str_upper s1 s2.

(** Two signer texts that differ only in letter case and in surrounding
    white space: white-space paddings around cores that agree once
    lower-cased. *)
Definition same_modulo_case_and_padding {T : Text} (s1 s2 : string) : Prop :=
  same_modulo_padding_and str_lower s1 s2.

(** A record the aggregator cannot classify: no severity field, a severity
    that is not a string, or a string outside the six categories. *)
Definition malformed_record {T : Text} (f : pyval) : Prop :=
  match f with
  | PDict items =>
      match Py.assoc "severity" items with
      | None => True
      | Some (PStr s) => str_strip (str_upper s) ∉ SEV_ORDER
      | Some _ => True
      end
  | _ => False
  end.

(** The six counts, added up in the order of [SEV_ORDER]. *)
Definition sum_six (count : string -> Z) : Z :=
  foldr Z.add 0 (count <$> SEV_ORDER).

Section TraceVocabulary.
Context {P : Platform}.

(** The texts printed along a trace, in order. *)
Fixpoint prints_of (t : trace) : list string :=
  match t with
  | [] => []
  | EvPrint text :: t' => text :: prints_of t'
  | _ :: t' => prints_of t'
  end.

(** The files opened for reading along a trace, in order. *)
Fixpoint reads_of (t : trace) : list Path :=
  match t with
  | [] => []
  | EvRead p :: t' => p :: reads_of t'
  | _ :: t' => reads_of t'
  end.

(** The paths probed for existence along a trace, in order. *)
Fixpoint probes_of (t : trace) : list Path :=
  match t with
  | [] => []
  | EvExists p :: t' => p :: probes_of t'
  | _ :: t' => probes_of t'
  end.

(** The required paths that are absent under [out_dir]. *)
Definition absent (fs : filesystem) (out_dir : Path) (paths : list string) : list string :=
  filter (fun rel => ~ is_Some (fs (joinpath out_dir rel))) paths.

(** The printed output of an evaluation is one run summary for [mode]: the
    header with the mode name, the six severity rows of a fully populated
    table, the warnings and the failure reasons; failures are listed exactly
    when the code is not PASS. *)
Definition one_summary (mode : string) (t : trace) (code : Z) : Prop :=
  exists (counts : gmap string Z) (warns fails : list string),
    prints_of t = summary_lines mode counts warns fails /\
    dom counts = six_categories /\
    (fails = [] <-> code = PASS).

(** Along [t] exactly the two policy reports under [out_dir] were read, the
    pre report first, and both exist and parse as JSON. *)
Definition both_reports_read (fs : filesystem) (out_dir : Path) (t : trace) : Prop :=
  reads_of t = [joinpath out_dir "policy_report.json";
                joinpath out_dir "policy_report_post.json"] /\
  exists txt pre txt' post,
    fs (joinpath out_dir "policy_report.json") = Some (File txt) /\
    json_loads txt = Some pre /\
    fs (joinpath out_dir "policy_report_post.json") = Some (File txt') /\
    json_loads txt' = Some post.

(** Every validator other than the MEDIUM threshold passes on the bundle
    under [out]: the listed files exist, both policy reports say PASS, stage 3
    falls through (leaving the trace [tm]), the findings are a list with
    counts [counts], no CRITICAL block applies, HIGH is within its threshold
    and the report has every required section. *)
Definition other_validators_pass (fs : filesystem) (rg : pyval) (mode : string)
    (out : Path) (paths : list string) (counts : gmap string Z) (tm : trace) : Prop :=
  (exists rf, Py.get rg "required_files" (PList []) = Ok rf /\
              Py.iter (Py.or_else rf (PList [])) = Ok (PStr <$> paths)) /\
  absent fs out paths = [] /\
  (exists txt pre, fs (joinpath out "policy_report.json") = Some (File txt) /\
                   json_loads txt = Some pre /\
                   Py.get pre "status" PNone = Ok (PStr "PASS")) /\
  (exists txt post, fs (joinpath out "policy_report_post.json") = Some (File txt) /\
                    json_loads txt = Some post /\
                    Py.get post "status" PNone = Ok (PStr "PASS")) /\
  (exists raw, fs (joinpath out "manifest_signer.txt") = Some (File raw) /\
               check_manifest fs rg mode out (str_strip raw) = (tm, Ok None)) /\
  (exists ftxt records,
      fs (joinpath out "extracted_findings.json") = Some (File ftxt) /\
      json_loads ftxt = Some (PList records) /\
      count_severities records = Ok counts) /\
  (exists foc, Py.get rg "fail_on_critical" (PBool true) = Ok foc /\
               Py.truthy foc && (counts_get counts "CRITICAL" >? 0) = false) /\
  (exists mh max_high, Py.get rg "max_high_findings" (PInt 999999) = Ok mh /\
                       Py.int mh = Ok max_high /\
                       (counts_get counts "HIGH" >? max_high) = false) /\
  (exists md rs,
      fs (joinpath out "consolidated_security_report.md") = Some (File md) /\
      Py.get rg "required_report_sections" (PList []) = Ok rs /\
      report_missing_sections (Py.or_else rs (PList [])) md = Ok []).

(** Stages 2 and 3 pass on the bundle under [out], stage 3 leaving the
    trace [tm]. *)
Definition reports_and_manifest_pass (fs : filesystem) (rg : pyval) (mode : string)
    (out : Path) (tm : trace) : Prop :=
  (exists txt pre, fs (joinpath out "policy_report.json") = Some (File txt) /\
                   json_loads txt = Some pre /\
                   Py.get pre "status" PNone = Ok (PStr "PASS")) /\
  (exists txt post, fs (joinpath out "policy_report_post.json") = Some (File txt) /\
                    json_loads txt = Some post /\
                    Py.get post "status" PNone = Ok (PStr "PASS")) /\
  (exists raw, fs (joinpath out "manifest_signer.txt") = Some (File raw) /\
               check_manifest fs rg mode out (str_strip raw) = (tm, Ok None)).

(** The findings artifact under [out] exists and parses to something that is
    not a list. *)
Definition findings_not_list (fs : filesystem) (out : Path) : Prop :=
  exists ftxt v,
    fs (joinpath out "extracted_findings.json") = Some (File ftxt) /\
    json_loads ftxt = Some v /\
    Py.is_list v = false.

(** Two policy sections that answer every lookup alike, except possibly the
    lookup of [key]. *)
Definition same_but_for (key : string) (rg1 rg2 : pyval) : Prop :=
  forall k d, k <> key -> Py.get rg1 k d = Py.get rg2 k d.

(** The section configures [key] (or leaves its default [dflt]) as something
    [int] accepts. *)
Definition integer_setting (rg : pyval) (key : string) (dflt : Z) : Prop :=
  exists v n, Py.get rg key (PInt dflt) = Ok v /\ Py.int v = Ok n.

(** Weakest precondition for normal termination: every run of [m] that
    returns a value satisfies [Q] on its trace and value. *)
Definition wp {A : Type} (m : IO A) (Q : trace -> A -> Prop) : Prop :=
  forall t a, m = (t, Ok a) -> Q t a.

(** [m] runs to completion and returns [a]. *)
Definition returns {A : Type} (m : IO A) (a : A) : Prop :=
  exists t, m = (t, Ok a).

(** Two file systems that agree below a directory. *)
Definition agree_below (fs1 fs2 : filesystem) (dir : Path) : Prop :=
  forall rel, fs1 (joinpath dir rel) = fs2 (joinpath dir rel).

End TraceVocabulary.

Section VerdictVocabulary.
Context {P : Platform}.

(** Stage 1 as configured by [rg]: the section lists [paths]. *)
Definition lists_files (rg : pyval) (paths : list string) : Prop :=
  exists rf, Py.get rg "required_files" (PList []) = Ok rf /\
             Py.iter (Py.or_else rf (PList [])) = Ok (PStr <$> paths).

(** The report [name] under [out] exists, parses, and has status [st]
    ([None] standing for an absent status). *)
Definition report_status (fs : filesystem) (out : Path) (name : string) (st : pyval)
  : Prop :=
  exists txt doc, fs (joinpath out name) = Some (File txt) /\
                  json_loads txt = Some doc /\
                  Py.get doc "status" PNone = Ok st.

(** The signer identity the gate works with: the stripped content of the
    signer file. *)
Definition signer_is (fs : filesystem) (out : Path) (signer : string) : Prop :=
  exists raw, fs (joinpath out "manifest_signer.txt") = Some (File raw) /\
              signer = str_strip raw.

Definition signing_required (rg : pyval) (required : bool) : Prop :=
  exists v, Py.get rg "require_signed_manifest" (PBool true) = Ok v /\
            Py.truthy v = required.

(** The lower-cased allow-list of the section. *)
Definition allowed_signers (rg : pyval) (lowered : list string) : Prop :=
  exists configured items,
    Py.get rg "allowed_signers" (PList [PStr "minisign"; PStr "openssl"]) = Ok configured /\
    Py.iter (Py.or_else configured (PList [])) = Ok items /\
    lower_all items = Ok lowered.

(** The findings artifact under [out] is a list with these counts. *)
Definition findings_counted (fs : filesystem) (out : Path) (counts : gmap string Z)
  : Prop :=
  exists ftxt records,
    fs (joinpath out "extracted_findings.json") = Some (File ftxt) /\
    json_loads ftxt = Some (PList records) /\
    count_severities records = Ok counts.

(** [fail_on_critical and counts["CRITICAL"] > 0] evaluates to [blocked]. *)
Definition critical_block (rg : pyval) (counts : gmap string Z) (blocked : bool) : Prop :=
  exists foc, Py.get rg "fail_on_critical" (PBool true) = Ok foc /\
              Py.truthy foc && (counts_get counts "CRITICAL" >? 0) = blocked.

(** [int(rg.get(key, 999999))] evaluates to [n]. *)
Definition threshold (rg : pyval) (key : string) (n : Z) : Prop :=
  exists v, Py.get rg key (PInt 999999) = Ok v /\ Py.int v = Ok n.

(** The text a read with [errors="ignore"] makes of what a path holds. *)
Definition lenient_text (n : node) : option string :=
  match n with
  | File content => Some content
  | Undecodable lenient => Some lenient
  | Dir => None
  end.

(** The report under [out] exists and [report_missing_sections] returns
    [missing] for the sections [rg] requires, on the text a read with
    [errors="ignore"] gives. *)
Definition sections_missing (fs : filesystem) (rg : pyval) (out : Path)
    (missing : list pyval) : Prop :=
  exists md rs,
    fs (joinpath out "consolidated_security_report.md") ≫= lenient_text = Some md /\
    Py.get rg "required_report_sections" (PList []) = Ok rs /\
    report_missing_sections (Py.or_else rs (PList [])) md = Ok missing.

(** The report [name] under [out] exists and parses. *)
Definition readable (fs : filesystem) (out : Path) (name : string) : Prop :=
  exists txt doc, fs (joinpath out name) = Some (File txt) /\ json_loads txt = Some doc.

(** Stage 1 passes: every listed file exists. *)
Definition files_ok (fs : filesystem) (rg : pyval) (out : Path) : Prop :=
  exists paths, lists_files rg paths /\ absent fs out paths = [].

(** Stage 2 passes: both policy reports have status "PASS". *)
Definition reports_ok (fs : filesystem) (out : Path) : Prop :=
  report_status fs out "policy_report.json" (PStr "PASS") /\
  report_status fs out "policy_report_post.json" (PStr "PASS").

(** Stage 3 passes: the signer file is there and either signing is not
    required, or the signer is on the allow-list and [manifest.sig] exists. *)
Definition signing_ok (fs : filesystem) (rg : pyval) (out : Path) : Prop :=
  exists signer,
    signer_is fs out signer /\
    (signing_required rg false \/
     signing_required rg true /\
     exists lowered, allowed_signers rg lowered /\
                     str_lower signer ∈ lowered /\
                     is_Some (fs (joinpath out "manifest.sig"))).

(** Stage 3 fails: signing is required and the signer is not on the
    allow-list, or it is and [manifest.sig] does not exist. *)
Definition signing_unmet (fs : filesystem) (rg : pyval) (out : Path) : Prop :=
  exists signer lowered,
    signer_is fs out signer /\ signing_required rg true /\
    allowed_signers rg lowered /\
    (str_lower signer ∉ lowered \/
     str_lower signer ∈ lowered /\ fs (joinpath out "manifest.sig") = None).

(** The condition under which an enabled gate returns [code]: the stages
    before the deciding one pass, and the deciding stage has its outcome.
    For 10 the post report has been read and parsed, though its status is
    not looked at. *)
Definition verdict (fs : filesystem) (rg : pyval) (out : Path) (code : Z) : Prop :=
  if decide (code = PASS) then
    files_ok fs rg out /\ reports_ok fs out /\ signing_ok fs rg out /\
    exists counts max_high max_med,
      findings_counted fs out counts /\
      critical_block rg counts false /\
      threshold rg "max_high_findings" max_high /\
      counts_get counts "HIGH" <= max_high /\
      threshold rg "max_medium_findings" max_med /\
      sections_missing fs rg out []
  else if decide (code = E_REQUIRED_OUTPUTS) then
    (exists paths rel, lists_files rg paths /\ rel ∈ paths /\
                       fs (joinpath out rel) = None) \/
    (files_ok fs rg out /\ reports_ok fs out /\ signing_ok fs rg out /\
     findings_not_list fs out)
  else if decide (code = E_POLICY_FAIL) then
    files_ok fs rg out /\
    (exists st, report_status fs out "policy_report.json" st /\
                Py.ne_str st "PASS" = true) /\
    readable fs out "policy_report_post.json"
  else if decide (code = E_SECRETS_IN_OUTPUTS) then
    files_ok fs rg out /\
    report_status fs out "policy_report.json" (PStr "PASS") /\
    exists st, report_status fs out "policy_report_post.json" st /\
               Py.ne_str st "PASS" = true
  else if decide (code = E_MANIFEST_SIGN) then
    files_ok fs rg out /\ reports_ok fs out /\ signing_unmet fs rg out
  else if decide (code = E_CRITICAL_PRESENT) then
    files_ok fs rg out /\ reports_ok fs out /\ signing_ok fs rg out /\
    exists counts, findings_counted fs out counts /\ critical_block rg counts true
  else if decide (code = E_HIGH_THRESHOLD) then
    files_ok fs rg out /\ reports_ok fs out /\ signing_ok fs rg out /\
    exists counts max_high,
      findings_counted fs out counts /\
      critical_block rg counts false /\
      threshold rg "max_high_findings" max_high /\
      counts_get counts "HIGH" > max_high
  else if decide (code = E_REPORT_SECTIONS) then
    files_ok fs rg out /\ reports_ok fs out /\ signing_ok fs rg out /\
    exists counts max_high max_med sec rest,
      findings_counted fs out counts /\
      critical_block rg counts false /\
      threshold rg "max_high_findings" max_high /\
      counts_get counts "HIGH" <= max_high /\
      threshold rg "max_medium_findings" max_med /\
      sections_missing fs rg out (sec :: rest)
  else False.

(** What the one summary of an enabled gate shows, by exit code: no failure
    reason on PASS and exactly one otherwise; the counts of the findings
    artifact once the gate has reached its severity checks (codes 0, 11, 12
    and 15) and an all-zero table before; the MEDIUM warning only once the
    HIGH threshold is passed (codes 0 and 15). *)
Definition summary_content (fs : filesystem) (rg : pyval) (out : Path) (mode : string)
    (t : trace) (code : Z) : Prop :=
  exists counts warns fails,
    prints_of t = summary_lines mode counts warns fails /\
    (if decide (code = PASS) then fails = [] else exists msg, fails = [msg]) /\
    if decide (code = PASS \/ code = E_REPORT_SECTIONS) then
      findings_counted fs out counts /\
      exists max_med, threshold rg "max_medium_findings" max_med /\
                      warns = medium_warnings counts max_med
    else if decide (code = E_CRITICAL_PRESENT \/ code = E_HIGH_THRESHOLD) then
      findings_counted fs out counts /\ warns = []
    else counts = zero_counts /\ warns = [].

(** The artifacts whose content the gate reads. *)
Definition read_artifacts : list string :=
  ["policy_report.json"; "policy_report_post.json"; "manifest_signer.txt";
   "extracted_findings.json"; "consolidated_security_report.md"].

(** Below [dir] the same paths exist in both file systems. *)
Definition same_presence (fs1 fs2 : filesystem) (dir : Path) : Prop :=
  forall rel, is_Some (fs1 (joinpath dir rel)) <-> is_Some (fs2 (joinpath dir rel)).

(** Both file systems hold the same thing at each of [names] below [dir]. *)
Definition same_content (fs1 fs2 : filesystem) (dir : Path) (names : list string)
  : Prop :=
  forall name, name ∈ names -> fs1 (joinpath dir name) = fs2 (joinpath dir name).

(** The file-system accesses of a trace: its events other than prints. *)
Definition is_access (e : event Path) : bool :=
  match e with
  | EvPrint _ => false
  | _ => true
  end.

Definition accesses (t : trace) : trace := List.filter is_access t.

(** Two runs with the same accesses in the same order and the same result;
    what they print may differ. *)
Definition same_but_prints {A : Type} (m1 m2 : IO A) : Prop :=
  accesses m1.1 = accesses m2.1 /\ m1.2 = m2.2.

End VerdictVocabulary.

(** The exit codes the file defines. *)
Definition exit_codes : list Z :=
  [PASS; E_POLICY_FAIL; E_CRITICAL_PRESENT; E_HIGH_THRESHOLD; E_MANIFEST_SIGN;
   E_REQUIRED_OUTPUTS; E_REPORT_SECTIONS; E_SECRETS_IN_OUTPUTS].

(** The line [main] prints for a failing mode. *)
Definition fail_line {path : Type} (m : string) (code : Z) : event path :=
  EvPrint ("[" +:+ m +:+ "] RELEASE GATE => FAIL (exit " +:+ Py.str_of_Z code +:+ ")").

(** The line [gate_one_mode] prints for a disabled gate. *)
Definition disabled_line {path : Type} (m : string) : event path :=
  EvPrint ("[" +:+ m +:+ "] release_gate.disabled => PASS").

(** A pattern entry [scan_patterns] can search [text] for: a record whose
    regex, when present, is a string, and on which the engine raises nothing
    but [re.error]. *)
Definition pattern_record (re_search : string -> string -> re_outcome) (text : string)
    (item : pyval) : Prop :=
  exists r, Py.get item "regex" (PStr "") = Ok (PStr r) /\
            forall e, re_search r text <> ReRaise e.

(** What ends the scan at [item]: a regex that is not a string (TypeError),
    or an exception of the engine other than [re.error]. *)
Definition pattern_raises (re_search : string -> string -> re_outcome) (text : string)
    (item : pyval) (e : exn) : Prop :=
  exists v, Py.get item "regex" (PStr "") = Ok v /\
    match v with
    | PStr r => re_search r text = ReRaise e
    | _ => e = TypeError
    end.

(** What one pattern contributes to the hits under an engine. *)
Definition pattern_hit {T : Text} (re_search : string -> string -> re_outcome)
    (text : string) (item hit : pyval) : Prop :=
  exists name r,
    Py.get item "name" (PStr "unnamed") = Ok name /\
    Py.get item "regex" (PStr "") = Ok (PStr r) /\
    ((re_search r text = ReMatch /\ hit = name) \/
     (re_search r text = ReError /\ hit = PStr (Py.str name +:+ "(invalid-regex)"))).

(** [needle] occurs in [hay] as a contiguous piece. *)
Definition occurs_in (needle hay : string) : Prop :=
  exists a b, hay = a +:+ needle +:+ b.

(** A value that is not a string. *)
Definition not_a_string (v : pyval) : Prop := forall s, v <> PStr s.

(** The first letters of the six categories. *)
Definition initials : list ascii := ["C"; "H"; "M"; "L"; "I"; "U"]%char.

(** An ASCII first character that is neither white space nor, once
    upper-cased, the initial of a category: a text starting with it has an
    unrecognised label. *)
Definition foreign_initial (c : ascii) : bool :=
  (PyStr.code c <? 128)%N && negb (PyStr.is_space c)
  && negb (bool_decide (PyStr.upper_char c ∈ initials)).

(** * Properties of the severity aggregator *)

Section CountFacts.
Context {T : Text}.

Lemma zero_counts_dom : dom zero_counts = six_categories.
Proof. unfold zero_counts, six_categories. by rewrite dom_list_to_map_L. Qed.

Lemma category_in_six f : category_of f ∈ SEV_ORDER.
Proof.
  unfold category_of. case_bool_decide; [done|].
  unfold SEV_ORDER. set_solver.
Qed.

Lemma in_six_dom (counts : gmap string Z) s :
  dom counts = six_categories -> (is_Some (counts !! s) <-> s ∈ SEV_ORDER).
Proof.
  intros Hdom. rewrite <- elem_of_dom, Hdom. unfold six_categories.
  by rewrite elem_of_list_to_set.
Qed.

Lemma count_one_record (counts : gmap string Z) items :
  dom counts = six_categories ->
  let k := category_of (PDict items) in
  count_one counts (PDict items) = Ok (<[k := counts_get counts k + 1]> counts).
Proof.
  intros Hdom k. unfold count_one. cbn [Py.get res_bind].
  assert (Hk : is_Some (counts !! k)).
  { apply in_six_dom; [done|]. apply category_in_six. }
  assert (Heq : (if bool_decide (is_Some (counts !!
                    str_strip (str_upper (Py.str (default (PStr "UNSPECIFIED")
                                                    (Py.assoc "severity" items))))))
                 then str_strip (str_upper (Py.str (default (PStr "UNSPECIFIED")
                                                      (Py.assoc "severity" items))))
                 else "UNSPECIFIED") = k).
  { subst k. unfold category_of, severity_label. cbn [Py.get].
    do 2 case_bool_decide; try done.
    - exfalso. by apply (in_six_dom counts) in H.
    - exfalso. apply H. by apply in_six_dom. }
  rewrite Heq. destruct Hk as [c Hc]. rewrite Hc.
  unfold counts_get. by rewrite Hc.
Qed.

Lemma tally_cons f rest k :
  tally (f :: rest) k = (if decide (category_of f = k) then 1 else 0) + tally rest k.
Proof.
  unfold tally. rewrite filter_cons. destruct (decide (category_of f = k)); simpl; lia.
Qed.

Lemma tally_nonneg findings k : 0 <= tally findings k.
Proof. unfold tally. lia. Qed.

Lemma total_bump (counts : gmap string Z) k c :
  counts !! k = Some c -> total (<[k := c + 1]> counts) = total counts + 1.
Proof.
  intros Hk. unfold total.
  rewrite <- (insert_delete_eq counts k (c + 1)).
  rewrite <- (insert_delete_id counts k c) at 2 by done.
  rewrite !map_fold_insert_L; try (by apply lookup_delete_eq); try lia.
  all: intros; lia.
Qed.

Lemma count_loop_records findings : forall counts : gmap string Z,
  dom counts = six_categories ->
  Forall is_record findings ->
  exists counts' : gmap string Z,
    count_loop counts findings = Ok counts' /\
    dom counts' = six_categories /\
    (forall k, counts_get counts' k = counts_get counts k + tally findings k) /\
    total counts' = total counts + Z.of_nat (length findings).
Proof.
  induction findings as [|f rest IH]; intros counts Hdom Hrec.
  - exists counts. repeat split; try done.
    + intros k. unfold tally. simpl. lia.
    + simpl. lia.
  - inversion Hrec as [|? ? Hf Hrest]; subst.
    destruct f as [| | | | |items]; try discriminate Hf.
    cbn [count_loop]. rewrite count_one_record by done. cbn [res_bind].
    set (k := category_of (PDict items)).
    assert (Hk : is_Some (counts !! k)).
    { apply in_six_dom; [done|]. apply category_in_six. }
    destruct Hk as [c Hc].
    destruct (IH (<[k := counts_get counts k + 1]> counts)) as (counts' & Hrun & Hdom' & Hget & Htot).
    { rewrite dom_insert_L, Hdom. apply elem_of_dom_2 in Hc. rewrite Hdom in Hc. set_solver. }
    { done. }
    exists counts'. repeat split; try done.
    + intros k'. rewrite Hget, tally_cons. fold k. unfold counts_get.
      destruct (decide (k = k')) as [->|Hne].
      * rewrite lookup_insert_eq. simpl. lia.
      * rewrite lookup_insert_ne by done. lia.
    + rewrite Htot. unfold counts_get at 1. rewrite Hc. simpl default.
      rewrite total_bump by done. rewrite length_cons. lia.
Qed.

Lemma zero_counts_get k : counts_get zero_counts k = 0.
Proof.
  unfold counts_get. destruct (zero_counts !! k) as [c|] eqn:Hk; [|done].
  unfold zero_counts in Hk. apply elem_of_list_to_map_2 in Hk.
  simpl in Hk. set_solver.
Qed.

Lemma zero_counts_total : total zero_counts = 0.
Proof. by vm_compute. Qed.

End CountFacts.

Section StringFacts.

Ltac by_cases_on_char c :=
  destruct c as [[] [] [] [] [] [] [] []]; vm_compute; try reflexivity; try discriminate.

Lemma upper_char_lower_char c : PyStr.upper_char (PyStr.lower_char c) = PyStr.upper_char c.
Proof. by_cases_on_char c. Qed.

Lemma is_space_upper_char c : PyStr.is_space (PyStr.upper_char c) = PyStr.is_space c.
Proof. by_cases_on_char c. Qed.

Lemma upper_lower s : PyStr.upper (PyStr.lower s) = PyStr.upper s.
Proof.
  unfold PyStr.upper, PyStr.lower.
  induction s as [|c s IH]; [done|]. cbn. by rewrite upper_char_lower_char, IH.
Qed.

Lemma upper_app a b : PyStr.upper (a +:+ b) = PyStr.upper a +:+ PyStr.upper b.
Proof.
  unfold PyStr.upper. induction a as [|c a IH]; [done|].
  simpl. rewrite IH. reflexivity.
Qed.

Lemma all_space_upper s : PyStr.all_space (PyStr.upper s) = PyStr.all_space s.
Proof.
  unfold PyStr.upper.
  induction s as [|c s IH]; [done|]. cbn. by rewrite is_space_upper_char, IH.
Qed.

Lemma lstrip_all_space s : PyStr.all_space s = true -> PyStr.lstrip s = "".
Proof.
  induction s as [|c s IH]; [done|]. cbn. intros [Hc Hs]%andb_true_iff.
  rewrite Hc. auto.
Qed.

Lemma rstrip_all_space s : PyStr.all_space s = true -> PyStr.rstrip s = "".
Proof.
  induction s as [|c s IH]; [done|]. cbn. intros [Hc Hs]%andb_true_iff.
  by rewrite IH, Hc.
Qed.

Lemma rstrip_app_space s r : PyStr.all_space r = true -> PyStr.rstrip (s +:+ r) = PyStr.rstrip s.
Proof.
  intros Hr. induction s as [|c s IH].
  - by apply rstrip_all_space.
  - change (String c s +:+ r) with (String c (s +:+ r)).
    simpl. by rewrite IH.
Qed.

Lemma strip_app_space_r c r : PyStr.all_space r = true -> PyStr.strip (c +:+ r) = PyStr.strip c.
Proof.
  intros Hr. unfold PyStr.strip. induction c as [|a c IH].
  - change ("" +:+ r) with r. by rewrite lstrip_all_space.
  - change (String a c +:+ r) with (String a (c +:+ r)). simpl.
    destruct (PyStr.is_space a); [done|].
    by apply (rstrip_app_space (String a c)).
Qed.

Lemma strip_app_space_l l c : PyStr.all_space l = true -> PyStr.strip (l +:+ c) = PyStr.strip c.
Proof.
  unfold PyStr.strip. induction l as [|a l IH]; [done|].
  change (String a l +:+ c) with (String a (l +:+ c)). simpl.
  intros [Ha Hl]%andb_true_iff. rewrite Ha. auto.
Qed.

Lemma six_initial c r : String c r ∈ SEV_ORDER -> c ∈ initials.
Proof.
  unfold SEV_ORDER, initials. rewrite !elem_of_cons, elem_of_nil.
  intros [H|[H|[H|[H|[H|[H|[]]]]]]]; injection H as -> _; set_solver.
Qed.

Lemma strip_upper_head c s :
  PyStr.is_space c = false ->
  exists r, PyStr.strip (PyStr.upper (String c s)) = String (PyStr.upper_char c) r.
Proof.
  intros Hc. unfold PyStr.strip, PyStr.upper. cbn.
  rewrite is_space_upper_char, Hc. cbn.
  destruct (PyStr.rstrip _); rewrite ?is_space_upper_char, ?Hc; eauto.
Qed.

Lemma is_space_lower_char c : PyStr.is_space (PyStr.lower_char c) = PyStr.is_space c.
Proof. by_cases_on_char c. Qed.

Lemma lower_lstrip s : PyStr.lower (PyStr.lstrip s) = PyStr.lstrip (PyStr.lower s).
Proof.
  unfold PyStr.lower. induction s as [|c s IH]; [done|].
  cbn [PyStr.lstrip PyStr.map_chars]. rewrite is_space_lower_char.
  by destruct (PyStr.is_space c).
Qed.

Lemma lower_rstrip s : PyStr.lower (PyStr.rstrip s) = PyStr.rstrip (PyStr.lower s).
Proof.
  unfold PyStr.lower. induction s as [|c s IH]; [done|].
  cbn [PyStr.rstrip PyStr.map_chars]. rewrite <- IH, is_space_lower_char.
  destruct (PyStr.rstrip s); [|done]. by destruct (PyStr.is_space c).
Qed.

Lemma lower_strip s : PyStr.lower (PyStr.strip s) = PyStr.strip (PyStr.lower s).
Proof. unfold PyStr.strip. by rewrite lower_rstrip, lower_lstrip. Qed.

Lemma rstrip_empty s : PyStr.rstrip s = "" -> PyStr.all_space s = true.
Proof.
  induction s as [|c s IH]; [done|]. cbn.
  destruct (PyStr.rstrip s); [|discriminate].
  destruct (PyStr.is_space c); [|discriminate]. intros _. by apply IH.
Qed.

Lemma all_space_lstrip s : PyStr.all_space (PyStr.lstrip s) = true -> PyStr.all_space s = true.
Proof.
  induction s as [|c s IH]; [done|]. cbn.
  destruct (PyStr.is_space c) eqn:Hc; [exact IH|]. cbn. by rewrite Hc.
Qed.

Lemma strip_empty s : PyStr.strip s = "" -> PyStr.all_space s = true.
Proof. intros H. by apply all_space_lstrip, rstrip_empty. Qed.

(** The ASCII text of the worked examples obeys the laws. *)
Lemma ascii_text_laws : TextLaws Demo.text.
Proof.
  split.
  - intros l c r Hl%strip_empty Hr%strip_empty. cbn [str_strip Demo.text].
    by rewrite (strip_app_space_l l _ Hl), (strip_app_space_r c r Hr).
  - intros l c r Hl%strip_empty Hr%strip_empty. cbn [str_strip str_upper Demo.text].
    rewrite !upper_app.
    rewrite (strip_app_space_l (PyStr.upper l)) by (by rewrite all_space_upper).
    by rewrite (strip_app_space_r _ (PyStr.upper r)) by (by rewrite all_space_upper).
  - intros s. apply lower_strip.
  - intros c s _ Hc. by apply strip_upper_head.
Qed.

End StringFacts.

Section TextFacts.
Context {T : Text} {L : TextLaws T}.

(** Padding and letter case disappear in the normalised label. *)
Lemma normalise_modulo s1 s2 :
  same_severity_modulo_case_and_padding s1 s2 ->
  str_strip (str_upper s1) = str_strip (str_upper s2).
Proof.
  intros (l1 & c1 & r1 & l2 & c2 & r2 & -> & -> & Hl1 & Hr1 & Hl2 & Hr2 & Hc).
  rewrite (str_upper_pad l1 c1 r1 Hl1 Hr1), (str_upper_pad l2 c2 r2 Hl2 Hr2).
  by rewrite Hc.
Qed.

Lemma foreign_initial_label c s :
  foreign_initial c = true -> str_strip (str_upper (String c s)) ∉ SEV_ORDER.
Proof.
  unfold foreign_initial. intros [[Hascii Hsp]%andb_true_iff Hini]%andb_true_iff.
  apply N.ltb_lt in Hascii.
  apply negb_true_iff in Hsp. apply negb_true_iff, bool_decide_eq_false in Hini.
  destruct (str_ascii_head c s Hascii Hsp) as [r ->].
  intros Hin. by apply six_initial in Hin.
Qed.

Lemma digit_foreign c : PyStr.is_digit c = true -> foreign_initial c = true.
Proof.
  destruct c as [[] [] [] [] [] [] [] []]; vm_compute; try reflexivity; try discriminate.
Qed.

Lemma string_of_uint_head d :
  exists c r, NilZero.string_of_uint d = String c r /\ PyStr.is_digit c = true.
Proof. destruct d; cbn; eauto. Qed.

Lemma str_of_Z_head n :
  exists c r, Py.str_of_Z n = String c r /\ foreign_initial c = true.
Proof.
  unfold Py.str_of_Z, NilZero.string_of_int.
  destruct (Z.to_int n) as [d|d].
  - destruct (string_of_uint_head d) as (c & r & -> & Hc).
    exists c, r. split; [done|]. by apply digit_foreign.
  - by exists "-"%char, (NilZero.string_of_uint d).
Qed.

(** [str] of a value that is not a string never normalises to a category. *)
Lemma non_string_label v :
  (forall s, v <> PStr s) -> str_strip (str_upper (Py.str v)) ∉ SEV_ORDER.
Proof.
  intros Hv. destruct v as [|[]|n|s|xs|items]; cbn [Py.str Py.repr].
  - by apply foreign_initial_label.
  - by apply foreign_initial_label.
  - by apply foreign_initial_label.
  - destruct (str_of_Z_head n) as (c & r & -> & Hc). by apply foreign_initial_label.
  - by destruct (Hv s).
  - by apply foreign_initial_label.
  - by apply foreign_initial_label.
Qed.

End TextFacts.


Section AggregatorClaims.
Context {T : Text} {L : TextLaws T}.

Lemma tally_app xs ys k : tally (xs ++ ys) k = tally xs k + tally ys k.
Proof. unfold tally. rewrite filter_app, length_app. lia. Qed.

Lemma sum_six_add a b : sum_six (fun k => a k + b k) = sum_six a + sum_six b.
Proof. unfold sum_six, SEV_ORDER. cbn [fmap list_fmap foldr]. lia. Qed.

Lemma sum_six_indicator c :
  c ∈ SEV_ORDER -> sum_six (fun k => if decide (c = k) then 1 else 0) = 1.
Proof.
  unfold SEV_ORDER at 1. intros Hin.
  repeat (apply elem_of_cons in Hin as [->|Hin]; [by vm_compute|]).
  by apply elem_of_nil in Hin.
Qed.

Lemma sum_six_ext a b : (forall k, a k = b k) -> sum_six a = sum_six b.
Proof. intros H. unfold sum_six. f_equal. apply list_fmap_ext. intros _ k _. apply H. Qed.

Lemma tally_partition findings : sum_six (tally findings) = Z.of_nat (length findings).
Proof.
  induction findings as [|f rest IH]; [done|].
  rewrite (sum_six_ext _ _ (tally_cons f rest)), sum_six_add.
  rewrite sum_six_indicator by apply category_in_six.
  rewrite IH, length_cons. lia.
Qed.

Lemma count_severities_records findings :
  Forall is_record findings ->
  exists counts : gmap string Z,
    count_severities findings = Ok counts /\
    dom counts = six_categories /\
    (forall k, counts_get counts k = tally findings k) /\
    total counts = Z.of_nat (length findings).
Proof.
  intros Hrec.
  destruct (count_loop_records findings zero_counts zero_counts_dom Hrec)
    as (counts & Hrun & Hdom & Hget & Htot).
  exists counts. split; [exact Hrun|]. split; [exact Hdom|]. split.
  - intros k. rewrite Hget, zero_counts_get. lia.
  - rewrite Htot, zero_counts_total. lia.
Qed.

Lemma count_loop_app xs ys : forall counts : gmap string Z,
  count_loop counts (xs ++ ys) =
  res_bind (count_loop counts xs) (fun counts' => count_loop counts' ys).
Proof.
  induction xs as [|x xs IH]; intros counts; [done|].
  cbn [app count_loop]. destruct (count_one counts x); cbn [res_bind]; auto.
Qed.

Lemma get_ok_record f k d v : Py.get f k d = Ok v -> is_record f.
Proof. by destruct f. Qed.

Lemma severity_label_string f s :
  Py.get f "severity" (PStr "UNSPECIFIED") = Ok (PStr s) ->
  severity_label f = str_strip (str_upper s).
Proof. unfold severity_label. by intros ->. Qed.

Lemma malformed_unspecified f : malformed_record f -> category_of f = "UNSPECIFIED".
Proof.
  destruct f as [| | | | |items]; try done. cbn [malformed_record].
  unfold category_of, severity_label. cbn [Py.get].
  destruct (Py.assoc "severity" items) as [v|] eqn:Hv; cbn [default].
  - intros Hbad. case_bool_decide as Hin; [|done]. exfalso.
    destruct v as [| | |s| |]; try (by revert Hin; apply non_string_label).
    by apply Hbad.
  - intros _. cbn [Py.str].
    destruct (str_ascii_head "U" "NSPECIFIED") as [r Hr]; [by vm_compute|done|].
    change (String "U" "NSPECIFIED") with "UNSPECIFIED" in Hr. rewrite Hr.
    case_bool_decide as Hin; [|done].
    unfold SEV_ORDER in Hin. rewrite !elem_of_cons, elem_of_nil in Hin.
    destruct Hin as [H|[H|[H|[H|[H|[H|[]]]]]]]; try discriminate H. exact H.
Qed.

End AggregatorClaims.

(** C3.  For a list of finding records the aggregator returns a mapping whose
    keys are exactly CRITICAL, HIGH, MEDIUM, LOW, INFO and UNSPECIFIED, every
    count is non-negative, and the counts add up to the length of the list
    (both as the sum of the six entries and as the sum of everything the
    mapping holds). *)
Theorem count_severities_six_keys_sum {T : Text} (findings : list pyval) :
  Forall is_record findings ->
  exists counts : gmap string Z,
    count_severities findings = Ok counts /\
    dom counts = six_categories /\
    (forall k c, counts !! k = Some c -> 0 <= c) /\
    sum_six (counts_get counts) = Z.of_nat (length findings) /\
    total counts = Z.of_nat (length findings).
Proof.
  intros Hrec.
  destruct (count_severities_records findings Hrec) as (counts & Hrun & Hdom & Hget & Htot).
  exists counts. split; [exact Hrun|]. split; [exact Hdom|]. split; [|split].
  - intros k c Hk. pose proof (Hget k) as Hk'. unfold counts_get in Hk'.
    rewrite Hk in Hk'. simpl in Hk'. rewrite Hk'. apply tally_nonneg.
  - rewrite <- tally_partition. by apply sum_six_ext.
  - exact Htot.
Qed.

Lemma count_severities_six_keys_sum_witness :
  exists counts : gmap string Z,
    count_severities (T := Demo.text) [PDict [("severity", PStr " high ")]; PDict []; PDict [("id", PInt 7)]]
      = Ok counts /\
    dom counts = six_categories /\
    (forall k c, counts !! k = Some c -> 0 <= c) /\
    sum_six (counts_get counts) = 3 /\
    total counts = 3.
Proof.
  apply (count_severities_six_keys_sum (T := Demo.text)
           [PDict [("severity", PStr " high ")]; PDict []; PDict [("id", PInt 7)]]).
  repeat constructor.
Defined.

(** C5, as the code has it.  The claim as written fails on an entry that is
    not a record: the lookup of its severity raises. *)
Lemma count_severities_raises_on_non_record :
  count_severities (T := Demo.text) [PDict [("severity", PStr "HIGH")]; PStr "oops"]
  = Raise AttributeError /\
  ~ exists counts,
      count_severities (T := Demo.text) [PDict [("severity", PStr "HIGH")]; PStr "oops"]
      = Ok counts.
Proof. split; [by vm_compute|]. intros [counts H]. vm_compute in H. discriminate. Qed.

(** C5 (amended).  On every list of records the aggregator returns a result
    and does not raise; each category's count is the number of records that
    fall under it, and a record with no severity field, with a severity that
    is not a string, or with an unrecognised severity string falls under
    UNSPECIFIED. *)
Theorem count_severities_degrades_records {T : Text} {L : TextLaws T}
    (findings : list pyval) :
  Forall is_record findings ->
  exists counts : gmap string Z,
    count_severities findings = Ok counts /\
    (forall k, k ∈ SEV_ORDER -> counts !! k = Some (tally findings k)) /\
    (forall f, f ∈ findings -> malformed_record f -> category_of f = "UNSPECIFIED").
Proof.
  intros Hrec.
  destruct (count_severities_records findings Hrec) as (counts & Hrun & Hdom & Hget & _).
  exists counts. split; [exact Hrun|]. split.
  - intros k Hk. apply (in_six_dom counts k Hdom) in Hk as [c Hc].
    pose proof (Hget k) as Hk'. unfold counts_get in Hk'. rewrite Hc in Hk'.
    simpl in Hk'. by rewrite Hc, Hk'.
  - intros f _. apply malformed_unspecified.
Qed.

Lemma count_severities_degrades_records_witness :
  exists counts : gmap string Z,
    count_severities (T := Demo.text)
      [PDict []; PDict [("severity", PNone)];
       PDict [("severity", PStr "WOBBLE")]] = Ok counts /\
    (forall k, k ∈ SEV_ORDER ->
       counts !! k = Some (tally (T := Demo.text)
                             [PDict []; PDict [("severity", PNone)];
                              PDict [("severity", PStr "WOBBLE")]] k)) /\
    (forall f, f ∈ [PDict []; PDict [("severity", PNone)];
                     PDict [("severity", PStr "WOBBLE")]] ->
       malformed_record (T := Demo.text) f ->
       category_of (T := Demo.text) f = "UNSPECIFIED").
Proof.
  apply (count_severities_degrades_records (T := Demo.text) (L := ascii_text_laws)
           [PDict []; PDict [("severity", PNone)]; PDict [("severity", PStr "WOBBLE")]]).
  repeat constructor.
Defined.

Lemma count_one_same_label {T : Text} (counts : gmap string Z) r1 r2 s1 s2 :
  Py.get r1 "severity" (PStr "UNSPECIFIED") = Ok (PStr s1) ->
  Py.get r2 "severity" (PStr "UNSPECIFIED") = Ok (PStr s2) ->
  str_strip (str_upper s1) = str_strip (str_upper s2) ->
  count_one counts r1 = count_one counts r2.
Proof.
  intros H1 H2 Heq. unfold count_one. rewrite H1, H2. cbn [res_bind Py.str].
  by rewrite Heq.
Qed.

Lemma Forall_insert_middle {A} (Q : A -> Prop) xs x ys :
  Forall Q (xs ++ ys) -> Q x -> Forall Q (xs ++ x :: ys).
Proof. rewrite !Forall_app, Forall_cons. tauto. Qed.

(** C6.  Two records whose severity strings differ only in letter case and
    surrounding white space are interchangeable in any list of findings: the
    aggregator returns the same counts.  The record is counted under its
    normalised label when that is one of the six categories and under
    UNSPECIFIED otherwise; in both cases it is counted, raising exactly that
    category by one over the list without it.  This holds over every text
    library that obeys the laws of [TextLaws], so for the white space and
    the letters of Unicode as for those of ASCII. *)
Theorem severity_normalisation_insensitive {T : Text} {L : TextLaws T}
    (s1 s2 : string) (r1 r2 : pyval) (before after : list pyval) :
  same_severity_modulo_case_and_padding s1 s2 ->
  Py.get r1 "severity" (PStr "UNSPECIFIED") = Ok (PStr s1) ->
  Py.get r2 "severity" (PStr "UNSPECIFIED") = Ok (PStr s2) ->
  Forall is_record (before ++ after) ->
  let label := str_strip (str_upper s1) in
  let k := if bool_decide (label ∈ SEV_ORDER) then label else "UNSPECIFIED" in
  count_severities (before ++ r1 :: after) = count_severities (before ++ r2 :: after) /\
  exists counts0 counts : gmap string Z,
    count_severities (before ++ after) = Ok counts0 /\
    count_severities (before ++ r1 :: after) = Ok counts /\
    counts_get counts k = counts_get counts0 k + 1 /\
    forall k', k' <> k -> counts_get counts k' = counts_get counts0 k'.
Proof.
  intros Hmod H1 H2 Hrec label k. split.
  - unfold count_severities. rewrite !count_loop_app.
    destruct (count_loop zero_counts before) as [c|e]; [|reflexivity].
    cbn [res_bind count_loop].
    rewrite (count_one_same_label c r1 r2 s1 s2 H1 H2); [reflexivity|].
    by apply normalise_modulo.
  - assert (Hk : category_of r1 = k).
    { unfold category_of. by rewrite (severity_label_string r1 s1 H1). }
    destruct (count_severities_records _ Hrec) as (counts0 & Hrun0 & _ & Hget0 & _).
    destruct (count_severities_records (before ++ r1 :: after)) as (counts & Hrun & _ & Hget & _).
    { apply Forall_insert_middle; [exact Hrec|]. by eapply get_ok_record. }
    exists counts0, counts. split; [exact Hrun0|]. split; [exact Hrun|].
    split.
    + rewrite Hget, Hget0, !tally_app, tally_cons, Hk. rewrite decide_True by reflexivity. lia.
    + intros k' Hne. rewrite Hget, Hget0, !tally_app, tally_cons, Hk.
      rewrite decide_False by congruence. lia.
Qed.

Lemma severity_normalisation_insensitive_witness :
  count_severities (T := Demo.text)
    ([PDict []] ++ PDict [("severity", PStr " high ")] :: [])
  = count_severities (T := Demo.text)
      ([PDict []] ++ PDict [("severity", PStr "High")] :: []) /\
  exists counts0 counts : gmap string Z,
    count_severities (T := Demo.text) ([PDict []] ++ []) = Ok counts0 /\
    count_severities (T := Demo.text)
      ([PDict []] ++ PDict [("severity", PStr " high ")] :: []) = Ok counts /\
    counts_get counts "HIGH" = counts_get counts0 "HIGH" + 1 /\
    forall k', k' <> "HIGH" -> counts_get counts k' = counts_get counts0 k'.
Proof.
  apply (severity_normalisation_insensitive (T := Demo.text) (L := ascii_text_laws)
           " high " "High"
           (PDict [("severity", PStr " high ")]) (PDict [("severity", PStr "High")])
           [PDict []] []).
  - exists " ", "high", " ", "", "High", "". repeat split; reflexivity.
  - reflexivity.
  - reflexivity.
  - repeat constructor.
Defined.

(** The spellings named by the specification, run through the aggregator. *)
Example high_spellings_counted_as_high :
  forall s, s ∈ [" high "; "High"; "HIGH"] ->
    exists counts : gmap string Z,
      count_severities (T := Demo.text) [PDict [("severity", PStr s)]] = Ok counts /\
      map (counts_get counts) SEV_ORDER = [0; 1; 0; 0; 0; 0].
Proof.
  intros s Hs. rewrite !elem_of_cons, elem_of_nil in Hs.
  destruct Hs as [->|[->|[->|[]]]]; eexists; split; try reflexivity; by vm_compute.
Qed.

Example wobble_counted_as_unspecified :
  exists counts : gmap string Z,
    count_severities (T := Demo.text) [PDict [("severity", PStr "WOBBLE")]] = Ok counts /\
    map (counts_get counts) SEV_ORDER = [0; 0; 0; 0; 0; 1].
Proof. eexists; split; [reflexivity | by vm_compute]. Qed.

(** * Properties of the gate *)

Section IOFacts.
Context {P : Platform}.

Lemma bind_ok {A B} t (a : A) (k : A -> IO B) :
  bind (t, Ok a) k = (t ++ (k a).1, (k a).2).
Proof. unfold bind. by destruct (k a). Qed.

Lemma bind_raise {A B} t e (k : A -> IO B) : bind (t, Raise e) k = (t, Raise e).
Proof. reflexivity. Qed.

Lemma bind_lift_ok {A B} (a : A) (k : A -> IO B) : bind (lift (Ok a)) k = k a.
Proof. unfold lift, bind. by destruct (k a). Qed.

Lemma bind_ret {A B} (a : A) (k : A -> IO B) : bind (ret a) k = k a.
Proof. apply bind_lift_ok. Qed.

Lemma prints_of_app t1 t2 : prints_of (t1 ++ t2) = prints_of t1 ++ prints_of t2.
Proof. induction t1 as [|[] t1 IH]; simpl; rewrite ?IH; reflexivity. Qed.

Lemma reads_of_app t1 t2 : reads_of (t1 ++ t2) = reads_of t1 ++ reads_of t2.
Proof. induction t1 as [|[] t1 IH]; simpl; by rewrite ?IH. Qed.

Lemma probes_of_app t1 t2 : probes_of (t1 ++ t2) = probes_of t1 ++ probes_of t2.
Proof. induction t1 as [|[] t1 IH]; simpl; by rewrite ?IH. Qed.

Lemma prints_of_prints lines : prints_of (EvPrint <$> lines) = lines.
Proof. induction lines as [|l lines IH]; [done|]. rewrite fmap_cons. simpl. by rewrite IH. Qed.

Lemma reads_of_prints lines : reads_of (EvPrint <$> lines) = [].
Proof. by induction lines. Qed.

Lemma probes_of_prints lines : probes_of (EvPrint <$> lines) = [].
Proof. by induction lines. Qed.

Lemma prints_of_probes ps : prints_of (EvExists <$> ps) = [].
Proof. by induction ps. Qed.

Lemma reads_of_probes ps : reads_of (EvExists <$> ps) = [].
Proof. by induction ps. Qed.

Lemma probes_of_probes ps : probes_of (EvExists <$> ps) = ps.
Proof. induction ps as [|p ps IH]; [done|]. rewrite fmap_cons. simpl. by rewrite IH. Qed.

(** The required-files comprehension on a list of path strings: one probe
    per path, in order, and the absent ones as result. *)
Lemma missing_of_strings fs out_dir paths :
  missing_of fs out_dir (PStr <$> paths) =
  (EvExists <$> (joinpath out_dir <$> paths), Ok (PStr <$> absent fs out_dir paths)).
Proof.
  induction paths as [|rel paths IH]; [done|].
  rewrite !fmap_cons. cbn [missing_of file_exists].
  unfold path_exists. rewrite bind_ok. cbn [fst snd].
  rewrite IH, bind_ok. cbn [fst snd ret app]. rewrite app_nil_r.
  unfold absent. rewrite filter_cons.
  destruct (decide (~ is_Some (fs (joinpath out_dir rel)))) as [Hno|Hyes].
  - by rewrite bool_decide_eq_false_2.
  - rewrite bool_decide_eq_true_2; [done|]. by apply dec_stable.
Qed.

Lemma fail_with_run mode counts warns msg code :
  fail_with mode counts warns msg code =
  (EvPrint <$> summary_lines mode counts warns [msg], Ok code).
Proof.
  unfold fail_with, summarize, print_all. rewrite bind_ok. cbn [fst snd ret].
  by rewrite app_nil_r.
Qed.

End IOFacts.

Section RequiredFiles.
Context {P : Platform}.

Lemma gate_missing_required fs policy mode base rg en rf paths :
  policy_section policy = Ok rg ->
  Py.get rg "enabled" (PBool true) = Ok en ->
  Py.truthy en = true ->
  Py.get rg "required_files" (PList []) = Ok rf ->
  Py.iter (Py.or_else rf (PList [])) = Ok (PStr <$> paths) ->
  (exists rel, rel ∈ paths /\ fs (joinpath (joinpath base mode) rel) = None) ->
  gate_one_mode fs policy mode base =
  ((EvExists <$> (joinpath (joinpath base mode) <$> paths))
     ++ (EvPrint <$> summary_lines mode zero_counts []
           ["Missing required outputs: "
              +:+ Py.repr (PList (PStr <$> absent fs (joinpath base mode) paths))]),
   Ok E_REQUIRED_OUTPUTS).
Proof.
  intros Hsec Hen Hon Hrf Hiter (rel & Hin & Hnone).
  unfold gate_one_mode.
  rewrite Hsec, bind_lift_ok, Hen, bind_lift_ok, Hon. cbn [negb].
  rewrite Hrf, bind_lift_ok, Hiter, bind_lift_ok, missing_of_strings, bind_ok.
  cbn [fst snd].
  assert (Habs : rel ∈ absent fs (joinpath base mode) paths).
  { unfold absent. apply list_elem_of_filter. split; [|done].
    rewrite Hnone. by intros [? ?]. }
  destruct (absent fs (joinpath base mode) paths) as [|a rest] eqn:Heq.
  { by apply elem_of_nil in Habs. }
  rewrite fmap_cons. by rewrite fail_with_run.
Qed.

End RequiredFiles.

(** C2, as the code has it.  With the gate switched off the required-files
    check is not reached: the listed file is absent and the mode passes. *)
Lemma disabled_gate_ignores_missing_required_file :
  Cases.empty_disk (joinpath (joinpath (mkpath "outputs") "tokyo") "a.json") = None /\
  gate_one_mode Cases.empty_disk Cases.policy_disabled "tokyo" (mkpath "outputs")
  = ([EvPrint "[tokyo] release_gate.disabled => PASS"], Ok PASS) /\
  PASS <> E_REQUIRED_OUTPUTS.
Proof. split; [reflexivity|]. split; [by vm_compute|]. discriminate. Qed.

(** C2 (amended).  With the gate enabled and [required_files] a list of path
    strings of which at least one does not exist under the mode's output
    directory, the gate returns 14.  Nothing is read: the only file-system
    accesses are the existence probes of the listed paths, in order.  The
    printed output is the one summary, with zero counts, no warning and the
    missing-outputs message as its only failure. *)
Theorem missing_required_file_stops_gate {P : Platform}
    (fs : filesystem) (policy : pyval) (mode : string) (base : Path)
    (rg en rf : pyval) (paths : list string) :
  policy_section policy = Ok rg ->
  Py.get rg "enabled" (PBool true) = Ok en ->
  Py.truthy en = true ->
  Py.get rg "required_files" (PList []) = Ok rf ->
  Py.iter (Py.or_else rf (PList [])) = Ok (PStr <$> paths) ->
  (exists rel, rel ∈ paths /\ fs (joinpath (joinpath base mode) rel) = None) ->
  exists t,
    gate_one_mode fs policy mode base = (t, Ok E_REQUIRED_OUTPUTS) /\
    reads_of t = [] /\
    probes_of t = (joinpath (joinpath base mode) <$> paths) /\
    prints_of t =
      summary_lines mode zero_counts []
        ["Missing required outputs: "
           +:+ Py.repr (PList (PStr <$> absent fs (joinpath base mode) paths))].
Proof.
  intros Hsec Hen Hon Hrf Hiter Hmiss.
  eexists. split.
  { by apply (gate_missing_required fs policy mode base rg en rf paths). }
  rewrite reads_of_app, probes_of_app, prints_of_app.
  rewrite reads_of_probes, reads_of_prints, probes_of_probes, probes_of_prints.
  rewrite prints_of_probes, prints_of_prints, !app_nil_r. auto.
Qed.

Lemma missing_required_file_stops_gate_witness :
  exists t,
    gate_one_mode Cases.empty_disk Cases.policy_requires_a "tokyo" (mkpath "outputs")
    = (t, Ok E_REQUIRED_OUTPUTS) /\
    reads_of t = [] /\
    probes_of t = (joinpath (joinpath (mkpath "outputs") "tokyo") <$> ["a.json"]) /\
    prints_of t =
      summary_lines "tokyo" zero_counts []
        ["Missing required outputs: "
           +:+ Py.repr (T := Demo.text)
                 (PList (PStr <$> absent Cases.empty_disk
                                    (joinpath (mkpath "outputs") "tokyo") ["a.json"]))].
Proof.
  apply (missing_required_file_stops_gate Cases.empty_disk Cases.policy_requires_a
           "tokyo" (mkpath "outputs")
           (PDict [("required_files", PList [PStr "a.json"])])
           (PBool true) (PList [PStr "a.json"]) ["a.json"]).
  - reflexivity.
  - reflexivity.
  - reflexivity.
  - reflexivity.
  - reflexivity.
  - exists "a.json". split; [apply list_elem_of_here | reflexivity].
Defined.

Section Orchestrator.
Context {P : Platform}.

Lemma bind_ext {A B} (m1 m2 : IO A) (k1 k2 : A -> IO B) :
  m1 = m2 -> (forall a, k1 a = k2 a) -> bind m1 k1 = bind m2 k2.
Proof.
  intros -> Hk. unfold bind. destruct m2 as [t [a|e]]; [|done]. by rewrite Hk.
Qed.

Lemma read_text_agree fs1 fs2 dir rel :
  agree_below fs1 fs2 dir ->
  read_text fs1 (joinpath dir rel) = read_text fs2 (joinpath dir rel).
Proof. intros H. unfold read_text. by rewrite (H rel). Qed.

Lemma read_text_ignore_agree fs1 fs2 dir rel :
  agree_below fs1 fs2 dir ->
  read_text_ignore fs1 (joinpath dir rel) = read_text_ignore fs2 (joinpath dir rel).
Proof. intros H. unfold read_text_ignore. by rewrite (H rel). Qed.

Lemma path_exists_agree fs1 fs2 dir rel :
  agree_below fs1 fs2 dir ->
  path_exists fs1 (joinpath dir rel) = path_exists fs2 (joinpath dir rel).
Proof. intros H. unfold path_exists. by rewrite (H rel). Qed.

Lemma read_json_agree fs1 fs2 dir rel :
  agree_below fs1 fs2 dir ->
  read_json fs1 (joinpath dir rel) = read_json fs2 (joinpath dir rel).
Proof. intros H. unfold read_json. by rewrite (read_text_agree fs1 fs2 dir rel H). Qed.

Lemma missing_of_agree fs1 fs2 dir items :
  agree_below fs1 fs2 dir -> missing_of fs1 dir items = missing_of fs2 dir items.
Proof.
  intros H. induction items as [|f rest IH]; [done|].
  cbn [missing_of]. rewrite IH. apply bind_ext; [|done].
  destruct f; cbn [file_exists]; try done. by apply path_exists_agree.
Qed.

Ltac agree_step H :=
  lazymatch goal with
  | |- read_text _ _ = read_text _ _ => apply (read_text_agree _ _ _ _ H)
  | |- read_text_ignore _ _ = read_text_ignore _ _ =>
      apply (read_text_ignore_agree _ _ _ _ H)
  | |- read_json _ _ = read_json _ _ => apply (read_json_agree _ _ _ _ H)
  | |- path_exists _ _ = path_exists _ _ => apply (path_exists_agree _ _ _ _ H)
  | |- missing_of _ _ _ = missing_of _ _ _ => apply (missing_of_agree _ _ _ _ H)
  | |- bind _ _ = bind _ _ => apply bind_ext; [|intros ?]
  | |- (if ?b then _ else _) = (if ?b then _ else _) => destruct b
  | |- match ?x with _ => _ end = match ?x with _ => _ end => destruct x
  | |- (let x := ?v in _) = (let y := ?v in _) => cbv zeta
  | |- _ => reflexivity
  end.

Lemma check_manifest_agree fs1 fs2 rg mode dir signer :
  agree_below fs1 fs2 dir ->
  check_manifest fs1 rg mode dir signer = check_manifest fs2 rg mode dir signer.
Proof. intros H. unfold check_manifest. repeat agree_step H. Qed.

Lemma gate_from_findings_agree fs1 fs2 rg mode dir :
  agree_below fs1 fs2 dir ->
  gate_from_findings fs1 rg mode dir = gate_from_findings fs2 rg mode dir.
Proof. intros H. unfold gate_from_findings, gate_from_report. repeat agree_step H. Qed.

(** A mode's evaluation depends on the file system only below that mode's
    output directory. *)
Lemma gate_one_mode_agree fs1 fs2 policy mode base :
  agree_below fs1 fs2 (joinpath base mode) ->
  gate_one_mode fs1 policy mode base = gate_one_mode fs2 policy mode base.
Proof.
  intros H.
  unfold gate_one_mode, gate_from_policy_reports, gate_from_manifest.
  repeat first
    [ apply (check_manifest_agree _ _ _ _ _ _ H)
    | apply (gate_from_findings_agree _ _ _ _ _ H)
    | agree_step H ].
Qed.

Lemma run_modes_failing_head fs policy base m rest t c :
  gate_one_mode fs policy m base = (t, Ok c) ->
  c <> PASS ->
  run_modes fs policy base (m :: rest) =
  (t ++ [EvPrint ("[" +:+ m +:+ "] RELEASE GATE => FAIL (exit "
                    +:+ Py.str_of_Z c +:+ ")")], Ok c).
Proof.
  intros Hgate Hc. cbn [run_modes]. rewrite Hgate, bind_ok.
  apply Z.eqb_neq in Hc. rewrite Hc. reflexivity.
Qed.

Lemma run_modes_passing_head fs policy base m rest t :
  gate_one_mode fs policy m base = (t, Ok PASS) ->
  run_modes fs policy base (m :: rest) =
  (t ++ (run_modes fs policy base rest).1, (run_modes fs policy base rest).2).
Proof. intros Hgate. cbn [run_modes]. by rewrite Hgate, bind_ok. Qed.

Lemma main_unfold fs a t0 policy :
  load_policy fs (mkpath (arg_policy a)) = (t0, Ok policy) ->
  main fs a =
  (t0 ++ (run_modes fs policy (mkpath (arg_outputs_dir a)) (modes_of (arg_mode a))).1,
   match (run_modes fs policy (mkpath (arg_outputs_dir a)) (modes_of (arg_mode a))).2 with
   | Ok code => Exit code
   | Raise e => Uncaught e
   end).
Proof.
  intros Hload. unfold main. rewrite Hload, bind_ok. cbn [fst snd].
  by destruct (run_modes _ _ _ _) as [t [c|e]].
Qed.

Lemma load_policy_agree fs1 fs2 p : fs1 p = fs2 p -> load_policy fs1 p = load_policy fs2 p.
Proof. intros H. unfold load_policy, read_text. by rewrite H. Qed.

End Orchestrator.

(** C1.  With mode selector "both" the orchestrator evaluates tokyo and then
    ny.  If tokyo's gate returns a code other than PASS, the run ends with
    exactly that code, its trace is the policy load, tokyo's evaluation and
    the failure line (so ny's gate is not evaluated), and the whole run is
    the same on any file system that agrees on the policy file and below
    tokyo's directory, whatever ny's directory holds.  If tokyo returns PASS
    the run continues with ny and ends with ny's code; when both return PASS
    the exit code is 0. *)
Theorem both_modes_fail_fast {P : Platform}
    (fs : filesystem) (a : args) (t0 : trace) (policy : pyval) :
  arg_mode a = "both" ->
  load_policy fs (mkpath (arg_policy a)) = (t0, Ok policy) ->
  let base := mkpath (arg_outputs_dir a) in
  let fail_line m c :=
    EvPrint ("[" +:+ m +:+ "] RELEASE GATE => FAIL (exit " +:+ Py.str_of_Z c +:+ ")") in
  modes_of (arg_mode a) = ["tokyo"; "ny"] /\
  (forall t c,
      gate_one_mode fs policy "tokyo" base = (t, Ok c) -> c <> PASS ->
      main fs a = (t0 ++ t ++ [fail_line "tokyo" c], Exit c) /\
      forall fs' : filesystem,
        fs' (mkpath (arg_policy a)) = fs (mkpath (arg_policy a)) ->
        agree_below fs' fs (joinpath base "tokyo") ->
        main fs' a = main fs a) /\
  (forall t1 t2 c,
      gate_one_mode fs policy "tokyo" base = (t1, Ok PASS) ->
      gate_one_mode fs policy "ny" base = (t2, Ok c) ->
      main fs a =
      (t0 ++ t1 ++ t2 ++
         [if c =? PASS then EvPrint "RELEASE GATE => PASS" else fail_line "ny" c],
       Exit c)).
Proof.
  intros Hmode Hload base fail_line. subst base fail_line.
  assert (Hmodes : modes_of (arg_mode a) = ["tokyo"; "ny"]) by (by rewrite Hmode).
  split; [exact Hmodes|]. split.
  - intros t c Hgate Hc.
    assert (Hmain : main fs a =
              (t0 ++ t ++ [EvPrint ("[" +:+ "tokyo" +:+ "] RELEASE GATE => FAIL (exit "
                                      +:+ Py.str_of_Z c +:+ ")")], Exit c)).
    { rewrite (main_unfold fs a t0 policy Hload), Hmodes.
      by rewrite (run_modes_failing_head fs policy _ "tokyo" ["ny"] t c Hgate Hc). }
    split; [exact Hmain|]. intros fs' Hpol Hagree.
    rewrite Hmain.
    rewrite (main_unfold fs' a t0 policy), Hmodes.
    + rewrite (run_modes_failing_head fs' policy _ "tokyo" ["ny"] t c); [done| |done].
      by rewrite (gate_one_mode_agree fs' fs policy "tokyo" _ Hagree).
    + by rewrite (load_policy_agree fs' fs _ Hpol).
  - intros t1 t2 c Htokyo Hny.
    rewrite (main_unfold fs a t0 policy Hload), Hmodes.
    rewrite (run_modes_passing_head fs policy _ "tokyo" ["ny"] t1 Htokyo).
    destruct (Z.eqb_spec c PASS) as [->|Hc].
    + rewrite (run_modes_passing_head fs policy _ "ny" [] t2 Hny). reflexivity.
    + rewrite (run_modes_failing_head fs policy _ "ny" [] t2 c Hny Hc). reflexivity.
Qed.

Lemma both_modes_fail_fast_witness :
  exists t,
    gate_one_mode Cases.policy_only_disk Cases.policy_requires_a "tokyo" (mkpath "outputs")
    = (t, Ok E_REQUIRED_OUTPUTS) /\
    main Cases.policy_only_disk Cases.both_args
    = ([EvRead (mkpath "policy.yml")] ++ t
         ++ [EvPrint "[tokyo] RELEASE GATE => FAIL (exit 14)"],
       Exit E_REQUIRED_OUTPUTS).
Proof.
  eexists. split; [by vm_compute|].
  refine (proj1 (proj1 (proj2 (both_modes_fail_fast Cases.policy_only_disk Cases.both_args
            [EvRead (mkpath "policy.yml")] Cases.policy_requires_a _ _)) _
            E_REQUIRED_OUTPUTS _ _)).
  - reflexivity.
  - by vm_compute.
  - by vm_compute.
  - discriminate.
Defined.

Section Stages.
Context {P : Platform}.

Lemma read_text_file fs p txt :
  fs p = Some (File txt) -> read_text fs p = ([EvRead p], Ok txt).
Proof. intros H. unfold read_text. by rewrite H. Qed.

Lemma read_text_absent fs p :
  fs p = None -> read_text fs p = ([EvRead p], Raise FileNotFoundError).
Proof. intros H. unfold read_text. by rewrite H. Qed.

Lemma read_text_ignore_file fs p txt :
  fs p = Some (File txt) -> read_text_ignore fs p = ([EvRead p], Ok txt).
Proof. intros H. unfold read_text_ignore. by rewrite H. Qed.

Lemma read_text_ignore_lenient fs p txt :
  fs p ≫= lenient_text = Some txt -> read_text_ignore fs p = ([EvRead p], Ok txt).
Proof.
  unfold read_text_ignore. destruct (fs p) as [[c|l|]|]; try discriminate;
    by intros [= ->].
Qed.

Lemma read_text_ignore_absent fs p :
  fs p = None -> read_text_ignore fs p = ([EvRead p], Raise FileNotFoundError).
Proof. intros H. unfold read_text_ignore. by rewrite H. Qed.

Lemma read_json_file fs p txt v :
  fs p = Some (File txt) -> json_loads txt = Some v ->
  read_json fs p = ([EvRead p], Ok v).
Proof.
  intros Hfile Hloads. unfold read_json.
  rewrite (read_text_file fs p txt Hfile), bind_ok, Hloads. reflexivity.
Qed.

Lemma read_json_absent fs p :
  fs p = None -> read_json fs p = ([EvRead p], Raise FileNotFoundError).
Proof. intros H. unfold read_json. by rewrite (read_text_absent fs p H). Qed.

Lemma read_json_garbled fs p txt :
  fs p = Some (File txt) -> json_loads txt = None ->
  read_json fs p = ([EvRead p], Raise JSONDecodeError).
Proof.
  intros Hfile Hloads. unfold read_json.
  rewrite (read_text_file fs p txt Hfile), bind_ok, Hloads. reflexivity.
Qed.

(** A read always leaves exactly one event, whatever its result. *)
Lemma read_json_run fs p : read_json fs p = ([EvRead p], (read_json fs p).2).
Proof.
  unfold read_json, read_text.
  destruct (fs p) as [[txt|l|]|]; try reflexivity.
  rewrite bind_ok. by destruct (json_loads txt).
Qed.

Lemma read_json_ok_inv fs p v :
  (read_json fs p).2 = Ok v ->
  exists txt, fs p = Some (File txt) /\ json_loads txt = Some v.
Proof.
  unfold read_json, read_text.
  destruct (fs p) as [[txt|l|]|]; try discriminate.
  rewrite bind_ok. destruct (json_loads txt) as [w|] eqn:Hw; [|discriminate].
  intros [= <-]. eauto.
Qed.

(** Stage 1 passed: the gate is its probes followed by stage 2 onwards. *)
Lemma gate_required_present fs policy mode base rg en rf paths :
  policy_section policy = Ok rg ->
  Py.get rg "enabled" (PBool true) = Ok en ->
  Py.truthy en = true ->
  Py.get rg "required_files" (PList []) = Ok rf ->
  Py.iter (Py.or_else rf (PList [])) = Ok (PStr <$> paths) ->
  absent fs (joinpath base mode) paths = [] ->
  gate_one_mode fs policy mode base =
  ((EvExists <$> (joinpath (joinpath base mode) <$> paths))
     ++ (gate_from_policy_reports fs rg mode (joinpath base mode)).1,
   (gate_from_policy_reports fs rg mode (joinpath base mode)).2).
Proof.
  intros Hsec Hen Hon Hrf Hiter Habs. unfold gate_one_mode.
  rewrite Hsec, bind_lift_ok, Hen, bind_lift_ok, Hon. cbn [negb].
  rewrite Hrf, bind_lift_ok, Hiter, bind_lift_ok, missing_of_strings, bind_ok.
  cbn [fst snd]. by rewrite Habs.
Qed.

(** Stage 2 when the post report cannot be read: the read of the pre report
    has succeeded, its status has not been looked at, and the exception of
    the second read ends the run. *)
Lemma reports_post_unreadable fs rg mode out txt pre e :
  fs (joinpath out "policy_report.json") = Some (File txt) ->
  json_loads txt = Some pre ->
  (read_json fs (joinpath out "policy_report_post.json")).2 = Raise e ->
  gate_from_policy_reports fs rg mode out =
  ([EvRead (joinpath out "policy_report.json");
    EvRead (joinpath out "policy_report_post.json")], Raise e).
Proof.
  intros Hfile Hloads Hpost. unfold gate_from_policy_reports.
  rewrite (read_json_file fs _ txt pre Hfile Hloads), bind_ok.
  rewrite (read_json_run fs (joinpath out "policy_report_post.json")), Hpost.
  reflexivity.
Qed.

Lemma reports_pre_not_pass fs rg mode out txt pre post st :
  fs (joinpath out "policy_report.json") = Some (File txt) ->
  json_loads txt = Some pre ->
  (read_json fs (joinpath out "policy_report_post.json")).2 = Ok post ->
  Py.get pre "status" PNone = Ok st ->
  Py.ne_str st "PASS" = true ->
  exists msg,
    gate_from_policy_reports fs rg mode out =
    ([EvRead (joinpath out "policy_report.json");
      EvRead (joinpath out "policy_report_post.json")]
       ++ (EvPrint <$> summary_lines mode zero_counts [] [msg]),
     Ok E_POLICY_FAIL).
Proof.
  intros Hfile Hloads Hpost Hst Hne. unfold gate_from_policy_reports.
  rewrite (read_json_file fs _ txt pre Hfile Hloads), bind_ok.
  rewrite (read_json_run fs (joinpath out "policy_report_post.json")), Hpost, bind_ok.
  rewrite Hst, bind_lift_ok, Hne.
  destruct pre as [| | | | |items]; try discriminate Hst.
  cbn [Py.get]. rewrite bind_lift_ok, fail_with_run. cbn [fst snd].
  eexists. reflexivity.
Qed.

Lemma reports_pass fs rg mode out txt pre txt' post :
  fs (joinpath out "policy_report.json") = Some (File txt) ->
  json_loads txt = Some pre ->
  fs (joinpath out "policy_report_post.json") = Some (File txt') ->
  json_loads txt' = Some post ->
  Py.get pre "status" PNone = Ok (PStr "PASS") ->
  Py.get post "status" PNone = Ok (PStr "PASS") ->
  gate_from_policy_reports fs rg mode out =
  ([EvRead (joinpath out "policy_report.json");
    EvRead (joinpath out "policy_report_post.json")]
     ++ (gate_from_manifest fs rg mode out).1,
   (gate_from_manifest fs rg mode out).2).
Proof.
  intros Hfile Hloads Hfile' Hloads' Hst Hst'. unfold gate_from_policy_reports.
  rewrite (read_json_file fs _ txt pre Hfile Hloads), bind_ok.
  rewrite (read_json_file fs _ txt' post Hfile' Hloads'), bind_ok.
  rewrite Hst, bind_lift_ok. cbn [Py.ne_str String.eqb Ascii.eqb Bool.eqb negb].
  rewrite Hst', bind_lift_ok. cbn [Py.ne_str String.eqb Ascii.eqb Bool.eqb negb].
  cbn [fst snd app]. by destruct (gate_from_manifest fs rg mode out).
Qed.

End Stages.

Section WeakestPre.
Context {P : Platform}.

Lemma wp_bind {A B} (m : IO A) (k : A -> IO B) (Q : trace -> B -> Prop) :
  wp m (fun t a => wp (k a) (fun t' b => Q (t ++ t') b)) -> wp (bind m k) Q.
Proof.
  intros H t b Hrun. unfold bind in Hrun.
  destruct m as [t1 [a|e]]; [|discriminate].
  destruct (k a) as [t2 r] eqn:Hk. injection Hrun as <- ->.
  exact (H t1 a eq_refl t2 b Hk).
Qed.

Lemma wp_lift {A} (r : res A) (Q : trace -> A -> Prop) :
  (forall a, r = Ok a -> Q [] a) -> wp (lift r) Q.
Proof. intros H t a [= <- ->]. by apply H. Qed.

Lemma wp_ret {A} (a : A) (Q : trace -> A -> Prop) : Q [] a -> wp (ret a) Q.
Proof. intros H t b [= <- <-]. exact H. Qed.

Lemma wp_read_text fs p (Q : trace -> string -> Prop) :
  (forall txt, fs p = Some (File txt) -> Q [EvRead p] txt) -> wp (read_text fs p) Q.
Proof.
  intros H t txt. unfold read_text. destruct (fs p) as [[c|l|]|]; try discriminate.
  intros [= <- <-]. by apply H.
Qed.

Lemma wp_read_text_ignore fs p (Q : trace -> string -> Prop) :
  (forall txt, fs p ≫= lenient_text = Some txt -> Q [EvRead p] txt) ->
  wp (read_text_ignore fs p) Q.
Proof.
  intros H t txt. unfold read_text_ignore.
  destruct (fs p) as [[c|l|]|] eqn:Hfs; try discriminate;
    intros [= <- <-]; by apply H.
Qed.

Lemma wp_read_json fs p (Q : trace -> pyval -> Prop) :
  (forall txt v, fs p = Some (File txt) -> json_loads txt = Some v -> Q [EvRead p] v) ->
  wp (read_json fs p) Q.
Proof.
  intros H t v Hrun. rewrite read_json_run in Hrun. injection Hrun as <- Hv.
  destruct (read_json_ok_inv fs p v Hv) as (txt & Hfile & Hloads). eauto.
Qed.

Lemma wp_path_exists fs p (Q : trace -> bool -> Prop) :
  Q [EvExists p] (bool_decide (is_Some (fs p))) -> wp (path_exists fs p) Q.
Proof. intros H t b [= <- <-]. exact H. Qed.

Lemma wp_print text (Q : trace -> unit -> Prop) : Q [EvPrint text] tt -> wp (print text) Q.
Proof. intros H t b [= <-]. by destruct b. Qed.

Lemma wp_summarize mode counts warns fails (Q : trace -> unit -> Prop) :
  Q (EvPrint <$> summary_lines mode counts warns fails) tt ->
  wp (summarize mode counts warns fails) Q.
Proof. intros H t b [= <-]. by destruct b. Qed.

Lemma wp_fail_with mode counts warns msg code (Q : trace -> Z -> Prop) :
  Q (EvPrint <$> summary_lines mode counts warns [msg]) code ->
  wp (fail_with mode counts warns msg code) Q.
Proof. intros H t b. rewrite fail_with_run. intros [= <- <-]. exact H. Qed.

Lemma missing_of_ok_strings fs out items t missing :
  missing_of fs out items = (t, Ok missing) -> exists paths, items = PStr <$> paths.
Proof.
  revert t missing. induction items as [|f rest IH]; intros t missing Hrun.
  - by exists [].
  - cbn [missing_of] in Hrun.
    destruct f as [| | |rel| |]; cbn [file_exists lift] in Hrun; try discriminate Hrun.
    unfold path_exists in Hrun. rewrite bind_ok in Hrun. cbn [fst snd] in Hrun.
    destruct (missing_of fs out rest) as [t' [m|e]] eqn:Hrest; [|discriminate Hrun].
    destruct (IH t' m eq_refl) as [paths ->]. by exists (rel :: paths).
Qed.

Lemma wp_missing_of fs out items (Q : trace -> list pyval -> Prop) :
  (forall paths, items = PStr <$> paths ->
     Q (EvExists <$> (joinpath out <$> paths)) (PStr <$> absent fs out paths)) ->
  wp (missing_of fs out items) Q.
Proof.
  intros H t missing Hrun.
  destruct (missing_of_ok_strings fs out items t missing Hrun) as [paths ->].
  rewrite missing_of_strings in Hrun. injection Hrun as <- <-. by apply H.
Qed.

Lemma wp_mono {A} (m : IO A) (Q Q' : trace -> A -> Prop) :
  wp m Q -> (forall t a, Q t a -> Q' t a) -> wp m Q'.
Proof. intros H HQ t a Hrun. apply HQ. by apply H. Qed.

End WeakestPre.

(** One symbolic step through a computation whose normal termination is being
    characterised. *)
Ltac wp_step :=
  lazymatch goal with
  | |- wp (bind _ _) _ => apply wp_bind
  | |- wp (lift _) _ => apply wp_lift; intros ? ?
  | |- wp (ret _) _ => apply wp_ret
  | |- wp (read_text _ _) _ => apply wp_read_text; intros ? ?
  | |- wp (read_text_ignore _ _) _ => apply wp_read_text_ignore; intros ? ?
  | |- wp (read_json _ _) _ => apply wp_read_json; intros ? ? ? ?
  | |- wp (path_exists _ _) _ => apply wp_path_exists
  | |- wp (print _) _ => apply wp_print
  | |- wp (summarize _ _ _ _) _ => apply wp_summarize
  | |- wp (fail_with _ _ _ _ _) _ => apply wp_fail_with
  | |- wp (missing_of _ _ _) _ => apply wp_missing_of; intros ? ?
  | |- wp (if ?b then _ else _) _ => destruct b eqn:?
  | |- wp (match ?x with _ => _ end) _ => destruct x eqn:?
  | |- wp (let x := _ in _) _ => cbv zeta
  end.

Section SummaryOnce.
Context {P : Platform}.

Lemma count_one_dom (counts counts' : gmap string Z) f :
  count_one counts f = Ok counts' -> dom counts' = dom counts.
Proof.
  unfold count_one. destruct (Py.get f "severity" (PStr "UNSPECIFIED")) as [sev|e];
    [|discriminate]. cbn [res_bind].
  set (s := if bool_decide _ then _ else _).
  destruct (counts !! s) as [c|] eqn:Hs; [|discriminate].
  intros [= <-]. rewrite dom_insert_L. apply elem_of_dom_2 in Hs. set_solver.
Qed.

Lemma count_loop_dom findings : forall counts counts' : gmap string Z,
  count_loop counts findings = Ok counts' -> dom counts' = dom counts.
Proof.
  induction findings as [|f rest IH]; intros counts counts' Hrun.
  - by injection Hrun as <-.
  - cbn [count_loop] in Hrun.
    destruct (count_one counts f) as [c|e] eqn:Hone; [|discriminate].
    cbn [res_bind] in Hrun. rewrite (IH _ _ Hrun). by apply (count_one_dom _ _ f).
Qed.

Lemma count_severities_dom findings (counts : gmap string Z) :
  count_severities findings = Ok counts -> dom counts = six_categories.
Proof.
  intros Hrun. unfold count_severities in Hrun.
  by rewrite (count_loop_dom _ _ _ Hrun), zero_counts_dom.
Qed.

Lemma one_summary_failure mode pre counts warns msg code :
  prints_of pre = [] ->
  dom counts = six_categories ->
  code <> PASS ->
  one_summary mode (pre ++ (EvPrint <$> summary_lines mode counts warns [msg])) code.
Proof.
  intros Hpre Hdom Hcode. exists counts, warns, [msg].
  rewrite prints_of_app, Hpre, prints_of_prints. split; [done|]. split; [done|].
  split; [discriminate|done].
Qed.

Lemma one_summary_pass mode pre counts warns :
  prints_of pre = [] ->
  dom counts = six_categories ->
  one_summary mode (pre ++ (EvPrint <$> summary_lines mode counts warns [])) PASS.
Proof.
  intros Hpre Hdom. exists counts, warns, [].
  rewrite prints_of_app, Hpre, prints_of_prints. done.
Qed.

Ltac summary_leaf :=
  let pre := fresh "pre" in
  let Hpre := fresh "Hpre" in
  intros pre Hpre; rewrite ?app_nil_r, ?app_assoc;
  first [ apply one_summary_failure; [| |discriminate] | apply one_summary_pass ];
  [ rewrite ?prints_of_app, ?Hpre, ?prints_of_probes; reflexivity
  | first [ apply zero_counts_dom | eapply count_severities_dom; eassumption ] ].

(** When it returns, stage 4 onwards has printed exactly one summary. *)
Lemma wp_gate_from_findings fs rg mode out :
  wp (gate_from_findings fs rg mode out)
     (fun t code => forall pre, prints_of pre = [] -> one_summary mode (pre ++ t) code).
Proof. unfold gate_from_findings, gate_from_report. repeat wp_step; summary_leaf. Qed.

(** Stage 3 either returns early after one summary or falls through
    silently. *)
Lemma wp_check_manifest fs rg mode out signer :
  wp (check_manifest fs rg mode out signer)
     (fun t early => forall pre, prints_of pre = [] ->
        match early with
        | Some code => one_summary mode (pre ++ t) code
        | None => prints_of (pre ++ t) = []
        end).
Proof.
  unfold check_manifest. repeat wp_step;
    first [ summary_leaf
          | intros pre Hpre; rewrite ?prints_of_app, Hpre; reflexivity ].
Qed.

Lemma wp_gate_from_manifest fs rg mode out :
  wp (gate_from_manifest fs rg mode out)
     (fun t code => forall pre, prints_of pre = [] -> one_summary mode (pre ++ t) code).
Proof.
  unfold gate_from_manifest. wp_step. wp_step. cbv zeta. wp_step.
  eapply wp_mono; [apply wp_check_manifest|].
  intros t [code|] Hm; cbn beta iota.
  - wp_step. intros pre Hpre. rewrite app_nil_r, app_assoc. apply Hm.
    by rewrite prints_of_app, Hpre.
  - eapply wp_mono; [apply wp_gate_from_findings|].
    intros t' code Hf pre Hpre. rewrite !app_assoc. apply Hf.
    apply Hm. by rewrite prints_of_app, Hpre.
Qed.

Lemma wp_gate_from_policy_reports fs rg mode out :
  wp (gate_from_policy_reports fs rg mode out)
     (fun t code => forall pre, prints_of pre = [] -> one_summary mode (pre ++ t) code).
Proof.
  unfold gate_from_policy_reports.
  repeat first
    [ lazymatch goal with
      | |- wp (gate_from_manifest _ _ _ _) _ =>
          eapply wp_mono; [apply wp_gate_from_manifest|];
          let t := fresh "t" in let code := fresh "code" in
          let Hm := fresh "Hm" in let pre := fresh "pre" in
          let Hpre := fresh "Hpre" in
          intros t code Hm pre Hpre; rewrite ?app_nil_r, ?app_assoc; apply Hm;
          rewrite ?prints_of_app, ?Hpre; reflexivity
      end
    | wp_step ];
    summary_leaf.
Qed.

End SummaryOnce.

(** C9, as the code has it.  On the enabled=false short-circuit the mode
    prints a single notice and no summary. *)
Lemma disabled_gate_prints_no_summary :
  gate_one_mode Cases.empty_disk Cases.policy_disabled "tokyo" (mkpath "outputs")
  = ([EvPrint "[tokyo] release_gate.disabled => PASS"], Ok PASS) /\
  ~ one_summary (P := Demo.platform) "tokyo"
      [EvPrint "[tokyo] release_gate.disabled => PASS"] PASS.
Proof.
  split; [by vm_compute|].
  intros (counts & warns & fails & Hprints & _).
  unfold summary_lines in Hprints. cbn [prints_of app] in Hprints.
  discriminate Hprints.
Qed.

(** C9 (amended).  For every evaluated mode with the gate enabled and every
    outcome it returns (PASS or any failure code), the printed output of the
    evaluation is exactly one run summary: the mode name, the six-row
    severity table, the warnings and the failure reasons, with failure
    reasons present exactly when the code is not PASS. *)
Theorem enabled_mode_prints_one_summary {P : Platform}
    (fs : filesystem) (policy : pyval) (mode : string) (base : Path)
    (rg en : pyval) (t : trace) (code : Z) :
  gate_one_mode fs policy mode base = (t, Ok code) ->
  policy_section policy = Ok rg ->
  Py.get rg "enabled" (PBool true) = Ok en ->
  Py.truthy en = true ->
  one_summary mode t code.
Proof.
  intros Hrun Hsec Hen Hon.
  assert (Hwp : wp (gate_one_mode fs policy mode base) (one_summary mode)).
  { unfold gate_one_mode. rewrite Hsec, bind_lift_ok, Hen, bind_lift_ok, Hon.
    cbn [negb]. cbv zeta. do 6 wp_step. wp_step.
    - eapply wp_mono; [apply wp_gate_from_policy_reports|].
      intros t' code' Hsum. cbn beta in Hsum. rewrite !app_assoc. apply Hsum.
      by rewrite !prints_of_app, prints_of_probes.
    - wp_step. rewrite !app_assoc. apply one_summary_failure.
      + by rewrite !prints_of_app, prints_of_probes.
      + apply zero_counts_dom.
      + discriminate. }
  exact (Hwp t code Hrun).
Qed.

Lemma enabled_mode_prints_one_summary_witness :
  exists t,
    gate_one_mode Cases.medium_disk Cases.policy_medium0 "tokyo" (mkpath "outputs")
    = (t, Ok PASS) /\
    one_summary "tokyo" t PASS.
Proof.
  eexists. split; [by vm_compute|].
  apply (enabled_mode_prints_one_summary Cases.medium_disk Cases.policy_medium0
           "tokyo" (mkpath "outputs") (PDict [("max_medium_findings", PInt 0)])
           (PBool true)).
  - by vm_compute.
  - reflexivity.
  - reflexivity.
  - reflexivity.
Defined.

Section PolicyReports.
Context {P : Platform}.

Lemma wp_gate_from_findings_code fs rg mode out :
  wp (gate_from_findings fs rg mode out) (fun _ code => code <> E_POLICY_FAIL).
Proof. unfold gate_from_findings, gate_from_report. repeat wp_step; discriminate. Qed.

Lemma wp_check_manifest_code fs rg mode out signer :
  wp (check_manifest fs rg mode out signer)
     (fun _ early => forall code, early = Some code -> code <> E_POLICY_FAIL).
Proof.
  unfold check_manifest. repeat wp_step; intros code [= <-]; discriminate.
Qed.

Lemma wp_gate_from_manifest_code fs rg mode out :
  wp (gate_from_manifest fs rg mode out) (fun _ code => code <> E_POLICY_FAIL).
Proof.
  unfold gate_from_manifest. wp_step. wp_step. cbv zeta. wp_step.
  eapply wp_mono; [apply wp_check_manifest_code|].
  intros t [code|] Hm; cbn beta iota.
  - wp_step. by apply Hm.
  - eapply wp_mono; [apply wp_gate_from_findings_code|]. auto.
Qed.

(** Exit code 10 leaves stage 2 only after both reports were read and
    parsed, and nothing else was read. *)
Lemma wp_gate_from_policy_reports_10 fs rg mode out :
  wp (gate_from_policy_reports fs rg mode out)
     (fun t code => code = E_POLICY_FAIL -> both_reports_read fs out t).
Proof.
  unfold gate_from_policy_reports.
  repeat first
    [ lazymatch goal with
      | |- wp (gate_from_manifest _ _ _ _) _ =>
          eapply wp_mono; [apply wp_gate_from_manifest_code|];
          let t := fresh "t" in let code := fresh "code" in
          let Hne := fresh "Hne" in let Heq := fresh "Heq" in
          intros t code Hne Heq; by destruct Hne
      end
    | wp_step ];
    try (intros; discriminate).
  intros _. split.
  - rewrite !reads_of_app, reads_of_prints. reflexivity.
  - eauto 10.
Qed.

Lemma exit_10_needs_both_reports fs policy mode base t :
  gate_one_mode fs policy mode base = (t, Ok E_POLICY_FAIL) ->
  both_reports_read fs (joinpath base mode) t.
Proof.
  intros Hrun.
  assert (Hwp : wp (gate_one_mode fs policy mode base)
                   (fun t code => code = E_POLICY_FAIL ->
                                  both_reports_read fs (joinpath base mode) t)).
  { unfold gate_one_mode. cbv zeta. repeat wp_step; try (intros; discriminate).
    eapply wp_mono; [apply wp_gate_from_policy_reports_10|].
    intros t' code' H10 Heq. destruct (H10 Heq) as [Hreads Hfiles].
    split; [|exact Hfiles].
    by rewrite !reads_of_app, reads_of_probes, Hreads. }
  exact (Hwp t E_POLICY_FAIL Hrun eq_refl).
Qed.

End PolicyReports.

(** C10.  In a mode evaluation whose required-files check passes and whose
    pre report is readable, both policy reports are read and parsed before
    the pre report's status is looked at.  If the post report is missing or
    does not parse, the run ends with that read's exception right after the
    two reads, whatever the pre status is; if it is readable and the pre
    status is not "PASS", the gate returns 10 having read exactly the two
    reports.  Whenever the gate returns 10, both reports exist and parse. *)
Theorem policy_reports_read_before_status_check {P : Platform}
    (fs : filesystem) (policy : pyval) (mode : string) (base : Path)
    (rg en rf : pyval) (paths : list string) (txt : string) (pre : pyval) :
  policy_section policy = Ok rg ->
  Py.get rg "enabled" (PBool true) = Ok en ->
  Py.truthy en = true ->
  Py.get rg "required_files" (PList []) = Ok rf ->
  Py.iter (Py.or_else rf (PList [])) = Ok (PStr <$> paths) ->
  absent fs (joinpath base mode) paths = [] ->
  fs (joinpath (joinpath base mode) "policy_report.json") = Some (File txt) ->
  json_loads txt = Some pre ->
  let out := joinpath base mode in
  let pre_path := joinpath out "policy_report.json" in
  let post_path := joinpath out "policy_report_post.json" in
  (forall e,
      (read_json fs post_path).2 = Raise e ->
      gate_one_mode fs policy mode base =
      ((EvExists <$> (joinpath out <$> paths)) ++ [EvRead pre_path; EvRead post_path],
       Raise e)) /\
  (forall post st,
      (read_json fs post_path).2 = Ok post ->
      Py.get pre "status" PNone = Ok st ->
      Py.ne_str st "PASS" = true ->
      exists t,
        gate_one_mode fs policy mode base = (t, Ok E_POLICY_FAIL) /\
        reads_of t = [pre_path; post_path]) /\
  (forall t,
      gate_one_mode fs policy mode base = (t, Ok E_POLICY_FAIL) ->
      both_reports_read fs out t).
Proof.
  intros Hsec Hen Hon Hrf Hiter Habs Hfile Hloads out pre_path post_path.
  subst out pre_path post_path.
  pose proof (gate_required_present fs policy mode base rg en rf paths
                Hsec Hen Hon Hrf Hiter Habs) as Hgate.
  split; [|split].
  - intros e Hpost.
    rewrite Hgate, (reports_post_unreadable fs rg mode _ txt pre e Hfile Hloads Hpost).
    reflexivity.
  - intros post st Hpost Hst Hne.
    destruct (reports_pre_not_pass fs rg mode _ txt pre post st Hfile Hloads Hpost Hst Hne)
      as [msg Hrun].
    rewrite Hgate, Hrun. cbn [fst snd]. eexists. split; [reflexivity|].
    rewrite !reads_of_app, reads_of_probes, reads_of_prints. reflexivity.
  - intros t. apply exit_10_needs_both_reports.
Qed.

Lemma policy_reports_read_before_status_check_witness :
  gate_one_mode Cases.pre_fail_disk Cases.policy_defaults "tokyo" (mkpath "outputs")
  = ([EvRead (joinpath (joinpath (mkpath "outputs") "tokyo") "policy_report.json");
      EvRead (joinpath (joinpath (mkpath "outputs") "tokyo") "policy_report_post.json")],
     Raise FileNotFoundError).
Proof.
  refine (proj1 (policy_reports_read_before_status_check Cases.pre_fail_disk
            Cases.policy_defaults "tokyo" (mkpath "outputs")
            (PDict []) (PBool true) (PList []) [] Cases.report_fail
            (PDict [("status", PStr "FAIL"); ("hard_fail_hits", PList [PStr "aws-key"])])
            _ _ _ _ _ _ _ _) FileNotFoundError _).
  - reflexivity.
  - reflexivity.
  - reflexivity.
  - reflexivity.
  - reflexivity.
  - reflexivity.
  - reflexivity.
  - by vm_compute.
  - by vm_compute.
Defined.

Section LaterStages.
Context {P : Platform}.

Lemma manifest_signer_absent fs rg mode out :
  fs (joinpath out "manifest_signer.txt") = None ->
  gate_from_manifest fs rg mode out =
  ([EvRead (joinpath out "manifest_signer.txt")], Raise FileNotFoundError).
Proof.
  intros Hnone. unfold gate_from_manifest.
  by rewrite (read_text_absent fs _ Hnone).
Qed.

Lemma manifest_passed fs rg mode out raw tm :
  fs (joinpath out "manifest_signer.txt") = Some (File raw) ->
  check_manifest fs rg mode out (str_strip raw) = (tm, Ok None) ->
  gate_from_manifest fs rg mode out =
  ([EvRead (joinpath out "manifest_signer.txt")] ++ tm
     ++ (gate_from_findings fs rg mode out).1,
   (gate_from_findings fs rg mode out).2).
Proof.
  intros Hfile Hcheck. unfold gate_from_manifest.
  rewrite (read_text_file fs _ raw Hfile), bind_ok. cbn [fst snd].
  rewrite Hcheck, bind_ok. reflexivity.
Qed.

(** With signing not required, stage 3 checks nothing and fails nothing. *)
Lemma check_manifest_skipped fs rg mode out signer required :
  Py.get rg "require_signed_manifest" (PBool true) = Ok required ->
  Py.truthy required = false ->
  check_manifest fs rg mode out signer = ([], Ok None).
Proof.
  intros Hget Hoff. unfold check_manifest. by rewrite Hget, bind_lift_ok, Hoff.
Qed.

Lemma findings_not_a_list fs rg mode out ftxt v :
  fs (joinpath out "extracted_findings.json") = Some (File ftxt) ->
  json_loads ftxt = Some v ->
  Py.is_list v = false ->
  gate_from_findings fs rg mode out =
  ([EvRead (joinpath out "extracted_findings.json")]
     ++ (EvPrint <$> summary_lines mode zero_counts []
           ["extracted_findings.json is not a list"]),
   Ok E_REQUIRED_OUTPUTS).
Proof.
  intros Hfile Hloads Hshape. unfold gate_from_findings.
  rewrite (read_json_file fs _ ftxt v Hfile Hloads), bind_ok.
  destruct v; try discriminate Hshape; by rewrite fail_with_run.
Qed.

Lemma findings_absent fs rg mode out :
  fs (joinpath out "extracted_findings.json") = None ->
  gate_from_findings fs rg mode out =
  ([EvRead (joinpath out "extracted_findings.json")], Raise FileNotFoundError).
Proof.
  intros Hnone. unfold gate_from_findings. by rewrite (read_json_absent fs _ Hnone).
Qed.

(** Stage 4 with no CRITICAL block and HIGH within its threshold: whatever
    the MEDIUM threshold is, the gate moves on to the report. *)
Lemma findings_within_thresholds fs rg mode out ftxt records counts
    foc mh max_high mm max_med :
  fs (joinpath out "extracted_findings.json") = Some (File ftxt) ->
  json_loads ftxt = Some (PList records) ->
  count_severities records = Ok counts ->
  Py.get rg "fail_on_critical" (PBool true) = Ok foc ->
  Py.truthy foc && (counts_get counts "CRITICAL" >? 0) = false ->
  Py.get rg "max_high_findings" (PInt 999999) = Ok mh ->
  Py.int mh = Ok max_high ->
  (counts_get counts "HIGH" >? max_high) = false ->
  Py.get rg "max_medium_findings" (PInt 999999) = Ok mm ->
  Py.int mm = Ok max_med ->
  gate_from_findings fs rg mode out =
  ([EvRead (joinpath out "extracted_findings.json")]
     ++ (gate_from_report fs rg mode out counts (medium_warnings counts max_med)).1,
   (gate_from_report fs rg mode out counts (medium_warnings counts max_med)).2).
Proof.
  intros Hfile Hloads Hcount Hfoc Hcrit Hmh Hhigh Hle Hmm Hmed.
  unfold gate_from_findings.
  rewrite (read_json_file fs _ ftxt _ Hfile Hloads), bind_ok. cbn [fst snd].
  rewrite Hcount, bind_lift_ok, Hfoc, bind_lift_ok, Hcrit.
  rewrite Hmh, bind_lift_ok, Hhigh, bind_lift_ok, Hle.
  rewrite Hmm, bind_lift_ok, Hmed, bind_lift_ok. cbv zeta.
  by destruct (gate_from_report _ _ _ _ _ _).
Qed.

Lemma report_complete fs rg mode out counts warns md rs :
  fs (joinpath out "consolidated_security_report.md") = Some (File md) ->
  Py.get rg "required_report_sections" (PList []) = Ok rs ->
  report_missing_sections (Py.or_else rs (PList [])) md = Ok [] ->
  gate_from_report fs rg mode out counts warns =
  ([EvRead (joinpath out "consolidated_security_report.md")]
     ++ (EvPrint <$> summary_lines mode counts warns []),
   Ok PASS).
Proof.
  intros Hfile Hrs Hnone. unfold gate_from_report.
  rewrite (read_text_ignore_file fs _ md Hfile), bind_ok. cbn [fst snd].
  rewrite Hrs, bind_lift_ok. cbv zeta. rewrite Hnone, bind_lift_ok.
  unfold summarize, print_all. rewrite bind_ok. cbn [fst snd ret].
  by rewrite app_nil_r.
Qed.

Lemma report_absent fs rg mode out counts warns :
  fs (joinpath out "consolidated_security_report.md") = None ->
  gate_from_report fs rg mode out counts warns =
  ([EvRead (joinpath out "consolidated_security_report.md")], Raise FileNotFoundError).
Proof.
  intros Hnone. unfold gate_from_report. by rewrite (read_text_ignore_absent fs _ Hnone).
Qed.

End LaterStages.

Section MediumThreshold.
Context {P : Platform}.

Lemma bind_snd_ext {A B} (m : IO A) (k1 k2 : A -> IO B) :
  (forall a, (k1 a).2 = (k2 a).2) -> (bind m k1).2 = (bind m k2).2.
Proof.
  intros Hk. destruct m as [t [a|e]]; [|reflexivity].
  rewrite !bind_ok. apply Hk.
Qed.

Ltac code_step :=
  lazymatch goal with
  | |- (bind ?m _).2 = (bind ?m _).2 => apply bind_snd_ext; intros ?
  | |- (if ?b then _ else _).2 = (if ?b then _ else _).2 => destruct b
  | |- (match ?x with _ => _ end).2 = (match ?x with _ => _ end).2 => destruct x
  | |- (fail_with _ _ _ _ _).2 = (fail_with _ _ _ _ _).2 =>
      rewrite !fail_with_run; reflexivity
  | |- _ => reflexivity
  end.

Lemma check_manifest_same fs rg1 rg2 mode out signer :
  same_but_for "max_medium_findings" rg1 rg2 ->
  check_manifest fs rg1 mode out signer = check_manifest fs rg2 mode out signer.
Proof.
  intros Hsame. unfold check_manifest.
  rewrite (Hsame "require_signed_manifest") by discriminate.
  by rewrite (Hsame "allowed_signers") by discriminate.
Qed.

(** The warnings handed to stage 5 do not enter its exit code. *)
Lemma gate_from_report_code fs rg1 rg2 mode out counts warns1 warns2 :
  same_but_for "max_medium_findings" rg1 rg2 ->
  (gate_from_report fs rg1 mode out counts warns1).2 =
  (gate_from_report fs rg2 mode out counts warns2).2.
Proof.
  intros Hsame. unfold gate_from_report.
  rewrite (Hsame "required_report_sections") by discriminate.
  cbv zeta. repeat code_step.
Qed.

Lemma gate_from_findings_code fs rg1 rg2 mode out :
  same_but_for "max_medium_findings" rg1 rg2 ->
  integer_setting rg1 "max_medium_findings" 999999 ->
  integer_setting rg2 "max_medium_findings" 999999 ->
  (gate_from_findings fs rg1 mode out).2 = (gate_from_findings fs rg2 mode out).2.
Proof.
  intros Hsame (v1 & n1 & Hget1 & Hint1) (v2 & n2 & Hget2 & Hint2).
  unfold gate_from_findings.
  rewrite (Hsame "fail_on_critical") by discriminate.
  rewrite (Hsame "max_high_findings") by discriminate.
  rewrite Hget1, Hget2.
  repeat first
    [ lazymatch goal with
      | |- (bind (lift (Ok v1)) _).2 = (bind (lift (Ok v2)) _).2 =>
          rewrite !bind_lift_ok, Hint1, Hint2, !bind_lift_ok; cbv zeta;
          by apply gate_from_report_code
      end
    | code_step ].
Qed.

Lemma gate_from_manifest_code fs rg1 rg2 mode out :
  same_but_for "max_medium_findings" rg1 rg2 ->
  integer_setting rg1 "max_medium_findings" 999999 ->
  integer_setting rg2 "max_medium_findings" 999999 ->
  (gate_from_manifest fs rg1 mode out).2 = (gate_from_manifest fs rg2 mode out).2.
Proof.
  intros Hsame H1 H2. unfold gate_from_manifest.
  code_step. cbv zeta. rewrite (check_manifest_same fs rg1 rg2 mode out _ Hsame).
  code_step. code_step; [reflexivity|]. by apply gate_from_findings_code.
Qed.

Lemma gate_from_policy_reports_code fs rg1 rg2 mode out :
  same_but_for "max_medium_findings" rg1 rg2 ->
  integer_setting rg1 "max_medium_findings" 999999 ->
  integer_setting rg2 "max_medium_findings" 999999 ->
  (gate_from_policy_reports fs rg1 mode out).2 =
  (gate_from_policy_reports fs rg2 mode out).2.
Proof.
  intros Hsame H1 H2. unfold gate_from_policy_reports.
  repeat first
    [ lazymatch goal with
      | |- (gate_from_manifest _ _ _ _).2 = (gate_from_manifest _ _ _ _).2 =>
          by apply gate_from_manifest_code
      end
    | code_step ].
Qed.

(** Two policies that differ at most in an integer max_medium_findings lead
    every mode evaluation to the same exit code, or to the same exception. *)
Lemma gate_code_ignores_medium_threshold fs policy1 policy2 rg1 rg2 mode base :
  policy_section policy1 = Ok rg1 ->
  policy_section policy2 = Ok rg2 ->
  same_but_for "max_medium_findings" rg1 rg2 ->
  integer_setting rg1 "max_medium_findings" 999999 ->
  integer_setting rg2 "max_medium_findings" 999999 ->
  (gate_one_mode fs policy1 mode base).2 = (gate_one_mode fs policy2 mode base).2.
Proof.
  intros Hsec1 Hsec2 Hsame H1 H2. unfold gate_one_mode.
  rewrite Hsec1, Hsec2, !bind_lift_ok.
  rewrite (Hsame "enabled") by discriminate.
  rewrite (Hsame "required_files") by discriminate.
  cbv zeta.
  repeat first
    [ lazymatch goal with
      | |- (gate_from_policy_reports _ _ _ _).2 = (gate_from_policy_reports _ _ _ _).2 =>
          by apply gate_from_policy_reports_code
      end
    | code_step ].
Qed.

End MediumThreshold.

(** A bundle on which every other validator passes is passed for every
    integer threshold, with the warnings of the MEDIUM check in its summary. *)
Lemma clean_bundle_passes {P : Platform}
    (fs : filesystem) (policy : pyval) (mode : string) (base : Path)
    (rg en mm : pyval) (paths : list string) (counts : gmap string Z)
    (tm : trace) (max_med : Z) :
  policy_section policy = Ok rg ->
  Py.get rg "enabled" (PBool true) = Ok en ->
  Py.truthy en = true ->
  other_validators_pass fs rg mode (joinpath base mode) paths counts tm ->
  Py.get rg "max_medium_findings" (PInt 999999) = Ok mm ->
  Py.int mm = Ok max_med ->
  exists t,
    gate_one_mode fs policy mode base = (t, Ok PASS) /\
    prints_of t = summary_lines mode counts (medium_warnings counts max_med) [] /\
    (counts_get counts "MEDIUM" > max_med -> medium_warnings counts max_med <> []).
Proof.
  intros Hsec Hen Hon Hpass Hmm Hmed.
  destruct Hpass as ((rf & Hrf & Hiter) & Habs & (txt & pre & Hpre & Hpre' & Hst)
    & (txt' & post & Hpost & Hpost' & Hst') & (raw & Hraw & Hcheck)
    & (ftxt & records & Hf & Hf' & Hcount) & (foc & Hfoc & Hcrit)
    & (mh & max_high & Hmh & Hhigh & Hle) & (md & rs & Hmd & Hrs & Hnone)).
  eexists. split.
  { rewrite (gate_required_present fs policy mode base rg en rf paths
               Hsec Hen Hon Hrf Hiter Habs).
    rewrite (reports_pass fs rg mode _ txt pre txt' post Hpre Hpre' Hpost Hpost' Hst Hst').
    cbn [fst snd].
    rewrite (manifest_passed fs rg mode _ raw tm Hraw Hcheck). cbn [fst snd].
    rewrite (findings_within_thresholds fs rg mode _ ftxt records counts foc mh max_high
               mm max_med Hf Hf' Hcount Hfoc Hcrit Hmh Hhigh Hle Hmm Hmed).
    cbn [fst snd].
    rewrite (report_complete fs rg mode _ counts _ md rs Hmd Hrs Hnone).
    cbn [fst snd]. reflexivity. }
  split.
  - pose proof (wp_check_manifest fs rg mode _ _ tm None Hcheck [] eq_refl) as Hquiet.
    cbn [app] in Hquiet.
    rewrite !prints_of_app, prints_of_probes, Hquiet, prints_of_prints. reflexivity.
  - intros Hgt. unfold medium_warnings.
    destruct (Z.gtb_spec (counts_get counts "MEDIUM") max_med); [discriminate|lia].
Qed.

(** C7.  Exceeding max_medium_findings never changes the exit code.  Two
    policies that differ at most in the (integer) value of
    max_medium_findings give every mode evaluation the same exit code, so the
    MEDIUM threshold by itself cannot produce a non-zero code.  And with the
    gate enabled and every other validator passing, the gate returns PASS
    whatever the threshold is; its summary carries the warnings of the MEDIUM
    check, a list that is not empty when the MEDIUM count is strictly greater
    than the threshold. *)
Theorem medium_threshold_only_warns {P : Platform} :
  (forall (fs : filesystem) (policy1 policy2 rg1 rg2 : pyval) (mode : string)
          (base : Path),
      policy_section policy1 = Ok rg1 ->
      policy_section policy2 = Ok rg2 ->
      same_but_for "max_medium_findings" rg1 rg2 ->
      integer_setting rg1 "max_medium_findings" 999999 ->
      integer_setting rg2 "max_medium_findings" 999999 ->
      (gate_one_mode fs policy1 mode base).2 = (gate_one_mode fs policy2 mode base).2) /\
  (forall (fs : filesystem) (policy : pyval) (mode : string) (base : Path)
          (rg en mm : pyval) (paths : list string) (counts : gmap string Z)
          (tm : trace) (max_med : Z),
      policy_section policy = Ok rg ->
      Py.get rg "enabled" (PBool true) = Ok en ->
      Py.truthy en = true ->
      other_validators_pass fs rg mode (joinpath base mode) paths counts tm ->
      Py.get rg "max_medium_findings" (PInt 999999) = Ok mm ->
      Py.int mm = Ok max_med ->
      exists t,
        gate_one_mode fs policy mode base = (t, Ok PASS) /\
        prints_of t = summary_lines mode counts (medium_warnings counts max_med) [] /\
        (counts_get counts "MEDIUM" > max_med -> medium_warnings counts max_med <> [])).
Proof.
  split.
  - intros fs policy1 policy2 rg1 rg2 mode base.
    apply gate_code_ignores_medium_threshold.
  - intros fs policy mode base rg en mm paths counts tm max_med.
    apply clean_bundle_passes.
Qed.

Lemma medium_threshold_only_warns_witness :
  (gate_one_mode Cases.medium_disk Cases.policy_medium0 "tokyo" (mkpath "outputs")).2
  = (gate_one_mode Cases.medium_disk Cases.policy_defaults "tokyo" (mkpath "outputs")).2 /\
  exists t,
    gate_one_mode Cases.medium_disk Cases.policy_medium0 "tokyo" (mkpath "outputs")
    = (t, Ok PASS) /\
    exists counts : gmap string Z,
      prints_of t = summary_lines "tokyo" counts (medium_warnings counts 0) [] /\
      (counts_get counts "MEDIUM" > 0 -> medium_warnings counts 0 <> []).
Proof.
  split.
  - apply (proj1 medium_threshold_only_warns Cases.medium_disk Cases.policy_medium0
             Cases.policy_defaults (PDict [("max_medium_findings", PInt 0)]) (PDict [])).
    + reflexivity.
    + reflexivity.
    + intros k d Hk. cbn [Py.get Py.assoc].
      destruct (String.eqb_spec k "max_medium_findings") as [Heq|_]; [|reflexivity].
      destruct (Hk Heq).
    + exists (PInt 0), 0. split; reflexivity.
    + exists (PInt 999999), 999999. split; reflexivity.
  - destruct (proj2 medium_threshold_only_warns Cases.medium_disk Cases.policy_medium0
                "tokyo" (mkpath "outputs") (PDict [("max_medium_findings", PInt 0)])
                (PBool true) (PInt 0) []
                (<["MEDIUM" := 5]> zero_counts)
                [EvExists (joinpath (joinpath (mkpath "outputs") "tokyo") "manifest.sig")]
                0) as (t & Hrun & Hsum).
    + reflexivity.
    + reflexivity.
    + reflexivity.
    + repeat split.
      * exists (PList []). split; reflexivity.
      * exists Cases.report_pass, (PDict [("status", PStr "PASS")]).
        repeat split; by vm_compute.
      * exists Cases.report_pass, (PDict [("status", PStr "PASS")]).
        repeat split; by vm_compute.
      * exists "minisign". split; by vm_compute.
      * exists Cases.five_medium,
          [PDict [("severity", PStr "MEDIUM")]; PDict [("severity", PStr "medium")];
           PDict [("severity", PStr " Medium ")]; PDict [("severity", PStr "MEDIUM")];
           PDict [("severity", PStr "MEDIUM")]].
        repeat split; by vm_compute.
      * exists (PBool true). split; by vm_compute.
      * exists (PInt 999999), 999999. repeat split; by vm_compute.
      * exists "# Summary", (PList []). repeat split; by vm_compute.
    + reflexivity.
    + reflexivity.
    + exists t. split; [exact Hrun|]. by exists (<["MEDIUM" := 5]> zero_counts).
Defined.

Section RequiredOutputsCode.
Context {P : Platform}.

Lemma wp_gate_from_findings_14 fs rg mode out :
  wp (gate_from_findings fs rg mode out)
     (fun _ code => code = E_REQUIRED_OUTPUTS -> findings_not_list fs out).
Proof.
  unfold gate_from_findings, gate_from_report.
  repeat wp_step; try (intros; discriminate);
    intros _; eexists _, _; repeat split; eauto.
Qed.

Lemma wp_check_manifest_14 fs rg mode out signer :
  wp (check_manifest fs rg mode out signer)
     (fun _ early => forall code, early = Some code -> code <> E_REQUIRED_OUTPUTS).
Proof.
  unfold check_manifest. repeat wp_step; intros code [= <-]; discriminate.
Qed.

Lemma wp_gate_from_manifest_14 fs rg mode out :
  wp (gate_from_manifest fs rg mode out)
     (fun _ code => code = E_REQUIRED_OUTPUTS -> findings_not_list fs out).
Proof.
  unfold gate_from_manifest. wp_step. wp_step. cbv zeta. wp_step.
  eapply wp_mono; [apply wp_check_manifest_14|].
  intros t [code|] Hm; cbn beta iota.
  - wp_step. intros Heq. by destruct (Hm code eq_refl).
  - eapply wp_mono; [apply wp_gate_from_findings_14|]. auto.
Qed.

Lemma wp_gate_from_policy_reports_14 fs rg mode out :
  wp (gate_from_policy_reports fs rg mode out)
     (fun _ code => code = E_REQUIRED_OUTPUTS -> findings_not_list fs out).
Proof.
  unfold gate_from_policy_reports.
  repeat first
    [ lazymatch goal with
      | |- wp (gate_from_manifest _ _ _ _) _ =>
          eapply wp_mono; [apply wp_gate_from_manifest_14|]; auto
      end
    | wp_step ];
    intros; discriminate.
Qed.

(** Exit code 14 has two sources only: a listed file that is absent, or a
    findings artifact that is not a list. *)
Lemma exit_14_sources fs policy mode base rg en rf paths t :
  policy_section policy = Ok rg ->
  Py.get rg "enabled" (PBool true) = Ok en ->
  Py.truthy en = true ->
  Py.get rg "required_files" (PList []) = Ok rf ->
  Py.iter (Py.or_else rf (PList [])) = Ok (PStr <$> paths) ->
  gate_one_mode fs policy mode base = (t, Ok E_REQUIRED_OUTPUTS) ->
  (exists rel, rel ∈ paths /\ fs (joinpath (joinpath base mode) rel) = None) \/
  findings_not_list fs (joinpath base mode).
Proof.
  intros Hsec Hen Hon Hrf Hiter Hrun.
  destruct (absent fs (joinpath base mode) paths) as [|rel rest] eqn:Habs.
  - right.
    rewrite (gate_required_present fs policy mode base rg en rf paths
               Hsec Hen Hon Hrf Hiter Habs) in Hrun.
    destruct (gate_from_policy_reports fs rg mode (joinpath base mode)) as [t' r] eqn:Hst.
    cbn [fst snd] in Hrun. injection Hrun as _ ->.
    exact (wp_gate_from_policy_reports_14 fs rg mode _ t' _ Hst eq_refl).
  - left. exists rel.
    assert (Hin : rel ∈ absent fs (joinpath base mode) paths).
    { rewrite Habs. apply list_elem_of_here. }
    unfold absent in Hin. apply list_elem_of_filter in Hin as [Hno Hin].
    split; [exact Hin|].
    destruct (fs (joinpath (joinpath base mode) rel)); [|reflexivity].
    exfalso. apply Hno. eauto.
Qed.

End RequiredOutputsCode.

(** C8, as the code has it.  An artifact that is absent without being listed
    in [required_files] is not mapped to exit code 14: the read that needs it
    raises. *)
Lemma unlisted_missing_artifact_raises :
  Cases.empty_disk (joinpath (joinpath (mkpath "outputs") "tokyo") "policy_report.json")
  = None /\
  gate_one_mode Cases.empty_disk Cases.policy_defaults "tokyo" (mkpath "outputs")
  = ([EvRead (joinpath (joinpath (mkpath "outputs") "tokyo") "policy_report.json")],
     Raise FileNotFoundError) /\
  ~ exists t, gate_one_mode Cases.empty_disk Cases.policy_defaults "tokyo" (mkpath "outputs")
              = (t, Ok E_REQUIRED_OUTPUTS).
Proof.
  split; [reflexivity|]. split; [by vm_compute|].
  intros [t H]. vm_compute in H. discriminate H.
Qed.

(** C8 (amended).  With the gate enabled and [required_files] a list of path
    strings, the gate ends the mode with exit code 14 when a listed path is
    missing from the mode's output directory, and when, stages 1 to 3 having
    passed, the findings artifact parses to something that is not a list.
    These are the only sources of 14.  An artifact that is missing without
    being listed raises instead: for [policy_report.json] the run ends with
    FileNotFoundError on its read. *)
Theorem exit_14_listed_files_or_findings_shape {P : Platform}
    (fs : filesystem) (policy : pyval) (mode : string) (base : Path)
    (rg en rf : pyval) (paths : list string) :
  policy_section policy = Ok rg ->
  Py.get rg "enabled" (PBool true) = Ok en ->
  Py.truthy en = true ->
  Py.get rg "required_files" (PList []) = Ok rf ->
  Py.iter (Py.or_else rf (PList [])) = Ok (PStr <$> paths) ->
  let out := joinpath base mode in
  ((exists rel, rel ∈ paths /\ fs (joinpath out rel) = None) ->
   (gate_one_mode fs policy mode base).2 = Ok E_REQUIRED_OUTPUTS) /\
  (forall tm,
      absent fs out paths = [] ->
      reports_and_manifest_pass fs rg mode out tm ->
      findings_not_list fs out ->
      (gate_one_mode fs policy mode base).2 = Ok E_REQUIRED_OUTPUTS) /\
  (forall t,
      gate_one_mode fs policy mode base = (t, Ok E_REQUIRED_OUTPUTS) ->
      (exists rel, rel ∈ paths /\ fs (joinpath out rel) = None) \/
      findings_not_list fs out) /\
  (absent fs out paths = [] ->
   fs (joinpath out "policy_report.json") = None ->
   gate_one_mode fs policy mode base =
   ((EvExists <$> (joinpath out <$> paths)) ++ [EvRead (joinpath out "policy_report.json")],
    Raise FileNotFoundError)).
Proof.
  intros Hsec Hen Hon Hrf Hiter out. subst out. split; [|split; [|split]].
  - intros Hmiss.
    by rewrite (gate_missing_required fs policy mode base rg en rf paths
                  Hsec Hen Hon Hrf Hiter Hmiss).
  - intros tm Habs ((txt & pre & Hpre & Hpre' & Hst) & (txt' & post & Hpost & Hpost' & Hst')
                    & (raw & Hraw & Hcheck)) (ftxt & v & Hf & Hf' & Hshape).
    rewrite (gate_required_present fs policy mode base rg en rf paths
               Hsec Hen Hon Hrf Hiter Habs).
    rewrite (reports_pass fs rg mode _ txt pre txt' post Hpre Hpre' Hpost Hpost' Hst Hst').
    cbn [fst snd].
    rewrite (manifest_passed fs rg mode _ raw tm Hraw Hcheck). cbn [fst snd].
    by rewrite (findings_not_a_list fs rg mode _ ftxt v Hf Hf' Hshape).
  - intros t. by apply (exit_14_sources fs policy mode base rg en rf paths t).
  - intros Habs Hnone.
    rewrite (gate_required_present fs policy mode base rg en rf paths
               Hsec Hen Hon Hrf Hiter Habs).
    unfold gate_from_policy_reports. by rewrite (read_json_absent fs _ Hnone).
Qed.

Lemma exit_14_listed_files_or_findings_shape_witness :
  (gate_one_mode Cases.findings_object_disk Cases.policy_defaults "tokyo"
     (mkpath "outputs")).2 = Ok E_REQUIRED_OUTPUTS.
Proof.
  refine (proj1 (proj2 (exit_14_listed_files_or_findings_shape Cases.findings_object_disk
            Cases.policy_defaults "tokyo" (mkpath "outputs")
            (PDict []) (PBool true) (PList []) [] _ _ _ _ _))
            [EvExists (joinpath (joinpath (mkpath "outputs") "tokyo") "manifest.sig")]
            _ _ _).
  - reflexivity.
  - reflexivity.
  - reflexivity.
  - reflexivity.
  - reflexivity.
  - reflexivity.
  - repeat split.
    + exists Cases.report_pass, (PDict [("status", PStr "PASS")]).
      repeat split; by vm_compute.
    + exists Cases.report_pass, (PDict [("status", PStr "PASS")]).
      repeat split; by vm_compute.
    + exists "minisign". split; by vm_compute.
  - exists "{}", (PDict []). repeat split; by vm_compute.
Defined.

(** C4.  The claim holds for [manifest.sig] and for the content of the signer
    file, and fails for the presence of the signer file: the code reads
    [manifest_signer.txt] before it asks whether signing is required.  With
    require_signed_manifest false and an otherwise clean bundle, the run ends
    in FileNotFoundError when the signer file is absent; with any signer file
    present, allowed or not, and no [manifest.sig], the same bundle passes
    and [manifest.sig] is never probed. *)
Theorem signer_file_read_although_signing_not_required :
  gate_one_mode Cases.unsigned_disk Cases.policy_unsigned "tokyo" (mkpath "outputs")
  = ([EvRead (joinpath (joinpath (mkpath "outputs") "tokyo") "policy_report.json");
      EvRead (joinpath (joinpath (mkpath "outputs") "tokyo") "policy_report_post.json");
      EvRead (joinpath (joinpath (mkpath "outputs") "tokyo") "manifest_signer.txt")],
     Raise FileNotFoundError) /\
  (exists t,
      gate_one_mode Cases.signer_only_disk Cases.policy_unsigned "tokyo" (mkpath "outputs")
      = (t, Ok PASS) /\
      probes_of t = [] /\
      joinpath (joinpath (mkpath "outputs") "tokyo") "manifest_signer.txt" ∈ reads_of t).
Proof.
  split; [by vm_compute|].
  eexists. split; [by vm_compute|]. split; [reflexivity|].
  cbn [reads_of]. do 2 apply list_elem_of_further. apply list_elem_of_here.
Qed.

(** * Further properties of the code *)

Section AggregatorMore.
Context {T : Text}.

Lemma count_one_non_record (counts : gmap string Z) f :
  ~ is_record f -> count_one counts f = Raise AttributeError.
Proof. intros Hf. destruct f; try reflexivity. by destruct Hf. Qed.

Lemma count_loop_non_record findings : forall counts : gmap string Z,
  dom counts = six_categories ->
  Exists (fun f => ~ is_record f) findings ->
  count_loop counts findings = Raise AttributeError.
Proof.
  induction findings as [|f rest IH]; intros counts Hdom Hex.
  - by apply Exists_nil in Hex.
  - cbn [count_loop]. destruct (decide (is_record f)) as [Hf|Hf].
    + destruct f as [| | | | |items]; try discriminate Hf.
      rewrite count_one_record by done. cbn [res_bind]. apply IH.
      * rewrite dom_insert_L, Hdom.
        pose proof (category_in_six (PDict items)) as Hin.
        apply (elem_of_list_to_set (C := gset string)) in Hin.
        fold six_categories in Hin. set_solver.
      * apply Exists_cons in Hex as [Hbad|Hex]; [by destruct Hbad|exact Hex].
    + by rewrite (count_one_non_record counts f Hf).
Qed.

Lemma counts_ext (c1 c2 : gmap string Z) :
  dom c1 = dom c2 -> (forall k, counts_get c1 k = counts_get c2 k) -> c1 = c2.
Proof.
  intros Hdom Hget. apply map_eq. intros k.
  pose proof (Hget k) as Hk. unfold counts_get in Hk.
  destruct (c1 !! k) as [x|] eqn:H1, (c2 !! k) as [y|] eqn:H2; simpl in Hk.
  - by subst.
  - apply elem_of_dom_2 in H1. rewrite Hdom in H1.
    apply elem_of_dom in H1 as [? ?]. congruence.
  - apply elem_of_dom_2 in H2. rewrite <- Hdom in H2.
    apply elem_of_dom in H2 as [? ?]. congruence.
  - reflexivity.
Qed.

Lemma tally_permutation l1 l2 k : l1 ≡ₚ l2 -> tally l1 k = tally l2 k.
Proof. intros Hp. unfold tally. by rewrite Hp. Qed.

Lemma records_or_not (findings : list pyval) :
  Forall is_record findings \/ Exists (fun f => ~ is_record f) findings.
Proof.
  destruct (decide (Forall is_record findings)) as [H|H]; [by left|right].
  by apply not_Forall_Exists in H; [|apply _].
Qed.

End AggregatorMore.

(** X1.  The aggregator does not depend on the order of the findings: a
    permutation of the input gives the same result, counts or exception. *)
Theorem count_severities_order_independent {T : Text} (l1 l2 : list pyval) :
  l1 ≡ₚ l2 -> count_severities l1 = count_severities l2.
Proof.
  intros Hperm. destruct (records_or_not l1) as [Hrec|Hbad].
  - assert (Hrec2 : Forall is_record l2) by (by rewrite <- Hperm).
    destruct (count_severities_records l1 Hrec) as (c1 & -> & Hd1 & Hg1 & _).
    destruct (count_severities_records l2 Hrec2) as (c2 & -> & Hd2 & Hg2 & _).
    f_equal. apply counts_ext; [by rewrite Hd1, Hd2|].
    intros k. by rewrite Hg1, Hg2, (tally_permutation l1 l2 k Hperm).
  - assert (Hbad2 : Exists (fun f => ~ is_record f) l2) by (by rewrite <- Hperm).
    unfold count_severities.
    by rewrite !count_loop_non_record by (done || apply zero_counts_dom).
Qed.

Lemma count_severities_order_independent_witness :
  count_severities (T := Demo.text) [PDict [("severity", PStr "low")]; PDict []; PStr "x"]
  = count_severities (T := Demo.text)
      [PStr "x"; PDict [("severity", PStr "low")]; PDict []].
Proof.
  apply (count_severities_order_independent (T := Demo.text)).
  symmetry.
  apply (Permutation_cons_append [PDict [("severity", PStr "low")]; PDict []] (PStr "x")).
Defined.

(** X2.  Counting a concatenation of two lists of records gives, category by
    category, the sum of the counts of the two lists. *)
Theorem count_severities_additive {T : Text} (l1 l2 : list pyval) :
  Forall is_record (l1 ++ l2) ->
  exists c1 c2 c : gmap string Z,
    count_severities l1 = Ok c1 /\
    count_severities l2 = Ok c2 /\
    count_severities (l1 ++ l2) = Ok c /\
    forall k, counts_get c k = counts_get c1 k + counts_get c2 k.
Proof.
  intros Hrec. pose proof Hrec as Hboth. apply Forall_app in Hboth as [H1 H2].
  destruct (count_severities_records l1 H1) as (c1 & Hr1 & _ & Hg1 & _).
  destruct (count_severities_records l2 H2) as (c2 & Hr2 & _ & Hg2 & _).
  destruct (count_severities_records _ Hrec) as (c & Hr & _ & Hg & _).
  exists c1, c2, c. split; [exact Hr1|]. split; [exact Hr2|]. split; [exact Hr|].
  intros k. by rewrite Hg, Hg1, Hg2, tally_app.
Qed.

Lemma count_severities_additive_witness :
  exists c1 c2 c : gmap string Z,
    count_severities (T := Demo.text) [PDict [("severity", PStr "HIGH")]] = Ok c1 /\
    count_severities (T := Demo.text)
      [PDict [("severity", PStr "high")]; PDict []] = Ok c2 /\
    count_severities (T := Demo.text)
      ([PDict [("severity", PStr "HIGH")]]
         ++ [PDict [("severity", PStr "high")]; PDict []]) = Ok c /\
    forall k, counts_get c k = counts_get c1 k + counts_get c2 k.
Proof.
  apply (count_severities_additive (T := Demo.text) [PDict [("severity", PStr "HIGH")]]
           [PDict [("severity", PStr "high")]; PDict []]).
  repeat constructor.
Defined.

(** X3.  The aggregator raises exactly when some entry is not a record, and
    the exception is then the AttributeError of [f.get]; the update
    [counts[s] += 1] never raises KeyError. *)
Theorem count_severities_raises_only_on_non_records {T : Text}
    (findings : list pyval) :
  (Forall is_record findings /\
   exists counts : gmap string Z, count_severities findings = Ok counts) \/
  (Exists (fun f => ~ is_record f) findings /\
   count_severities findings = Raise AttributeError).
Proof.
  destruct (records_or_not findings) as [Hrec|Hbad].
  - left. split; [exact Hrec|].
    destruct (count_severities_records findings Hrec) as (c & Hr & _). by exists c.
  - right. split; [exact Hbad|].
    apply count_loop_non_record; [apply zero_counts_dom|exact Hbad].
Qed.

Section ReportSections.
Context {T : Text}.

Lemma prefix_spec p s : PyStr.prefix p s = true <-> exists r, s = p +:+ r.
Proof.
  revert s. induction p as [|a p IH]; intros s.
  - split; [intros _; by exists s|done].
  - destruct s as [|b s]; cbn.
    + split; [done|intros [r Hr]; discriminate Hr].
    + rewrite andb_true_iff, IH. split.
      * intros [Hab [r ->]]. apply Ascii.eqb_eq in Hab as ->. by exists r.
      * intros [r [= -> ->]]. split; [apply Ascii.eqb_refl|by exists r].
Qed.

Lemma contains_spec needle hay :
  PyStr.contains needle hay = true <-> occurs_in needle hay.
Proof.
  induction hay as [|c hay IH].
  - cbn. rewrite orb_false_r, prefix_spec. split.
    + intros [r Hr]. by exists "", r.
    + intros (a & b & Hab). destruct a; [by exists b|discriminate Hab].
  - cbn [PyStr.contains]. rewrite orb_true_iff, prefix_spec, IH. split.
    + intros [[r Hr]|(a & b & ->)].
      * by exists "", r.
      * by exists (String c a), b.
    + intros (a & b & Hab). destruct a as [|x a].
      * left. by exists b.
      * right. injection Hab as -> ->. by exists a, b.
Qed.

(** The loop of [report_missing_sections] on a list of strings is a filter. *)
Lemma missing_sections_loop_strings low secs :
  missing_sections_loop low (PStr <$> secs) =
  Ok (PStr <$> filter (fun sec => PyStr.contains (str_lower sec) low = false) secs).
Proof.
  induction secs as [|sec secs IH]; [done|].
  rewrite fmap_cons. cbn [missing_sections_loop]. rewrite IH. cbn [res_bind].
  rewrite filter_cons.
  destruct (PyStr.contains (str_lower sec) low) eqn:Hc.
  - by rewrite decide_False by discriminate.
  - by rewrite decide_True by reflexivity.
Qed.

Lemma missing_sections_loop_non_string low xs :
  Exists not_a_string xs -> missing_sections_loop low xs = Raise AttributeError.
Proof.
  induction xs as [|x xs IH]; intros Hex.
  - by apply Exists_nil in Hex.
  - apply Exists_cons in Hex as [Hx|Hex].
    + destruct x; try reflexivity. by destruct (Hx s).
    + destruct x; try reflexivity. cbn [missing_sections_loop].
      by rewrite (IH Hex).
Qed.

Lemma strings_or_not (xs : list pyval) :
  (exists secs, xs = PStr <$> secs) \/ Exists not_a_string xs.
Proof.
  induction xs as [|x xs [[secs ->]|Hex]].
  - left. by exists [].
  - destruct x as [| | |s| |];
      try (right; apply Exists_cons_hd; intros ?; discriminate).
    left. by exists (s :: secs).
  - right. by apply Exists_cons_tl.
Qed.

End ReportSections.

(** X4.  For a list of section names, [report_missing_sections] returns, in
    their order, exactly the names whose lower-cased text does not occur
    anywhere in the lower-cased report. *)
Theorem report_missing_sections_exact {T : Text} (secs : list string) (md : string) :
  exists missing : list string,
    report_missing_sections (PList (PStr <$> secs)) md = Ok (PStr <$> missing) /\
    missing `sublist_of` secs /\
    forall sec, sec ∈ missing <->
                sec ∈ secs /\ ~ occurs_in (str_lower sec) (str_lower md).
Proof.
  eexists. split; [|split].
  - unfold report_missing_sections. cbn [Py.iter res_bind].
    apply missing_sections_loop_strings.
  - apply sublist_filter.
  - intros sec. rewrite list_elem_of_filter, <- contains_spec.
    destruct (PyStr.contains _ _); split; intros [H1 H2]; split;
      first [assumption | discriminate | reflexivity | by destruct H2].
Qed.

(** X6.  A required-sections list holding anything but strings makes
    [report_missing_sections] raise the AttributeError of [sec.lower()];
    a list of strings never raises. *)
Theorem report_missing_sections_errors {T : Text} (xs : list pyval) (md : string) :
  (exists secs missing,
      xs = PStr <$> secs /\ report_missing_sections (PList xs) md = Ok missing) \/
  (Exists not_a_string xs /\
   report_missing_sections (PList xs) md = Raise AttributeError).
Proof.
  destruct (strings_or_not xs) as [[secs ->]|Hex].
  - left. exists secs. eexists. split; [reflexivity|].
    unfold report_missing_sections. cbn [Py.iter res_bind].
    apply missing_sections_loop_strings.
  - right. split; [exact Hex|].
    unfold report_missing_sections. cbn [Py.iter res_bind].
    by apply missing_sections_loop_non_string.
Qed.

Section ScanFacts.
Context {T : Text}.
Variable re_search : string -> string -> re_outcome.

Lemma scan_one_record text item :
  pattern_record re_search text item ->
  exists new,
    scan_one re_search text item = Ok new /\
    (length new <= 1)%nat /\
    forall hit, hit ∈ new <-> pattern_hit re_search text item hit.
Proof.
  intros (r & Hr & Hquiet). unfold scan_one, pattern_hit.
  destruct item as [| | | | |items]; try discriminate Hr.
  cbn [Py.get res_bind] in *. injection Hr as Hr. rewrite Hr.
  destruct (re_search r text) as [| | |e] eqn:Hre; [| | |by destruct (Hquiet e)];
    eexists; (split; [reflexivity|]);
    (split; [simpl; lia|]); intros hit; split;
    first
      [ intros ->%list_elem_of_singleton; eexists _, r;
        split; [reflexivity|]; split; [reflexivity|]; by eauto
      | by intros ?%elem_of_nil
      | intros (name & r' & [= <-] & [= <-] & [[Hm ->]|[Hm ->]]);
        first [apply list_elem_of_here | congruence] ].
Qed.

Lemma scan_loop_records text patterns : forall hits,
  Forall (pattern_record re_search text) patterns ->
  exists new,
    scan_loop re_search text hits patterns = Ok (hits ++ new) /\
    (length new <= length patterns)%nat /\
    forall hit, hit ∈ new <->
                exists item, item ∈ patterns /\ pattern_hit re_search text item hit.
Proof.
  induction patterns as [|item rest IH]; intros hits Hrec.
  - exists []. rewrite app_nil_r. split; [done|]. split; [done|].
    intros hit. split; [by intros ?%elem_of_nil|].
    by intros (item & ?%elem_of_nil & _).
  - apply Forall_cons in Hrec as [Hitem Hrest].
    destruct (scan_one_record text item Hitem) as (new1 & Hone & Hlen1 & Hin1).
    destruct (IH (hits ++ new1) Hrest) as (new2 & Hloop & Hlen2 & Hin2).
    exists (new1 ++ new2). cbn [scan_loop]. rewrite Hone. cbn [res_bind].
    rewrite Hloop, app_assoc. split; [done|]. split.
    + rewrite length_app, length_cons. lia.
    + intros hit. rewrite elem_of_app, Hin1, Hin2. split.
      * intros [H|(it & Hit & H)].
        -- exists item. split; [apply list_elem_of_here|exact H].
        -- exists it. split; [by apply list_elem_of_further|exact H].
      * intros (it & Hit & H). apply elem_of_cons in Hit as [->|Hit]; [by left|].
        right. by exists it.
Qed.

Lemma scan_one_raises text item e :
  pattern_raises re_search text item e -> scan_one re_search text item = Raise e.
Proof.
  intros (v & Hv & Hraise). unfold scan_one.
  destruct item as [| | | | |items]; try discriminate Hv.
  cbn [Py.get res_bind] in *. injection Hv as ->.
  destruct v as [| | |r| |]; try (by subst e). by rewrite Hraise.
Qed.

Lemma scan_loop_raises text before item rest e : forall hits,
  Forall (pattern_record re_search text) before ->
  pattern_raises re_search text item e ->
  scan_loop re_search text hits (before ++ item :: rest) = Raise e.
Proof.
  induction before as [|b before IH]; intros hits Hrec Hraise.
  - cbn [app scan_loop]. by rewrite (scan_one_raises text item e Hraise).
  - apply Forall_cons in Hrec as [Hb Hrec].
    destruct (scan_one_record text b Hb) as (new & Hone & _).
    cbn [app scan_loop]. rewrite Hone. cbn [res_bind]. by apply IH.
Qed.

End ScanFacts.

(** X7.  On pattern records whose regex is a string and on which the engine
    raises nothing but [re.error], [scan_patterns] returns: a regex the
    engine rejects with [re.error] is reported as name(invalid-regex)
    instead of raising.  There is at most one hit per pattern, and the hits
    are exactly what the patterns contribute: the name of each matching
    pattern and the marked name of each invalid one. *)
Theorem scan_patterns_reports_hits {T : Text}
    (re_search : string -> string -> re_outcome) (patterns : list pyval) (text : string) :
  Forall (pattern_record re_search text) patterns ->
  exists hits,
    scan_patterns re_search patterns text = Ok hits /\
    (length hits <= length patterns)%nat /\
    forall hit, hit ∈ hits <->
                exists item, item ∈ patterns /\ pattern_hit re_search text item hit.
Proof.
  intros Hrec.
  destruct (scan_loop_records re_search text patterns [] Hrec) as (new & Hrun & Hlen & Hin).
  exists new. by split.
Qed.

Lemma scan_patterns_reports_hits_witness :
  exists hits,
    scan_patterns (T := Demo.text) Cases.literal_search
      [PDict [("name", PStr "aws"); ("regex", PStr "AKIA")];
       PDict [("regex", PStr "(")];
       PDict [("name", PStr "pem"); ("regex", PStr "BEGIN")]]
      "key=AKIA1234" = Ok hits /\
    (length hits <= 3)%nat /\
    forall hit, hit ∈ hits <->
      exists item,
        item ∈ [PDict [("name", PStr "aws"); ("regex", PStr "AKIA")];
                PDict [("regex", PStr "(")];
                PDict [("name", PStr "pem"); ("regex", PStr "BEGIN")]] /\
        pattern_hit (T := Demo.text) Cases.literal_search "key=AKIA1234" item hit.
Proof.
  apply (scan_patterns_reports_hits (T := Demo.text) Cases.literal_search
           [PDict [("name", PStr "aws"); ("regex", PStr "AKIA")];
            PDict [("regex", PStr "(")];
            PDict [("name", PStr "pem"); ("regex", PStr "BEGIN")]]
           "key=AKIA1234").
  repeat constructor; eexists; (split; [reflexivity|]); intros e; by vm_compute.
Defined.

(** X8.  The [except re.error] clause catches nothing else.  The scan ends
    at the first pattern whose search raises anything but [re.error], with
    that exception and whatever the later patterns are: the TypeError of
    [re.search] for a regex that is not a string, the engine's own exception
    (an OverflowError, say) for a regex that is one. *)
Theorem scan_patterns_uncaught_exception {T : Text}
    (re_search : string -> string -> re_outcome)
    (before : list pyval) (item : pyval) (rest : list pyval) (text : string) (e : exn) :
  Forall (pattern_record re_search text) before ->
  pattern_raises re_search text item e ->
  scan_patterns re_search (before ++ item :: rest) text = Raise e.
Proof. intros Hrec Hraise. by apply scan_loop_raises. Qed.

Lemma scan_patterns_uncaught_exception_witness :
  scan_patterns (T := Demo.text) Cases.literal_search
    ([PDict [("name", PStr "aws"); ("regex", PStr "AKIA")]]
       ++ PDict [("name", PStr "big"); ("regex", PStr "a{4294967296}")]
       :: [PDict [("name", PStr "n"); ("regex", PNone)]])
    "key=AKIA1234" = Raise OverflowError.
Proof.
  apply (scan_patterns_uncaught_exception (T := Demo.text)).
  - repeat constructor. eexists. split; [reflexivity|]. intros e. by vm_compute.
  - eexists. split; [reflexivity|]. reflexivity.
Defined.

Section MainLoop.
Context {P : Platform}.

Lemma run_modes_raising_head fs policy base m rest t e :
  gate_one_mode fs policy m base = (t, Raise e) ->
  run_modes fs policy base (m :: rest) = (t, Raise e).
Proof. intros Hgate. cbn [run_modes]. by rewrite Hgate. Qed.

Lemma run_modes_after_passes fs policy base passed ts rest :
  Forall2 (fun m t => gate_one_mode fs policy m base = (t, Ok PASS)) passed ts ->
  run_modes fs policy base (passed ++ rest) =
  (concat ts ++ (run_modes fs policy base rest).1, (run_modes fs policy base rest).2).
Proof.
  induction 1 as [|m t passed ts Hm _ IH].
  - cbn [app concat]. by destruct (run_modes fs policy base rest).
  - cbn [app concat]. rewrite (run_modes_passing_head fs policy base m _ t Hm), IH.
    cbn [fst snd]. by rewrite app_assoc.
Qed.

End MainLoop.

(** X9.  The loop of [main] is fail-fast over any list of modes.  After modes
    that all return PASS, the first mode returning another code ends the run
    with that code and its failure line, the first mode raising ends it with
    that exception, and in both cases no later mode leaves anything in the
    trace; when every mode returns PASS the run prints the overall PASS line
    and returns 0. *)
Theorem run_modes_fail_fast {P : Platform}
    (fs : filesystem) (policy : pyval) (base : Path)
    (passed : list string) (ts : list trace) (m : string) (rest : list string) :
  Forall2 (fun m' t' => gate_one_mode fs policy m' base = (t', Ok PASS)) passed ts ->
  (forall t c,
      gate_one_mode fs policy m base = (t, Ok c) -> c <> PASS ->
      run_modes fs policy base (passed ++ m :: rest)
      = (concat ts ++ t ++ [fail_line m c], Ok c)) /\
  (forall t e,
      gate_one_mode fs policy m base = (t, Raise e) ->
      run_modes fs policy base (passed ++ m :: rest) = (concat ts ++ t, Raise e)) /\
  run_modes fs policy base passed
  = (concat ts ++ [EvPrint "RELEASE GATE => PASS"], Ok PASS).
Proof.
  intros Hpassed. split; [|split].
  - intros t c Hgate Hc.
    rewrite (run_modes_after_passes fs policy base passed ts _ Hpassed).
    by rewrite (run_modes_failing_head fs policy base m rest t c Hgate Hc).
  - intros t e Hgate.
    rewrite (run_modes_after_passes fs policy base passed ts _ Hpassed).
    by rewrite (run_modes_raising_head fs policy base m rest t e Hgate).
  - rewrite <- (app_nil_r passed) at 1.
    by rewrite (run_modes_after_passes fs policy base passed ts [] Hpassed).
Qed.

Lemma run_modes_fail_fast_witness :
  run_modes Cases.medium_disk Cases.policy_medium0 (mkpath "outputs") (["tokyo"] ++ "ny" :: ["osaka"])
  = (concat [(gate_one_mode Cases.medium_disk Cases.policy_medium0 "tokyo"
                (mkpath "outputs")).1]
       ++ [EvRead (joinpath (joinpath (mkpath "outputs") "ny") "policy_report.json")],
     Raise FileNotFoundError).
Proof.
  refine (proj1 (proj2 (run_modes_fail_fast Cases.medium_disk Cases.policy_medium0
            (mkpath "outputs") ["tokyo"] [_] "ny" ["osaka"] _)) _ FileNotFoundError _).
  - constructor; [by vm_compute | constructor].
  - by vm_compute.
Defined.

(** X10.  With a mode selector other than "both", [main] evaluates that one
    mode: the run is the policy load followed by that mode's evaluation, it
    exits with the mode's code (printing the overall PASS line or the mode's
    failure line), an exception of the mode is left uncaught, and the whole
    run is the same on any file system that agrees on the policy file and
    below that mode's directory. *)
Theorem single_mode_run {P : Platform}
    (fs : filesystem) (a : args) (t0 : trace) (policy : pyval) :
  arg_mode a <> "both" ->
  load_policy fs (mkpath (arg_policy a)) = (t0, Ok policy) ->
  let base := mkpath (arg_outputs_dir a) in
  let m := arg_mode a in
  (forall t c,
      gate_one_mode fs policy m base = (t, Ok c) ->
      main fs a =
      (t0 ++ t ++ [if c =? PASS then EvPrint "RELEASE GATE => PASS" else fail_line m c],
       Exit c)) /\
  (forall t e,
      gate_one_mode fs policy m base = (t, Raise e) ->
      main fs a = (t0 ++ t, Uncaught e)) /\
  (forall fs' : filesystem,
      fs' (mkpath (arg_policy a)) = fs (mkpath (arg_policy a)) ->
      agree_below fs' fs (joinpath base m) ->
      main fs' a = main fs a).
Proof.
  intros Hmode Hload base m. subst base m.
  assert (Hmodes : modes_of (arg_mode a) = [arg_mode a]).
  { unfold modes_of. by apply String.eqb_neq in Hmode as ->. }
  split; [|split].
  - intros t c Hgate. rewrite (main_unfold fs a t0 policy Hload), Hmodes.
    destruct (Z.eqb_spec c PASS) as [->|Hc].
    + by rewrite (run_modes_passing_head fs policy _ _ [] t Hgate).
    + by rewrite (run_modes_failing_head fs policy _ _ [] t c Hgate Hc).
  - intros t e Hgate. rewrite (main_unfold fs a t0 policy Hload), Hmodes.
    by rewrite (run_modes_raising_head fs policy _ _ [] t e Hgate).
  - intros fs' Hpol Hagree.
    rewrite (main_unfold fs a t0 policy Hload).
    rewrite (main_unfold fs' a t0 policy) by (by rewrite (load_policy_agree fs' fs _ Hpol)).
    rewrite Hmodes. cbn [run_modes].
    by rewrite (gate_one_mode_agree fs' fs policy _ _ Hagree).
Qed.

Lemma single_mode_run_witness :
  main Cases.policy_only_disk
    {| arg_mode := "ny"; arg_policy := "policy.yml"; arg_outputs_dir := "outputs" |}
  = ([EvRead (mkpath "policy.yml")]
       ++ (gate_one_mode Cases.policy_only_disk Cases.policy_requires_a "ny"
             (mkpath "outputs")).1
       ++ [fail_line "ny" E_REQUIRED_OUTPUTS],
     Exit E_REQUIRED_OUTPUTS).
Proof.
  refine (proj1 (single_mode_run Cases.policy_only_disk
            {| arg_mode := "ny"; arg_policy := "policy.yml"; arg_outputs_dir := "outputs" |}
            [EvRead (mkpath "policy.yml")] Cases.policy_requires_a _ _)
            _ E_REQUIRED_OUTPUTS _).
  - discriminate.
  - by vm_compute.
  - by vm_compute.
Defined.

(** Symbolic execution through all stages at once, reducing the early-return
    match of stage 3 where the returned value is known. *)
Ltac wp_run :=
  repeat first
    [ lazymatch goal with
      | |- wp (match Some _ with Some _ => _ | None => _ end) _ => cbv beta iota
      | |- wp (match None with Some _ => _ | None => _ end) _ => cbv beta iota
      end
    | wp_step ].

Ltac unfold_stages :=
  unfold gate_one_mode, gate_from_policy_reports, gate_from_manifest, check_manifest,
    gate_from_findings, gate_from_report.

Ltac code_in_set :=
  unfold exit_codes; repeat first [apply list_elem_of_here | apply list_elem_of_further].

Section ExitCodes.
Context {P : Platform}.

Lemma wp_gate_codes fs policy mode base :
  wp (gate_one_mode fs policy mode base) (fun _ code => code ∈ exit_codes).
Proof. unfold_stages. cbv zeta. wp_run; code_in_set. Qed.

Lemma wp_run_modes_codes fs policy base modes :
  wp (run_modes fs policy base modes) (fun _ code => code ∈ exit_codes).
Proof.
  induction modes as [|m rest IH]; cbn [run_modes].
  - wp_run. code_in_set.
  - wp_step. eapply wp_mono; [apply wp_gate_codes|].
    intros t code Hcode. cbn beta. destruct (negb (code =? PASS)).
    + wp_run. exact Hcode.
    + eapply wp_mono; [apply IH|]. auto.
Qed.

End ExitCodes.

(** X11.  The exit-code taxonomy is closed: whatever the policy and the
    outputs are, a mode evaluation that returns does so with one of 0, 10,
    11, 12, 13, 14, 15, 16, and so does a run of [main] that ends in
    SystemExit. *)
Theorem exit_codes_closed {P : Platform} (fs : filesystem) :
  (forall policy mode base t code,
      gate_one_mode fs policy mode base = (t, Ok code) -> code ∈ exit_codes) /\
  (forall a t code, main fs a = (t, Exit code) -> code ∈ exit_codes).
Proof.
  split.
  - intros policy mode base t code Hrun. exact (wp_gate_codes fs policy mode base t code Hrun).
  - intros a t code Hmain. unfold main in Hmain.
    destruct (bind _ _) as [t' [c|e]] eqn:Hrun; [|discriminate Hmain].
    injection Hmain as _ <-. revert t' c Hrun.
    change (wp (bind (load_policy fs (mkpath (arg_policy a)))
                  (fun policy => run_modes fs policy (mkpath (arg_outputs_dir a))
                                   (modes_of (arg_mode a))))
               (fun _ code => code ∈ exit_codes)).
    wp_step. intros t0 policy _. apply wp_run_modes_codes.
Qed.

Section DisabledGate.
Context {P : Platform}.

Lemma gate_disabled fs policy mode base rg en :
  policy_section policy = Ok rg ->
  Py.get rg "enabled" (PBool true) = Ok en ->
  Py.truthy en = false ->
  gate_one_mode fs policy mode base = ([disabled_line mode], Ok PASS).
Proof.
  intros Hsec Hen Hoff. unfold gate_one_mode.
  by rewrite Hsec, bind_lift_ok, Hen, bind_lift_ok, Hoff.
Qed.

Lemma run_modes_disabled fs policy base rg en modes :
  policy_section policy = Ok rg ->
  Py.get rg "enabled" (PBool true) = Ok en ->
  Py.truthy en = false ->
  run_modes fs policy base modes =
  ((disabled_line <$> modes) ++ [EvPrint "RELEASE GATE => PASS"], Ok PASS).
Proof.
  intros Hsec Hen Hoff. induction modes as [|m rest IH]; [reflexivity|].
  rewrite (run_modes_passing_head fs policy base m rest [disabled_line m]), IH.
  - reflexivity.
  - by apply (gate_disabled fs policy m base rg en).
Qed.

(** Loading the policy reads the policy file once and does nothing else. *)
Lemma load_policy_run fs p : load_policy fs p = ([EvRead p], (load_policy fs p).2).
Proof.
  unfold load_policy, read_text.
  destruct (fs p) as [[txt|l|]|]; try reflexivity.
  rewrite bind_ok. by destruct (yaml_safe_load txt), (json_loads txt).
Qed.

End DisabledGate.

(** X12.  With a policy whose release_gate.enabled is falsy, a run passes
    without looking at any output: whatever the mode selector and the
    outputs directory hold, [main] exits 0 after the policy load, one
    disabled notice per requested mode and the overall PASS line, and it
    makes no file-system access other than reading the policy. *)
Theorem disabled_policy_passes_unseen {P : Platform}
    (fs : filesystem) (a : args) (t0 : trace) (policy rg en : pyval) :
  load_policy fs (mkpath (arg_policy a)) = (t0, Ok policy) ->
  policy_section policy = Ok rg ->
  Py.get rg "enabled" (PBool true) = Ok en ->
  Py.truthy en = false ->
  main fs a =
  (t0 ++ (disabled_line <$> modes_of (arg_mode a)) ++ [EvPrint "RELEASE GATE => PASS"],
   Exit PASS) /\
  reads_of (main fs a).1 = [mkpath (arg_policy a)] /\
  probes_of (main fs a).1 = [].
Proof.
  intros Hload Hsec Hen Hoff.
  assert (Hmain : main fs a =
            (t0 ++ (disabled_line <$> modes_of (arg_mode a))
                ++ [EvPrint "RELEASE GATE => PASS"], Exit PASS)).
  { rewrite (main_unfold fs a t0 policy Hload).
    by rewrite (run_modes_disabled fs policy _ rg en _ Hsec Hen Hoff). }
  split; [exact Hmain|]. rewrite Hmain. cbn [fst].
  assert (Ht0 : t0 = [EvRead (mkpath (arg_policy a))]).
  { rewrite load_policy_run in Hload. by injection Hload as <- _. }
  assert (Hquiet : forall ms : list string,
             reads_of (disabled_line <$> ms) = [] /\
             probes_of (disabled_line (path := Path) <$> ms) = []).
  { induction ms as [|m ms [IH1 IH2]]; [done|]. by rewrite fmap_cons. }
  destruct (Hquiet (modes_of (arg_mode a))) as [Hr Hp].
  rewrite !reads_of_app, !probes_of_app, Hr, Hp, Ht0. done.
Qed.

Lemma disabled_policy_passes_unseen_witness :
  main (Demo.disk [("policy.yml", File (Demo.js "{'release_gate': {'enabled': false}}"))])
       Cases.both_args
  = ([EvRead (mkpath "policy.yml")] ++ (disabled_line <$> ["tokyo"; "ny"])
       ++ [EvPrint "RELEASE GATE => PASS"],
     Exit PASS).
Proof.
  refine (proj1 (disabled_policy_passes_unseen
            (Demo.disk [("policy.yml", File (Demo.js "{'release_gate': {'enabled': false}}"))])
            Cases.both_args [EvRead (mkpath "policy.yml")]
            (PDict [("release_gate", PDict [("enabled", PBool false)])])
            (PDict [("enabled", PBool false)]) (PBool false) _ _ _ _)).
  - by vm_compute.
  - reflexivity.
  - reflexivity.
  - reflexivity.
Defined.

(** X13.  When the policy cannot be loaded, [main] ends with the uncaught
    exception right after the one read of the policy file: no mode is
    evaluated and nothing is printed.  The exception is FileNotFoundError
    for a missing file, IsADirectoryError for a directory,
    UnicodeDecodeError for a file that is not valid UTF-8, and the JSON
    decoder's error exactly when the file exists and both the YAML and the
    JSON parser reject it: a YAML error is never what surfaces. *)
Theorem policy_load_failure {P : Platform} (fs : filesystem) (a : args) (e : exn) :
  (load_policy fs (mkpath (arg_policy a))).2 = Raise e ->
  main fs a = ([EvRead (mkpath (arg_policy a))], Uncaught e) /\
  ((e = FileNotFoundError /\ fs (mkpath (arg_policy a)) = None) \/
   (e = IsADirectoryError /\ fs (mkpath (arg_policy a)) = Some Dir) \/
   (e = UnicodeDecodeError /\
    exists lenient, fs (mkpath (arg_policy a)) = Some (Undecodable lenient)) \/
   (e = JSONDecodeError /\
    exists txt, fs (mkpath (arg_policy a)) = Some (File txt) /\
                yaml_safe_load txt = None /\ json_loads txt = None)).
Proof.
  intros Hload. split.
  - unfold main. rewrite load_policy_run, Hload. reflexivity.
  - unfold load_policy, read_text in Hload.
    destruct (fs (mkpath (arg_policy a))) as [[txt|l|]|] eqn:Hfs.
    + rewrite bind_ok in Hload. cbn [fst snd] in Hload.
      destruct (yaml_safe_load txt) eqn:Hy; [discriminate Hload|].
      destruct (json_loads txt) eqn:Hj; [discriminate Hload|].
      injection Hload as <-. right. right. right. split; [reflexivity|]. by exists txt.
    + injection Hload as <-. right. right. left. split; [reflexivity|]. by exists l.
    + injection Hload as <-. right. left. by split.
    + injection Hload as <-. left. by split.
Qed.

Lemma policy_load_failure_witness :
  main (Demo.disk [("policy.yml", File "release_gate: [")]) Cases.both_args
  = ([EvRead (mkpath "policy.yml")], Uncaught JSONDecodeError).
Proof.
  refine (proj1 (policy_load_failure (Demo.disk [("policy.yml", File "release_gate: [")])
                   Cases.both_args JSONDecodeError _)).
  by vm_compute.
Defined.

Section VerdictFacts.
Context {P : Platform}.

Lemma ne_str_false st lit : Py.ne_str st lit = false -> st = PStr lit.
Proof.
  destruct st; try discriminate. cbn. intros H%negb_false_iff.
  by apply String.eqb_eq in H as ->.
Qed.

Lemma gtb_true a b : (a >? b) = true -> a > b.
Proof. destruct (Z.gtb_spec a b); [lia|discriminate]. Qed.

Lemma gtb_false a b : (a >? b) = false -> a <= b.
Proof. destruct (Z.gtb_spec a b); [discriminate|lia]. Qed.

Lemma absent_cons_missing fs out paths (x : pyval) rest :
  PStr <$> absent fs out paths = x :: rest ->
  exists rel, rel ∈ paths /\ fs (joinpath out rel) = None.
Proof.
  intros Heq. destruct (absent fs out paths) as [|rel l] eqn:Habs; [discriminate Heq|].
  exists rel.
  assert (Hin : rel ∈ absent fs out paths) by (rewrite Habs; apply list_elem_of_here).
  unfold absent in Hin. apply list_elem_of_filter in Hin as [Hno Hin].
  split; [exact Hin|]. by apply eq_None_not_Some.
Qed.

Lemma missing_absent fs out paths rel :
  rel ∈ paths -> fs (joinpath out rel) = None ->
  exists r l, absent fs out paths = r :: l.
Proof.
  intros Hin Hno. destruct (absent fs out paths) as [|r l] eqn:Habs; [|eauto].
  assert (Hrel : rel ∈ absent fs out paths).
  { unfold absent. apply list_elem_of_filter. split; [|exact Hin].
    rewrite Hno. by intros [? ?]. }
  rewrite Habs in Hrel. inversion Hrel.
Qed.

Lemma get_any_key d k dflt v k' dflt' :
  Py.get d k dflt = Ok v -> exists v', Py.get d k' dflt' = Ok v'.
Proof. destruct d; try discriminate. intros _. eexists. reflexivity. Qed.

End VerdictFacts.

Ltac tidy_facts :=
  subst;
  repeat match goal with
  | H : negb _ = true |- _ => apply negb_true_iff in H
  | H : negb _ = false |- _ => apply negb_false_iff in H
  | H : bool_decide _ = true |- _ => apply bool_decide_eq_true in H
  | H : bool_decide _ = false |- _ => apply bool_decide_eq_false in H
  | H : (_ >? _) = true |- _ => apply gtb_true in H
  | H : (_ >? _) = false |- _ => apply gtb_false in H
  | H : Py.ne_str _ "PASS" = false |- _ => apply ne_str_false in H; subst
  | H : _ ∈ list_to_set _ |- _ => apply elem_of_list_to_set in H
  | H : _ ∉ list_to_set _ |- _ => rewrite elem_of_list_to_set in H
  | H : ~ is_Some _ |- _ => apply eq_None_not_Some in H
  | H : _ <$> _ = [] |- _ => apply fmap_nil_inv in H
  | H : PStr <$> absent _ _ _ = _ :: _ |- _ =>
      apply absent_cons_missing in H; destruct H as (? & ? & ?)
  end.

Ltac unfold_verdict :=
  unfold files_ok, reports_ok, signing_ok, signing_unmet, readable, lists_files,
    report_status, signer_is, signing_required, allowed_signers, findings_counted,
    critical_block, threshold, sections_missing, findings_not_list.

(** Assemble a conjunction of existentials from the facts at hand. *)
Ltac build :=
  repeat first
    [ eassumption
    | lazymatch goal with
      | |- _ /\ _ => split
      | |- is_Some _ => fail
      | |- exists _, _ => eexists
      | |- _ = _ => reflexivity
      | |- _ \/ _ => first [left; solve [build] | right; solve [build]]
      end ].

Section VerdictSound.
Context {P : Platform}.

Lemma gate_verdict_sound fs policy mode base rg en :
  policy_section policy = Ok rg ->
  Py.get rg "enabled" (PBool true) = Ok en ->
  Py.truthy en = true ->
  wp (gate_one_mode fs policy mode base)
     (fun _ code => verdict fs rg (joinpath base mode) code).
Proof.
  intros Hsec Hen Hon. unfold_stages.
  rewrite Hsec, bind_lift_ok, Hen, bind_lift_ok, Hon. cbn [negb]. cbv zeta.
  wp_run.
  all: unfold verdict; repeat (case_decide; [try discriminate | try done]).
  all: tidy_facts; unfold_verdict.
  all: solve [build].
Qed.

End VerdictSound.

Section Returns.
Context {P : Platform}.

Lemma returns_bind {A B} (m : IO A) (k : A -> IO B) a b :
  returns m a -> returns (k a) b -> returns (bind m k) b.
Proof. intros [t ->] [t' H]. exists (t ++ t'). by rewrite bind_ok, H. Qed.

Lemma returns_ret {A} (a : A) : returns (ret a) a.
Proof. by exists []. Qed.

Lemma returns_read_text fs p txt :
  fs p = Some (File txt) -> returns (read_text fs p) txt.
Proof. intros H. eexists. by apply read_text_file. Qed.

Lemma returns_read_text_ignore fs p txt :
  fs p ≫= lenient_text = Some txt -> returns (read_text_ignore fs p) txt.
Proof. intros H. eexists. by apply read_text_ignore_lenient. Qed.

Lemma returns_read_json fs p txt v :
  fs p = Some (File txt) -> json_loads txt = Some v -> returns (read_json fs p) v.
Proof. intros H1 H2. eexists. by eapply read_json_file. Qed.

Lemma returns_path_exists fs p :
  returns (path_exists fs p) (bool_decide (is_Some (fs p))).
Proof. by eexists. Qed.

Lemma returns_fail_with mode counts warns msg code :
  returns (fail_with mode counts warns msg code) code.
Proof. eexists. apply fail_with_run. Qed.

Lemma returns_summarize mode counts warns fails :
  returns (summarize mode counts warns fails) tt.
Proof. by eexists. Qed.

Lemma returns_missing_of fs out paths :
  returns (missing_of fs out (PStr <$> paths)) (PStr <$> absent fs out paths).
Proof. eexists. apply missing_of_strings. Qed.

Lemma not_gtb a b : a <= b -> (a >? b) = false.
Proof. intros H. destruct (Z.gtb_spec a b); [lia|reflexivity]. Qed.

Lemma is_gtb a b : a > b -> (a >? b) = true.
Proof. intros H. destruct (Z.gtb_spec a b); [reflexivity|lia]. Qed.

(** Stage 1: the listed files are probed; the gate goes on when none is
    missing. *)
Lemma returns_gate fs policy mode base rg en code :
  policy_section policy = Ok rg ->
  Py.get rg "enabled" (PBool true) = Ok en ->
  Py.truthy en = true ->
  files_ok fs rg (joinpath base mode) ->
  returns (gate_from_policy_reports fs rg mode (joinpath base mode)) code ->
  returns (gate_one_mode fs policy mode base) code.
Proof.
  intros Hsec Hen Hon (paths & (rf & Hrf & Hit) & Habs) Hrest.
  unfold gate_one_mode.
  rewrite Hsec, bind_lift_ok, Hen, bind_lift_ok, Hon. cbn [negb]. cbv zeta.
  rewrite Hrf, bind_lift_ok, Hit, bind_lift_ok.
  eapply returns_bind; [apply returns_missing_of|]. by rewrite Habs.
Qed.

Lemma returns_gate_missing fs policy mode base rg en paths rel :
  policy_section policy = Ok rg ->
  Py.get rg "enabled" (PBool true) = Ok en ->
  Py.truthy en = true ->
  lists_files rg paths -> rel ∈ paths -> fs (joinpath (joinpath base mode) rel) = None ->
  returns (gate_one_mode fs policy mode base) E_REQUIRED_OUTPUTS.
Proof.
  intros Hsec Hen Hon (rf & Hrf & Hit) Hin Hno.
  destruct (missing_absent _ _ _ _ Hin Hno) as (r & l & Habs).
  unfold gate_one_mode.
  rewrite Hsec, bind_lift_ok, Hen, bind_lift_ok, Hon. cbn [negb]. cbv zeta.
  rewrite Hrf, bind_lift_ok, Hit, bind_lift_ok.
  eapply returns_bind; [apply returns_missing_of|]. rewrite Habs.
  apply returns_fail_with.
Qed.

(** Stage 2 with both statuses PASS. *)
Lemma returns_reports fs rg mode out code :
  reports_ok fs out ->
  returns (gate_from_manifest fs rg mode out) code ->
  returns (gate_from_policy_reports fs rg mode out) code.
Proof.
  intros [(txt1 & doc1 & Hf1 & Hj1 & Hs1) (txt2 & doc2 & Hf2 & Hj2 & Hs2)] Hrest.
  unfold gate_from_policy_reports.
  eapply returns_bind; [by eapply returns_read_json|].
  eapply returns_bind; [by eapply returns_read_json|].
  rewrite Hs1, bind_lift_ok. cbn [Py.ne_str]. rewrite Hs2, bind_lift_ok. exact Hrest.
Qed.

Lemma returns_pre_fail fs rg mode out st :
  report_status fs out "policy_report.json" st -> Py.ne_str st "PASS" = true ->
  readable fs out "policy_report_post.json" ->
  returns (gate_from_policy_reports fs rg mode out) E_POLICY_FAIL.
Proof.
  intros (txt1 & doc1 & Hf1 & Hj1 & Hs1) Hne (txt2 & doc2 & Hf2 & Hj2).
  destruct (get_any_key _ _ _ _ "hard_fail_hits" PNone Hs1) as [hits Hhits].
  unfold gate_from_policy_reports.
  eapply returns_bind; [by eapply returns_read_json|].
  eapply returns_bind; [by eapply returns_read_json|].
  rewrite Hs1, bind_lift_ok, Hne, Hhits, bind_lift_ok. apply returns_fail_with.
Qed.

Lemma returns_post_fail fs rg mode out st :
  report_status fs out "policy_report.json" (PStr "PASS") ->
  report_status fs out "policy_report_post.json" st -> Py.ne_str st "PASS" = true ->
  returns (gate_from_policy_reports fs rg mode out) E_SECRETS_IN_OUTPUTS.
Proof.
  intros (txt1 & doc1 & Hf1 & Hj1 & Hs1) (txt2 & doc2 & Hf2 & Hj2 & Hs2) Hne.
  destruct (get_any_key _ _ _ _ "hard_fail_hits" PNone Hs2) as [hits Hhits].
  unfold gate_from_policy_reports.
  eapply returns_bind; [by eapply returns_read_json|].
  eapply returns_bind; [by eapply returns_read_json|].
  rewrite Hs1, bind_lift_ok. cbn [Py.ne_str].
  rewrite Hs2, bind_lift_ok, Hne, Hhits, bind_lift_ok. apply returns_fail_with.
Qed.

(** Stage 3 passing. *)
Lemma returns_manifest fs rg mode out code :
  signing_ok fs rg out ->
  returns (gate_from_findings fs rg mode out) code ->
  returns (gate_from_manifest fs rg mode out) code.
Proof.
  intros (signer & (raw & Hraw & ->) & Hsig) Hrest. unfold gate_from_manifest.
  eapply returns_bind; [by apply returns_read_text|]. cbv beta zeta.
  apply (returns_bind _ _ None); [|exact Hrest].
  unfold check_manifest.
  destruct Hsig as [(v & Hv & Hoff)
                   |((v & Hv & Hon) & lowered & (conf & items & Hc & Hi & Hl) & Hin & Hfile)].
  - rewrite Hv, bind_lift_ok, Hoff. apply returns_ret.
  - rewrite Hv, bind_lift_ok, Hon, Hc, bind_lift_ok, Hi, bind_lift_ok, Hl, bind_lift_ok.
    cbv zeta. rewrite bool_decide_eq_true_2 by (by apply elem_of_list_to_set).
    cbn [negb].
    eapply returns_bind; [apply returns_path_exists|].
    rewrite bool_decide_eq_true_2 by done. apply returns_ret.
Qed.

Lemma returns_manifest_unmet fs rg mode out :
  signing_unmet fs rg out ->
  returns (gate_from_manifest fs rg mode out) E_MANIFEST_SIGN.
Proof.
  intros (signer & lowered & (raw & Hraw & ->) & (v & Hv & Hon)
          & (conf & items & Hc & Hi & Hl) & Hcase).
  unfold gate_from_manifest.
  eapply returns_bind; [by apply returns_read_text|]. cbv beta zeta.
  apply (returns_bind _ _ (Some E_MANIFEST_SIGN)); [|apply returns_ret].
  unfold check_manifest.
  rewrite Hv, bind_lift_ok, Hon, Hc, bind_lift_ok, Hi, bind_lift_ok, Hl, bind_lift_ok.
  cbv zeta. destruct Hcase as [Hout|[Hin Hno]].
  - rewrite bool_decide_eq_false_2 by (by rewrite elem_of_list_to_set).
    cbn [negb]. eapply returns_bind; [apply returns_fail_with|]. apply returns_ret.
  - rewrite bool_decide_eq_true_2 by (by apply elem_of_list_to_set).
    cbn [negb]. eapply returns_bind; [apply returns_path_exists|].
    rewrite bool_decide_eq_false_2 by (rewrite Hno; by intros [? ?]).
    cbn [negb]. eapply returns_bind; [apply returns_fail_with|]. apply returns_ret.
Qed.

(** Stage 4. *)
Lemma returns_findings_shape fs rg mode out :
  findings_not_list fs out ->
  returns (gate_from_findings fs rg mode out) E_REQUIRED_OUTPUTS.
Proof.
  intros (ftxt & v & Hf & Hj & Hshape). unfold gate_from_findings.
  eapply returns_bind; [by eapply returns_read_json|].
  destruct v; try discriminate Hshape; apply returns_fail_with.
Qed.

Lemma returns_critical fs rg mode out counts :
  findings_counted fs out counts -> critical_block rg counts true ->
  returns (gate_from_findings fs rg mode out) E_CRITICAL_PRESENT.
Proof.
  intros (ftxt & records & Hf & Hj & Hc) (foc & Hfoc & Hblock).
  unfold gate_from_findings.
  eapply returns_bind; [by eapply returns_read_json|]. cbv beta iota.
  rewrite Hc, bind_lift_ok, Hfoc, bind_lift_ok, Hblock. apply returns_fail_with.
Qed.

Lemma returns_high fs rg mode out counts max_high :
  findings_counted fs out counts -> critical_block rg counts false ->
  threshold rg "max_high_findings" max_high -> counts_get counts "HIGH" > max_high ->
  returns (gate_from_findings fs rg mode out) E_HIGH_THRESHOLD.
Proof.
  intros (ftxt & records & Hf & Hj & Hc) (foc & Hfoc & Hblock) (mh & Hmh & Hint) Hgt.
  unfold gate_from_findings.
  eapply returns_bind; [by eapply returns_read_json|]. cbv beta iota.
  rewrite Hc, bind_lift_ok, Hfoc, bind_lift_ok, Hblock, Hmh, bind_lift_ok, Hint,
    bind_lift_ok, (is_gtb _ _ Hgt).
  apply returns_fail_with.
Qed.

Lemma returns_findings fs rg mode out counts max_high max_med code :
  findings_counted fs out counts -> critical_block rg counts false ->
  threshold rg "max_high_findings" max_high -> counts_get counts "HIGH" <= max_high ->
  threshold rg "max_medium_findings" max_med ->
  returns (gate_from_report fs rg mode out counts (medium_warnings counts max_med)) code ->
  returns (gate_from_findings fs rg mode out) code.
Proof.
  intros (ftxt & records & Hf & Hj & Hc) (foc & Hfoc & Hblock) (mh & Hmh & Hint) Hle
         (mm & Hmm & Hintm) Hrest.
  unfold gate_from_findings.
  eapply returns_bind; [by eapply returns_read_json|]. cbv beta iota.
  rewrite Hc, bind_lift_ok, Hfoc, bind_lift_ok, Hblock, Hmh, bind_lift_ok, Hint,
    bind_lift_ok, (not_gtb _ _ Hle), Hmm, bind_lift_ok, Hintm, bind_lift_ok.
  exact Hrest.
Qed.

(** Stage 5. *)
Lemma returns_report fs rg mode out counts warns missing :
  sections_missing fs rg out missing ->
  returns (gate_from_report fs rg mode out counts warns)
          (match missing with [] => PASS | _ :: _ => E_REPORT_SECTIONS end).
Proof.
  intros (md & rs & Hf & Hrs & Hmiss). unfold gate_from_report.
  eapply returns_bind; [by apply returns_read_text_ignore|]. cbv beta.
  rewrite Hrs, bind_lift_ok. cbv zeta. rewrite Hmiss, bind_lift_ok.
  destruct missing.
  - eapply returns_bind; [apply returns_summarize|]. apply returns_ret.
  - apply returns_fail_with.
Qed.

Lemma gate_verdict_complete fs policy mode base rg en code :
  policy_section policy = Ok rg ->
  Py.get rg "enabled" (PBool true) = Ok en ->
  Py.truthy en = true ->
  verdict fs rg (joinpath base mode) code ->
  returns (gate_one_mode fs policy mode base) code.
Proof.
  intros Hsec Hen Hon Hv. unfold verdict in Hv.
  repeat case_decide; subst; try done.
  - destruct Hv as (Hfiles & Hrep & Hsig & counts & mh & mm & Hc & Hb & Hh & Hle & Hm & Hs).
    apply (returns_gate _ _ _ _ rg en _ Hsec Hen Hon Hfiles).
    apply returns_reports; [exact Hrep|]. apply returns_manifest; [exact Hsig|].
    eapply returns_findings; try eassumption.
    exact (returns_report _ _ _ _ _ _ [] Hs).
  - destruct Hv as [(paths & rel & Hl & Hin & Hno)|(Hfiles & Hrep & Hsig & Hshape)].
    + exact (returns_gate_missing _ _ _ _ rg en paths rel Hsec Hen Hon Hl Hin Hno).
    + apply (returns_gate _ _ _ _ rg en _ Hsec Hen Hon Hfiles).
      apply returns_reports; [exact Hrep|]. apply returns_manifest; [exact Hsig|].
      by apply returns_findings_shape.
  - destruct Hv as (Hfiles & (st & Hst & Hne) & Hpost).
    apply (returns_gate _ _ _ _ rg en _ Hsec Hen Hon Hfiles). by eapply returns_pre_fail.
  - destruct Hv as (Hfiles & Hpre & st & Hst & Hne).
    apply (returns_gate _ _ _ _ rg en _ Hsec Hen Hon Hfiles). by eapply returns_post_fail.
  - destruct Hv as (Hfiles & Hrep & Hun).
    apply (returns_gate _ _ _ _ rg en _ Hsec Hen Hon Hfiles).
    apply returns_reports; [exact Hrep|]. by apply returns_manifest_unmet.
  - destruct Hv as (Hfiles & Hrep & Hsig & counts & Hc & Hb).
    apply (returns_gate _ _ _ _ rg en _ Hsec Hen Hon Hfiles).
    apply returns_reports; [exact Hrep|]. apply returns_manifest; [exact Hsig|].
    by eapply returns_critical.
  - destruct Hv as (Hfiles & Hrep & Hsig & counts & mh & Hc & Hb & Hh & Hgt).
    apply (returns_gate _ _ _ _ rg en _ Hsec Hen Hon Hfiles).
    apply returns_reports; [exact Hrep|]. apply returns_manifest; [exact Hsig|].
    by eapply returns_high.
  - destruct Hv as (Hfiles & Hrep & Hsig & counts & mh & mm & sec & rest
                    & Hc & Hb & Hh & Hle & Hm & Hs).
    apply (returns_gate _ _ _ _ rg en _ Hsec Hen Hon Hfiles).
    apply returns_reports; [exact Hrep|]. apply returns_manifest; [exact Hsig|].
    eapply returns_findings; try eassumption.
    exact (returns_report _ _ _ _ _ _ (sec :: rest) Hs).
Qed.

End Returns.

(** X14.  The exit code of an enabled gate, characterised: the gate returns
    [code] exactly when the stages before the deciding one pass and the
    deciding stage has the outcome that [code] stands for (0: all five
    stages pass; 14: a listed file is missing, or the findings artifact is
    not a list; 10 and 16: the pre, resp. post, policy report is not PASS;
    13: signing is required and unmet; 11: CRITICAL present and blocking;
    12: HIGH above its threshold; 15: a required report section missing).
    In every other situation the gate raises.  A threshold is what [int]
    makes of the setting under the text library at hand, and the report is
    the text a read with [errors="ignore"] gives, also of a file that is not
    valid UTF-8. *)
Theorem gate_exit_code_characterised {P : Platform}
    (fs : filesystem) (policy rg en : pyval) (mode : string) (base : Path) (code : Z) :
  policy_section policy = Ok rg ->
  Py.get rg "enabled" (PBool true) = Ok en ->
  Py.truthy en = true ->
  returns (gate_one_mode fs policy mode base) code <->
  verdict fs rg (joinpath base mode) code.
Proof.
  intros Hsec Hen Hon. split.
  - intros [t Hrun]. exact (gate_verdict_sound fs policy mode base rg en Hsec Hen Hon t code Hrun).
  - exact (gate_verdict_complete fs policy mode base rg en code Hsec Hen Hon).
Qed.

Lemma gate_exit_code_characterised_witness :
  returns (gate_one_mode Cases.signer_only_disk Cases.policy_defaults "tokyo"
             (mkpath "outputs")) E_MANIFEST_SIGN <->
  verdict Cases.signer_only_disk (PDict []) (joinpath (mkpath "outputs") "tokyo")
    E_MANIFEST_SIGN.
Proof.
  exact (gate_exit_code_characterised (P := Demo.platform)
           Cases.signer_only_disk Cases.policy_defaults (PDict []) (PBool true)
           "tokyo" (mkpath "outputs") E_MANIFEST_SIGN eq_refl eq_refl eq_refl).
Defined.

Ltac listed :=
  unfold read_artifacts; repeat first [apply list_elem_of_here | apply list_elem_of_further].

Section PresenceOnly.
Context {P : Platform}.

Lemma path_exists_presence fs1 fs2 dir rel :
  same_presence fs1 fs2 dir ->
  path_exists fs1 (joinpath dir rel) = path_exists fs2 (joinpath dir rel).
Proof.
  intros H. unfold path_exists. f_equal. f_equal. apply bool_decide_ext, H.
Qed.

Lemma read_text_content fs1 fs2 dir names name :
  same_content fs1 fs2 dir names -> name ∈ names ->
  read_text fs1 (joinpath dir name) = read_text fs2 (joinpath dir name).
Proof. intros H Hin. unfold read_text. by rewrite (H name Hin). Qed.

Lemma read_text_ignore_content fs1 fs2 dir names name :
  same_content fs1 fs2 dir names -> name ∈ names ->
  read_text_ignore fs1 (joinpath dir name) = read_text_ignore fs2 (joinpath dir name).
Proof. intros H Hin. unfold read_text_ignore. by rewrite (H name Hin). Qed.

Lemma read_json_content fs1 fs2 dir names name :
  same_content fs1 fs2 dir names -> name ∈ names ->
  read_json fs1 (joinpath dir name) = read_json fs2 (joinpath dir name).
Proof.
  intros H Hin. unfold read_json. by rewrite (read_text_content _ _ _ _ _ H Hin).
Qed.

Lemma missing_of_presence fs1 fs2 dir items :
  same_presence fs1 fs2 dir -> missing_of fs1 dir items = missing_of fs2 dir items.
Proof.
  intros H. induction items as [|f rest IH]; [done|].
  cbn [missing_of]. rewrite IH. apply bind_ext; [|done].
  destruct f; cbn [file_exists]; try done. by apply path_exists_presence.
Qed.

Lemma check_manifest_presence fs1 fs2 rg mode dir signer :
  same_presence fs1 fs2 dir ->
  check_manifest fs1 rg mode dir signer = check_manifest fs2 rg mode dir signer.
Proof.
  intros Hp. unfold check_manifest.
  by rewrite (path_exists_presence _ _ _ "manifest.sig" Hp).
Qed.

Lemma gate_from_findings_presence fs1 fs2 rg mode dir names :
  same_content fs1 fs2 dir names ->
  "extracted_findings.json" ∈ names -> "consolidated_security_report.md" ∈ names ->
  gate_from_findings fs1 rg mode dir = gate_from_findings fs2 rg mode dir.
Proof.
  intros Hc Hf Hr. unfold gate_from_findings, gate_from_report.
  by rewrite (read_json_content _ _ _ _ _ Hc Hf),
    (read_text_ignore_content _ _ _ _ _ Hc Hr).
Qed.

Lemma gate_from_manifest_presence fs1 fs2 rg mode dir names :
  same_presence fs1 fs2 dir -> same_content fs1 fs2 dir names ->
  "manifest_signer.txt" ∈ names ->
  "extracted_findings.json" ∈ names -> "consolidated_security_report.md" ∈ names ->
  gate_from_manifest fs1 rg mode dir = gate_from_manifest fs2 rg mode dir.
Proof.
  intros Hp Hc Hs Hf Hr. unfold gate_from_manifest.
  rewrite (read_text_content _ _ _ _ _ Hc Hs).
  apply bind_ext; [done|]. intros raw. cbv zeta.
  rewrite (check_manifest_presence fs1 fs2 _ _ _ _ Hp).
  apply bind_ext; [done|]. intros [code|]; [done|].
  by apply (gate_from_findings_presence _ _ _ _ _ names).
Qed.

Lemma gate_presence_only fs1 fs2 policy mode base :
  same_presence fs1 fs2 (joinpath base mode) ->
  same_content fs1 fs2 (joinpath base mode) read_artifacts ->
  gate_one_mode fs1 policy mode base = gate_one_mode fs2 policy mode base.
Proof.
  intros Hp Hc. unfold gate_one_mode.
  apply bind_ext; [done|]. intros rg. apply bind_ext; [done|]. intros en.
  destruct (negb (Py.truthy en)); [done|]. cbv zeta.
  apply bind_ext; [done|]. intros rf. apply bind_ext; [done|]. intros items.
  rewrite (missing_of_presence fs1 fs2 _ items Hp).
  apply bind_ext; [done|]. intros [|x l]; [|done].
  unfold gate_from_policy_reports.
  rewrite (read_json_content _ _ _ _ "policy_report.json" Hc) by listed.
  rewrite (read_json_content _ _ _ _ "policy_report_post.json" Hc) by listed.
  rewrite (gate_from_manifest_presence fs1 fs2 rg mode _ read_artifacts Hp Hc)
    by listed.
  reflexivity.
Qed.

End PresenceOnly.

(** X15.  Of manifest.sig and of the files listed as required the gate
    checks the existence only: what they contain is never read, so no
    signature is verified.  On two output trees in which the same paths
    exist and the five artifacts the gate reads (the two policy reports, the
    signer file, the findings and the report) are the same, a mode
    evaluation is the same run: same accesses, same output, same exit code
    or exception. *)
Theorem gate_checks_presence_only {P : Platform}
    (fs1 fs2 : filesystem) (policy : pyval) (mode : string) (base : Path) :
  same_presence fs1 fs2 (joinpath base mode) ->
  same_content fs1 fs2 (joinpath base mode) read_artifacts ->
  gate_one_mode fs1 policy mode base = gate_one_mode fs2 policy mode base.
Proof. apply gate_presence_only. Qed.

Lemma gate_checks_presence_only_witness :
  gate_one_mode Cases.medium_disk Cases.policy_defaults "tokyo" (mkpath "outputs")
  = gate_one_mode
      (Demo.disk ([("outputs/tokyo/manifest_signer.txt", File "minisign");
                   ("outputs/tokyo/manifest.sig", File "not a signature")]
                  ++ Cases.unsigned_bundle Cases.five_medium))
      Cases.policy_defaults "tokyo" (mkpath "outputs").
Proof.
  apply (gate_checks_presence_only (P := Demo.platform)).
  - intros rel. unfold Cases.medium_disk, Cases.signature_files, Cases.unsigned_bundle.
    cbn [app Demo.disk].
    repeat (destruct (String.eqb _ _); [by split; intros _; eexists|]). done.
  - intros name Hin. unfold read_artifacts in Hin.
    repeat (apply elem_of_cons in Hin as [->|Hin]; [reflexivity|]).
    by apply not_elem_of_nil in Hin.
Defined.

Section SignerNormalisation.
Context {P : Platform} {L : TextLaws platform_text}.

(** What the allow-list is asked about: the signer file's content,
    stripped and lower-cased. *)
Lemma signer_key_modulo raw1 raw2 :
  same_modulo_case_and_padding raw1 raw2 ->
  str_lower (str_strip raw1) = str_lower (str_strip raw2).
Proof.
  intros (l1 & c1 & r1 & l2 & c2 & r2 & -> & -> & Hl1 & Hr1 & Hl2 & Hr2 & Hc).
  rewrite (str_strip_pad l1 c1 r1 Hl1 Hr1), (str_strip_pad l2 c2 r2 Hl2 Hr2).
  by rewrite !str_lower_strip, Hc.
Qed.

Lemma accesses_app t1 t2 : accesses (t1 ++ t2) = accesses t1 ++ accesses t2.
Proof. apply List.filter_app. Qed.

Lemma accesses_prints (lines : list string) : accesses (EvPrint <$> lines) = [].
Proof. induction lines as [|l lines IH]; [done|]. by rewrite fmap_cons. Qed.

Lemma same_but_prints_refl {A} (m : IO A) : same_but_prints m m.
Proof. by split. Qed.

Lemma same_but_prints_bind {A B} (m1 m2 : IO A) (k1 k2 : A -> IO B) :
  same_but_prints m1 m2 -> (forall a, same_but_prints (k1 a) (k2 a)) ->
  same_but_prints (bind m1 k1) (bind m2 k2).
Proof.
  destruct m1 as [t1 r1], m2 as [t2 r2]. intros [Ht Hr] Hk.
  cbn [fst snd] in Ht, Hr. subst r2. destruct r1 as [a|e].
  - rewrite !bind_ok. destruct (Hk a) as [Hka Hkr]. split; cbn [fst snd]; [|done].
    by rewrite !accesses_app, Ht, Hka.
  - by split.
Qed.

Lemma same_but_prints_fail_with mode1 mode2 counts1 counts2 warns1 warns2 msg1 msg2 code :
  same_but_prints (fail_with mode1 counts1 warns1 msg1 code)
                  (fail_with mode2 counts2 warns2 msg2 code).
Proof. rewrite !fail_with_run. split; cbn [fst snd]; [|done]. by rewrite !accesses_prints. Qed.

Lemma same_but_prints_after {A} (t : trace) (m1 m2 : IO A) :
  same_but_prints m1 m2 -> same_but_prints (t ++ m1.1, m1.2) (t ++ m2.1, m2.2).
Proof. intros [Ht Hr]. split; cbn [fst snd]; [|done]. by rewrite !accesses_app, Ht. Qed.

Lemma check_manifest_modulo fs1 fs2 rg mode dir signer1 signer2 :
  same_presence fs1 fs2 dir ->
  str_lower signer1 = str_lower signer2 ->
  same_but_prints (check_manifest fs1 rg mode dir signer1)
                  (check_manifest fs2 rg mode dir signer2).
Proof.
  intros Hp Hlow. unfold check_manifest.
  rewrite Hlow, (path_exists_presence fs1 fs2 dir "manifest.sig" Hp).
  apply same_but_prints_bind; [apply same_but_prints_refl|]. intros required.
  destruct (Py.truthy required); [|apply same_but_prints_refl].
  apply same_but_prints_bind; [apply same_but_prints_refl|]. intros configured.
  apply same_but_prints_bind; [apply same_but_prints_refl|]. intros items.
  apply same_but_prints_bind; [apply same_but_prints_refl|]. intros lowered.
  cbv zeta. destruct (negb (bool_decide _)); [|apply same_but_prints_refl].
  apply same_but_prints_bind; [apply same_but_prints_fail_with|].
  intros code. apply same_but_prints_refl.
Qed.

Lemma gate_signer_modulo fs1 fs2 policy mode base raw1 raw2 :
  same_presence fs1 fs2 (joinpath base mode) ->
  same_content fs1 fs2 (joinpath base mode)
    ["policy_report.json"; "policy_report_post.json";
     "extracted_findings.json"; "consolidated_security_report.md"] ->
  fs1 (joinpath (joinpath base mode) "manifest_signer.txt") = Some (File raw1) ->
  fs2 (joinpath (joinpath base mode) "manifest_signer.txt") = Some (File raw2) ->
  same_modulo_case_and_padding raw1 raw2 ->
  same_but_prints (gate_one_mode fs1 policy mode base) (gate_one_mode fs2 policy mode base).
Proof.
  intros Hp Hc Hraw1 Hraw2 Hmod. unfold gate_one_mode.
  apply same_but_prints_bind; [apply same_but_prints_refl|]. intros rg.
  apply same_but_prints_bind; [apply same_but_prints_refl|]. intros en.
  destruct (negb (Py.truthy en)); [apply same_but_prints_refl|]. cbv zeta.
  apply same_but_prints_bind; [apply same_but_prints_refl|]. intros rf.
  apply same_but_prints_bind; [apply same_but_prints_refl|]. intros items.
  rewrite (missing_of_presence fs1 fs2 _ items Hp).
  apply same_but_prints_bind; [apply same_but_prints_refl|].
  intros [|x l]; [|apply same_but_prints_refl].
  unfold gate_from_policy_reports.
  rewrite (read_json_content _ _ _ _ "policy_report.json" Hc) by listed.
  rewrite (read_json_content _ _ _ _ "policy_report_post.json" Hc) by listed.
  apply same_but_prints_bind; [apply same_but_prints_refl|]. intros pre.
  apply same_but_prints_bind; [apply same_but_prints_refl|]. intros post.
  apply same_but_prints_bind; [apply same_but_prints_refl|]. intros pre_status.
  destruct (Py.ne_str pre_status "PASS"); [apply same_but_prints_refl|].
  apply same_but_prints_bind; [apply same_but_prints_refl|]. intros post_status.
  destruct (Py.ne_str post_status "PASS"); [apply same_but_prints_refl|].
  unfold gate_from_manifest.
  rewrite (read_text_file fs1 _ raw1 Hraw1), (read_text_file fs2 _ raw2 Hraw2).
  rewrite !bind_ok. apply same_but_prints_after. cbv zeta.
  apply same_but_prints_bind.
  - apply check_manifest_modulo; [exact Hp|]. by apply signer_key_modulo.
  - intros [code|]; [apply same_but_prints_refl|].
    rewrite (gate_from_findings_presence fs1 fs2 rg mode _ _ Hc) by listed.
    apply same_but_prints_refl.
Qed.

End SignerNormalisation.

(** X16.  The signer is matched ignoring letter case and the white space
    around the content of manifest_signer.txt.  Two output trees that differ
    only in such a variation of the signer file (the same paths exist, the
    four other artifacts read are the same) lead a mode evaluation to the
    same exit code or exception through the same file-system accesses; only
    the printed text may differ, as the failure message quotes the signer.
    This holds over every text library that obeys the laws of [TextLaws]. *)
Theorem signer_case_and_padding_ignored {P : Platform} {L : TextLaws platform_text}
    (fs1 fs2 : filesystem) (policy : pyval) (mode : string) (base : Path)
    (raw1 raw2 : string) :
  same_presence fs1 fs2 (joinpath base mode) ->
  same_content fs1 fs2 (joinpath base mode)
    ["policy_report.json"; "policy_report_post.json";
     "extracted_findings.json"; "consolidated_security_report.md"] ->
  fs1 (joinpath (joinpath base mode) "manifest_signer.txt") = Some (File raw1) ->
  fs2 (joinpath (joinpath base mode) "manifest_signer.txt") = Some (File raw2) ->
  same_modulo_case_and_padding raw1 raw2 ->
  same_but_prints (gate_one_mode fs1 policy mode base) (gate_one_mode fs2 policy mode base).
Proof. apply gate_signer_modulo. Qed.

Lemma signer_case_and_padding_ignored_witness :
  same_but_prints
    (gate_one_mode Cases.medium_disk Cases.policy_defaults "tokyo" (mkpath "outputs"))
    (gate_one_mode
       (Demo.disk ([("outputs/tokyo/manifest_signer.txt", File "  MiniSign ");
                    ("outputs/tokyo/manifest.sig", File "")]
                   ++ Cases.unsigned_bundle Cases.five_medium))
       Cases.policy_defaults "tokyo" (mkpath "outputs")).
Proof.
  apply (signer_case_and_padding_ignored (P := Demo.platform) (L := ascii_text_laws)
           _ _ _ _ _ "minisign" "  MiniSign ").
  - intros rel. unfold Cases.medium_disk, Cases.signature_files, Cases.unsigned_bundle.
    cbn [app Demo.disk].
    repeat (destruct (String.eqb _ _); [by split; intros _; eexists|]). done.
  - intros name Hin.
    repeat (apply elem_of_cons in Hin as [->|Hin]; [reflexivity|]).
    by apply not_elem_of_nil in Hin.
  - reflexivity.
  - reflexivity.
  - exists "", "minisign", "", "  ", "MiniSign", " ". repeat split; reflexivity.
Defined.

Section RejectedConfiguration.
Context {P : Platform}.

Lemma missing_of_raises fs out paths v rest :
  not_a_string v ->
  missing_of fs out ((PStr <$> paths) ++ v :: rest)
  = (EvExists <$> (joinpath out <$> paths), Raise TypeError).
Proof.
  intros Hv. induction paths as [|rel paths IH].
  - cbn [fmap list_fmap app missing_of].
    destruct v as [| | |s| |]; try reflexivity. by destruct (Hv s).
  - rewrite fmap_cons. cbn [app missing_of file_exists].
    unfold path_exists. rewrite bind_ok. cbn [fst snd]. rewrite IH.
    reflexivity.
Qed.

Lemma gate_required_entry_not_string fs policy mode base rg en rf paths v rest :
  policy_section policy = Ok rg ->
  Py.get rg "enabled" (PBool true) = Ok en ->
  Py.truthy en = true ->
  Py.get rg "required_files" (PList []) = Ok rf ->
  Py.iter (Py.or_else rf (PList [])) = Ok ((PStr <$> paths) ++ v :: rest) ->
  not_a_string v ->
  gate_one_mode fs policy mode base
  = (EvExists <$> (joinpath (joinpath base mode) <$> paths), Raise TypeError).
Proof.
  intros Hsec Hen Hon Hrf Hit Hv. unfold gate_one_mode.
  rewrite Hsec, bind_lift_ok, Hen, bind_lift_ok, Hon. cbn [negb]. cbv zeta.
  rewrite Hrf, bind_lift_ok, Hit, bind_lift_ok.
  by rewrite (missing_of_raises _ _ _ _ _ Hv).
Qed.

End RejectedConfiguration.

(** X17.  An entry of required_files that is not a string is rejected with
    an uncaught TypeError, not with an exit code: the gate probes the
    entries before it, in order, and stops there, so nothing is printed, no
    artifact is read and no later entry is probed. *)
Theorem required_files_entry_not_string {P : Platform}
    (fs : filesystem) (policy rg en rf : pyval) (mode : string) (base : Path)
    (paths : list string) (v : pyval) (rest : list pyval) :
  policy_section policy = Ok rg ->
  Py.get rg "enabled" (PBool true) = Ok en ->
  Py.truthy en = true ->
  Py.get rg "required_files" (PList []) = Ok rf ->
  Py.iter (Py.or_else rf (PList [])) = Ok ((PStr <$> paths) ++ v :: rest) ->
  not_a_string v ->
  gate_one_mode fs policy mode base
  = (EvExists <$> (joinpath (joinpath base mode) <$> paths), Raise TypeError).
Proof. apply gate_required_entry_not_string. Qed.

Lemma required_files_entry_not_string_witness :
  gate_one_mode Cases.medium_disk
    (Cases.section [("required_files",
                     PList [PStr "manifest.sig"; PInt 7; PStr "a.json"])])
    "tokyo" (mkpath "outputs")
  = ([EvExists (joinpath (joinpath (mkpath "outputs") "tokyo") "manifest.sig")],
     Raise TypeError).
Proof.
  apply (required_files_entry_not_string (P := Demo.platform) Cases.medium_disk _
           (PDict [("required_files", PList [PStr "manifest.sig"; PInt 7; PStr "a.json"])])
           (PBool true) (PList [PStr "manifest.sig"; PInt 7; PStr "a.json"])
           "tokyo" (mkpath "outputs") ["manifest.sig"] (PInt 7) [PStr "a.json"]).
  - reflexivity.
  - reflexivity.
  - reflexivity.
  - reflexivity.
  - reflexivity.
  - intros s. discriminate.
Defined.

Section PolicyShape.
Context {P : Platform}.

Lemma run_modes_head_raises fs policy base modes t e :
  (forall m, gate_one_mode fs policy m base = (t, Raise e)) ->
  modes <> [] ->
  run_modes fs policy base modes = (t, Raise e).
Proof.
  intros Hgate Hne. destruct modes as [|m rest]; [done|].
  cbn [run_modes]. by rewrite Hgate.
Qed.

Lemma modes_of_nonempty mode : modes_of mode <> [].
Proof. unfold modes_of. by destruct (String.eqb mode "both"). Qed.

Lemma gate_policy_not_object fs policy mode base :
  Py.is_dict policy = false ->
  gate_one_mode fs policy mode base = ([], Raise AttributeError).
Proof. by destruct policy. Qed.

Lemma policy_section_entry items sec :
  Py.assoc "release_gate" items = Some sec ->
  policy_section (PDict items) = Ok (Py.or_else sec (PDict [])).
Proof. intros Hsec. unfold policy_section, Py.get. by rewrite Hsec. Qed.

Lemma gate_section_not_object fs items sec mode base :
  Py.assoc "release_gate" items = Some sec ->
  Py.truthy sec = true -> Py.is_dict sec = false ->
  gate_one_mode fs (PDict items) mode base = ([], Raise AttributeError).
Proof.
  intros Hsec Hon Hshape. unfold gate_one_mode.
  rewrite (policy_section_entry items sec Hsec), bind_lift_ok.
  unfold Py.or_else. rewrite Hon. by destruct sec.
Qed.

Lemma gate_section_falsy fs items sec mode base :
  Py.assoc "release_gate" items = Some sec ->
  Py.truthy sec = false ->
  gate_one_mode fs (PDict items) mode base = gate_one_mode fs (PDict []) mode base.
Proof.
  intros Hsec Hoff. unfold gate_one_mode.
  rewrite (policy_section_entry items sec Hsec).
  unfold Py.or_else. by rewrite Hoff.
Qed.

End PolicyShape.

(** X18.  The shape of a loaded policy.  A policy that is not a mapping, or
    whose release_gate entry is a non-empty value other than a mapping,
    ends the run with an uncaught AttributeError right after the policy
    load: no exit code from the taxonomy, nothing printed, no output
    accessed.  A release_gate entry that is falsy (null, false, 0, an empty
    string, list or mapping) does not switch the gate off: every mode is
    evaluated exactly as under the empty policy, that is enabled, with every
    setting at its default. *)
Theorem policy_shape {P : Platform}
    (fs : filesystem) (a : args) (t0 : trace) (policy : pyval) :
  load_policy fs (mkpath (arg_policy a)) = (t0, Ok policy) ->
  (Py.is_dict policy = false -> main fs a = (t0, Uncaught AttributeError)) /\
  (forall items sec,
      policy = PDict items -> Py.assoc "release_gate" items = Some sec ->
      Py.truthy sec = true -> Py.is_dict sec = false ->
      main fs a = (t0, Uncaught AttributeError)) /\
  (forall items sec mode base,
      policy = PDict items -> Py.assoc "release_gate" items = Some sec ->
      Py.truthy sec = false ->
      gate_one_mode fs policy mode base = gate_one_mode fs (PDict []) mode base).
Proof.
  intros Hload. split; [|split].
  - intros Hshape. rewrite (main_unfold fs a t0 policy Hload).
    rewrite (run_modes_head_raises fs policy _ _ [] AttributeError).
    + cbn [fst snd]. by rewrite app_nil_r.
    + intros m. by apply gate_policy_not_object.
    + apply modes_of_nonempty.
  - intros items sec -> Hsec Hon Hshape. rewrite (main_unfold fs a t0 _ Hload).
    rewrite (run_modes_head_raises fs (PDict items) _ _ [] AttributeError).
    + cbn [fst snd]. by rewrite app_nil_r.
    + intros m. by apply (gate_section_not_object fs items sec).
    + apply modes_of_nonempty.
  - intros items sec mode base -> Hsec Hoff. by apply (gate_section_falsy fs items sec).
Qed.

Lemma policy_shape_witness :
  main (Demo.disk [("policy.yml", File (Demo.js "{'release_gate': 'on'}"))]) Cases.both_args
  = ([EvRead (mkpath "policy.yml")], Uncaught AttributeError).
Proof.
  refine (proj1 (proj2 (policy_shape (P := Demo.platform)
            (Demo.disk [("policy.yml", File (Demo.js "{'release_gate': 'on'}"))])
            Cases.both_args [EvRead (mkpath "policy.yml")]
            (PDict [("release_gate", PStr "on")]) _))
            [("release_gate", PStr "on")] (PStr "on") eq_refl eq_refl eq_refl eq_refl).
  by vm_compute.
Defined.

Ltac settle_code :=
  repeat match goal with
  | |- context [decide ?p] =>
      destruct (decide p) as [?|?];
      try match goal with
      | H : _ = _ |- _ => discriminate H
      | H : _ \/ _ |- _ => destruct H as [H|H]; discriminate H
      | H : ~ (_ = _) |- _ => exfalso; apply H; reflexivity
      | H : ~ (_ \/ _) |- _ => exfalso; apply H; first [left; reflexivity | right; reflexivity]
      end
  end.

Section SummaryContent.
Context {P : Platform}.

Lemma gate_summary_content fs policy mode base rg en :
  policy_section policy = Ok rg ->
  Py.get rg "enabled" (PBool true) = Ok en ->
  Py.truthy en = true ->
  wp (gate_one_mode fs policy mode base)
     (fun t code => summary_content fs rg (joinpath base mode) mode t code).
Proof.
  intros Hsec Hen Hon. unfold_stages.
  rewrite Hsec, bind_lift_ok, Hen, bind_lift_ok, Hon. cbn [negb]. cbv zeta.
  wp_run.
  all: tidy_facts.
  all: unfold summary_content; eexists _, _, _.
  all: split;
    [ rewrite ?prints_of_app, ?prints_of_probes, ?prints_of_prints;
      cbn [prints_of app]; rewrite ?app_nil_r; reflexivity |].
  all: split; settle_code.
  all: unfold_verdict.
  all: solve [build].
Qed.

End SummaryContent.

(** X19.  What the summary of an enabled gate shows depends on the stage
    that decided.  It lists no failure reason on PASS and exactly one on
    every other code.  Its severity table holds the counts of the findings
    artifact only when the gate got as far as counting (codes 0, 11, 12 and
    15); on a failure of an earlier stage (codes 14, 10, 16, 13) the table
    is all zeros, whatever the findings artifact holds.  The MEDIUM warning
    is computed after the HIGH check: it can appear on codes 0 and 15, and
    a summary for code 11 or 12 never carries a warning. *)
Theorem summary_shows_deciding_stage {P : Platform}
    (fs : filesystem) (policy rg en : pyval) (mode : string) (base : Path)
    (t : trace) (code : Z) :
  gate_one_mode fs policy mode base = (t, Ok code) ->
  policy_section policy = Ok rg ->
  Py.get rg "enabled" (PBool true) = Ok en ->
  Py.truthy en = true ->
  summary_content fs rg (joinpath base mode) mode t code.
Proof.
  intros Hrun Hsec Hen Hon.
  exact (gate_summary_content fs policy mode base rg en Hsec Hen Hon t code Hrun).
Qed.

Lemma summary_shows_deciding_stage_witness :
  exists t,
    gate_one_mode Cases.signer_only_disk Cases.policy_defaults "tokyo" (mkpath "outputs")
    = (t, Ok E_MANIFEST_SIGN) /\
    summary_content Cases.signer_only_disk (PDict [])
      (joinpath (mkpath "outputs") "tokyo") "tokyo" t E_MANIFEST_SIGN.
Proof.
  eexists. split; [by vm_compute|].
  apply (summary_shows_deciding_stage (P := Demo.platform) Cases.signer_only_disk
           Cases.policy_defaults (PDict []) (PBool true) "tokyo" (mkpath "outputs")).
  - by vm_compute.
  - reflexivity.
  - reflexivity.
  - reflexivity.
Defined.
